(** * Coupon management: eligibility, discount and best-coupon selection

    A shallow embedding of [main.py] (the FastAPI coupon service) and the
    properties of its eligibility evaluator, discount calculator, selector
    and in-memory storage.

    Conventions of the embedding:
    - a Python [float] is an IEEE-754 binary64 value, represented by
      [spec_float] at precision 53 and maximal exponent 1024;
    - a Python [int] is a [Z];
    - [Optional[T]] is [option T], and Python truthiness of each field is
      written out ([None], [0], [0.0], [False] and the empty list are falsy);
    - the module-level dictionaries [coupons] and [usage_counter] form an
      explicit store threaded through the three routes;
    - [date.today()] is an input of the functions that read it, the same
      day for all coupons of one request;
    - the one exception the helpers can raise, [OverflowError] from
      converting an oversized integer quantity to a float, is a [Raise]
      result, as is the [HTTPException] of the creation route. *)

From Stdlib Require Import ZArith Bool List Lia.
From Stdlib Require Import SpecFloat.
From stdpp Require Import gmap strings list fin_maps.

Local Open Scope Z_scope.

(* ===================================================================== *)
(** ** Python floats *)
(* ===================================================================== *)

Module PyFloat.

Definition prec : Z := 53.
Definition emax : Z := 1024.

Definition float : Type := spec_float.

Definition pos_zero : float := S754_zero false.
Definition neg_zero : float := S754_zero true.
Definition nan : float := S754_nan.
Definition pos_inf : float := S754_infinity false.

Definition add (x y : float) : float := SFadd prec emax x y.
Definition sub (x y : float) : float := SFsub prec emax x y.
Definition mul (x y : float) : float := SFmul prec emax x y.
Definition div (x y : float) : float := SFdiv prec emax x y.

Definition ltb (x y : float) : bool := SFltb x y.
Definition leb (x y : float) : bool := SFleb x y.
Definition eqb (x y : float) : bool := SFeqb x y.

(** [x > y] and [x >= y] are the mirrored comparisons. *)
Definition gtb (x y : float) : bool := ltb y x.
Definition geb (x y : float) : bool := leb y x.

(** [bool(x)]: a float is falsy exactly when it compares equal to zero
    (both signed zeros are falsy, NaN is truthy). *)
Definition truthy (x : float) : bool :=
  match x with
  | S754_zero _ => false
  | _ => true
  end.

(** A value a running interpreter can hold: canonical mantissa and
    exponent in range. *)
Definition valid (x : float) : bool := valid_binary prec emax x.

Definition is_nan (x : float) : bool :=
  match x with S754_nan => true | _ => false end.

Definition is_finite (x : float) : bool :=
  match x with
  | S754_zero _ | S754_finite _ _ _ => true
  | _ => false
  end.

(** Exact conversion of small integers, rounding to nearest-even beyond
    2^53.  [float(n)] raises [OverflowError] when the rounded value does
    not fit; that case is [None]. *)
Definition of_int (n : Z) : option float :=
  match binary_normalize prec emax n 0 false with
  | S754_infinity _ => None
  | f => Some f
  end.

(** The literal [100] of [discountValue / 100], converted for the
    division. *)
Definition hundred : float := S754_finite false 7036874417766400 (-46).

(** The builtin [min(a, b)]: the first argument is kept unless the second
    is strictly smaller. *)
Definition py_min (a b : float) : float := if ltb b a then b else a.

(** Chaining two comparison outcomes among [Lt] and [Eq]. *)
Definition chain (c1 c2 : comparison) : comparison :=
  match c1, c2 with
  | Eq, Eq => Eq
  | _, _ => Lt
  end.

End PyFloat.

Abbreviation float := PyFloat.float.

(* ===================================================================== *)
(** ** Exceptions *)
(* ===================================================================== *)

Inductive exn : Type :=
| HTTPException (status : Z) (detail : string)
| OverflowError.

Inductive result (A : Type) : Type :=
| Ok (a : A)
| Raise (e : exn).
Arguments Ok {A} a.
Arguments Raise {A} e.

Definition bind {A B : Type} (m : result A) (k : A -> result B) : result B :=
  match m with
  | Ok a => k a
  | Raise e => Raise e
  end.

Notation "'let!' x ':=' m 'in' k" := (bind m (fun x => k))
  (at level 10, x name, m at level 100, k at level 200).

(* ===================================================================== *)
(** ** Models *)
(* ===================================================================== *)

(** [datetime.date]: ordered lexicographically by year, month, day. *)
Record date : Type := mkDate { year : Z; month : Z; day : Z }.

Definition date_leb (a b : date) : bool :=
  if year a <? year b then true
  else if year b <? year a then false
  else if month a <? month b then true
  else if month b <? month a then false
  else day a <=? day b.

Definition date_ltb (a b : date) : bool :=
  if year a <? year b then true
  else if year b <? year a then false
  else if month a <? month b then true
  else if month b <? month a then false
  else day a <? day b.

Inductive DiscountType : Type := FLAT | PERCENT.

Record Eligibility : Type := mkEligibility {
  allowedUserTiers : option (list string);
  minLifetimeSpend : option float;
  minOrdersPlaced : option Z;
  firstOrderOnly : option bool;
  allowedCountries : option (list string);
  minCartValue : option float;
  applicableCategories : option (list string);
  excludedCategories : option (list string);
  minItemsCount : option Z
}.

Record Coupon : Type := mkCoupon {
  code : string;
  description : option string;
  discountType : DiscountType;
  discountValue : float;
  maxDiscountAmount : option float;
  startDate : date;
  endDate : date;
  usageLimitPerUser : option Z;
  eligibility : option Eligibility
}.

Record UserContext : Type := mkUser {
  userId : string;
  userTier : option string;
  country : option string;
  lifetimeSpend : float;
  ordersPlaced : Z
}.

Record CartItem : Type := mkItem {
  productId : string;
  category : option string;
  unitPrice : float;
  quantity : Z
}.

Record Cart : Type := mkCart { items : list CartItem }.

Record BestCouponRequest : Type := mkReq { user : UserContext; cart : Cart }.

(* ===================================================================== *)
(** ** Truthiness of the optional rule fields *)
(* ===================================================================== *)

Definition truthy_float (o : option float) : bool :=
  match o with Some x => PyFloat.truthy x | None => false end.

Definition truthy_int (o : option Z) : bool :=
  match o with Some n => negb (n =? 0) | None => false end.

Definition truthy_bool (o : option bool) : bool :=
  match o with Some b => b | None => false end.

Definition truthy_list {A : Type} (o : option (list A)) : bool :=
  match o with Some (_ :: _) => true | _ => false end.

(** The payload of a field once it is known truthy (the default is never
    read on that path). *)
Definition float_of (o : option float) : float := default PyFloat.pos_zero o.
Definition int_of (o : option Z) : Z := default 0 o.
Definition list_of {A : Type} (o : option (list A)) : list A := default [] o.

(** [x in xs] for an optional string against a list of strings. *)
Definition py_in (x : option string) (xs : list string) : bool :=
  match x with
  | Some s => bool_decide (s ∈ xs)
  | None => false
  end.

(* ===================================================================== *)
(** ** In-memory storage *)
(* ===================================================================== *)

(** [coupons] is a [dict] whose enumeration order is insertion order: an
    association list with one binding per key. *)
Definition od_contains {V : Type} (k : string) (d : list (string * V)) : bool :=
  bool_decide (k ∈ d.*1).

(** [d[k] = v]: an existing key keeps its position, a new key goes last. *)
Fixpoint od_set {V : Type} (k : string) (v : V) (d : list (string * V)) : list (string * V) :=
  match d with
  | [] => [(k, v)]
  | (k', v') :: d' => if bool_decide (k' = k) then (k, v) :: d' else (k', v') :: od_set k v d'
  end.

Definition od_values {V : Type} (d : list (string * V)) : list V := d.*2.
Definition od_keys {V : Type} (d : list (string * V)) : list string := d.*1.

Record Store : Type := mkStore {
  coupons : list (string * Coupon);
  usage_counter : gmap string (gmap string Z)
}.

Definition empty_store : Store := mkStore [] ∅.

(* ===================================================================== *)
(** ** Helper functions *)
(* ===================================================================== *)

(** One term [i.unitPrice * i.quantity] of the sum: the integer quantity is
    converted to a float first, which is where [OverflowError] can arise. *)
Definition line_total (i : CartItem) : result float :=
  match PyFloat.of_int (quantity i) with
  | Some q => Ok (PyFloat.mul (unitPrice i) q)
  | None => Raise OverflowError
  end.

(** [sum(...)] folds from the left.  Its start value is the integer [0],
    which behaves as [+0.0] in every later float operation. *)
Fixpoint sum_from (acc : float) (l : list CartItem) : result float :=
  match l with
  | [] => Ok acc
  | i :: l' => let! x := line_total i in sum_from (PyFloat.add acc x) l'
  end.

Definition cart_total (cart : Cart) : result float :=
  sum_from PyFloat.pos_zero (items cart).

(** [{i.category for i in cart.items}] *)
Definition cart_categories (cart : Cart) : gset (option string) :=
  list_to_set (category <$> items cart).

(** [categories.intersection(xs)], and its truthiness. *)
Definition intersection (cats : gset (option string)) (xs : list string) : gset (option string) :=
  cats ∩ list_to_set (Some <$> xs).

Definition truthy_set (s : gset (option string)) : bool := bool_decide (s ≠ ∅).

(** [sum(i.quantity for i in cart.items)] *)
Definition items_count (cart : Cart) : Z :=
  fold_left (fun acc i => acc + quantity i) (items cart) 0.

(** [usage_counter.get(coupon.code, {}).get(user.userId, 0)] *)
Definition used_count (uc : gmap string (gmap string Z)) (coupon : Coupon) (user : UserContext) : Z :=
  default 0 (default ∅ (uc !! code coupon) !! userId user).

(** The block under [# Usage limit], reached from both arms of [if e:]. *)
Definition usage_limit_check (uc : gmap string (gmap string Z)) (coupon : Coupon) (user : UserContext) : bool :=
  if truthy_int (usageLimitPerUser coupon) then
    let used := used_count uc coupon user in
    if used >=? int_of (usageLimitPerUser coupon) then false else true
  else true.

(** [coupon.startDate <= today <= coupon.endDate] *)
Definition date_in_window (coupon : Coupon) (today : date) : bool :=
  date_leb (startDate coupon) today && date_leb today (endDate coupon).

(** Everything [eligible] does once the date test has let the coupon
    through: the [if e:] block and the usage limit. *)
Definition rules_and_usage (uc : gmap string (gmap string Z))
    (coupon : Coupon) (user : UserContext) (cart : Cart) : result bool :=
  match eligibility coupon with
  | Some e =>
    if truthy_list (allowedUserTiers e)
       && negb (py_in (userTier user) (list_of (allowedUserTiers e))) then Ok false
    else if truthy_float (minLifetimeSpend e)
       && PyFloat.ltb (lifetimeSpend user) (float_of (minLifetimeSpend e)) then Ok false
    else if truthy_int (minOrdersPlaced e)
       && (ordersPlaced user <? int_of (minOrdersPlaced e)) then Ok false
    else if truthy_bool (firstOrderOnly e) && (ordersPlaced user >? 0) then Ok false
    else if truthy_list (allowedCountries e)
       && negb (py_in (country user) (list_of (allowedCountries e))) then Ok false
    else
      let! total := cart_total cart in
      if truthy_float (minCartValue e)
         && PyFloat.ltb total (float_of (minCartValue e)) then Ok false
      else
        let categories := cart_categories cart in
        if truthy_list (applicableCategories e)
           && negb (truthy_set (intersection categories (list_of (applicableCategories e))))
        then Ok false
        else if truthy_list (excludedCategories e)
           && truthy_set (intersection categories (list_of (excludedCategories e)))
        then Ok false
        else if truthy_int (minItemsCount e)
           && (items_count cart <? int_of (minItemsCount e)) then Ok false
        else Ok (usage_limit_check uc coupon user)
  | None => Ok (usage_limit_check uc coupon user)
  end.

Definition eligible (uc : gmap string (gmap string Z)) (today : date)
    (coupon : Coupon) (user : UserContext) (cart : Cart) : result bool :=
  if negb (date_in_window coupon today) then Ok false
  else rules_and_usage uc coupon user cart.

Definition get_discount (coupon : Coupon) (total : float) : float :=
  match discountType coupon with
  | FLAT => discountValue coupon
  | PERCENT =>
    let percent := PyFloat.mul (PyFloat.div (discountValue coupon) PyFloat.hundred) total in
    if truthy_float (maxDiscountAmount coupon)
    then PyFloat.py_min percent (float_of (maxDiscountAmount coupon))
    else percent
  end.

(* ===================================================================== *)
(** ** Routes *)
(* ===================================================================== *)

(** A route runs against the store and leaves a store behind, whether it
    returns or raises. *)
Definition route (A : Type) : Type := Store -> result A * Store.

Inductive CreateResponse : Type :=
| Created (message : string) (coupon : Coupon).

Definition create_coupon (coupon : Coupon) : route CreateResponse := fun s =>
  if od_contains (code coupon) (coupons s)
  then (Raise (HTTPException 400 "Coupon already exists"), s)
  else
    let s1 := mkStore (od_set (code coupon) coupon (coupons s)) (usage_counter s) in
    let s2 := mkStore (coupons s1) (<[code coupon := ∅]> (usage_counter s1)) in
    (Ok (Created "Coupon created" coupon), s2).

Definition list_all : route (list Coupon) := fun s =>
  (Ok (od_values (coupons s)), s).

(** The running pair [(best, best_discount)] of the selection loop. *)
Definition selection : Type := (option Coupon * float)%type.

Definition initial_selection : selection := (None, PyFloat.pos_zero).

(** One iteration of [for c in coupons.values()]. *)
Definition select_step (uc : gmap string (gmap string Z)) (today : date)
    (user : UserContext) (cart : Cart) (total : float)
    (st : selection) (c : Coupon) : result selection :=
  let! ok := eligible uc today c user cart in
  if ok then
    let disc := get_discount c total in
    if PyFloat.gtb disc (snd st) then Ok (Some c, disc) else Ok st
  else Ok st.

Fixpoint select_loop (uc : gmap string (gmap string Z)) (today : date)
    (user : UserContext) (cart : Cart) (total : float)
    (st : selection) (cs : list Coupon) : result selection :=
  match cs with
  | [] => Ok st
  | c :: cs' =>
    let! st' := select_step uc today user cart total st c in
    select_loop uc today user cart total st' cs'
  end.

Inductive BestResponse : Type :=
| NoCoupon
| BestCoupon (coupon : string) (discount : float) (final_price : float).

Definition best_coupon (today : date) (req : BestCouponRequest) : route BestResponse := fun s =>
  match cart_total (cart req) with
  | Raise e => (Raise e, s)
  | Ok total =>
    match select_loop (usage_counter s) today (user req) (cart req) total
            initial_selection (od_values (coupons s)) with
    | Raise e => (Raise e, s)
    | Ok (None, _) => (Ok NoCoupon, s)
    | Ok (Some best, best_discount) =>
      (Ok (BestCoupon (code best) best_discount (PyFloat.sub total best_discount)), s)
    end
  end.

(* ===================================================================== *)
(** ** Sample data *)
(* ===================================================================== *)

Module Sample.

Definition fl (n : Z) : float := default PyFloat.nan (PyFloat.of_int n).

Definition d (y m dd : Z) : date := mkDate y m dd.
Definition today : date := d 2025 6 15.

Definition no_rules : Eligibility :=
  mkEligibility None None None None None None None None None.

Definition flat (c : string) (v : Z) : Coupon :=
  mkCoupon c None FLAT (fl v) None (d 2025 1 1) (d 2025 12 31) None None.

Definition percent (c : string) (v : Z) (cap : option Z) : Coupon :=
  mkCoupon c None PERCENT (fl v) (fl <$> cap) (d 2025 1 1) (d 2025 12 31) None None.

Definition alice : UserContext := mkUser "alice" (Some "GOLD") (Some "IN") (fl 500) 3.

Definition item (cat : string) (price qty : Z) : CartItem :=
  mkItem "p" (Some cat) (fl price) qty.

Definition cart50 : Cart := mkCart [item "books" 20 2; item "toys" 10 1].
Definition cart100 : Cart := mkCart [item "books" 50 2].

Definition req50 : BestCouponRequest := mkReq alice cart50.
Definition req100 : BestCouponRequest := mkReq alice cart100.

End Sample.

(* ===================================================================== *)
(** ** Field updates used to compare coupons that differ in one rule *)
(* ===================================================================== *)

Definition with_usageLimit (v : option Z) (c : Coupon) : Coupon :=
  mkCoupon (code c) (description c) (discountType c) (discountValue c)
    (maxDiscountAmount c) (startDate c) (endDate c) v (eligibility c).

Definition with_eligibility (v : option Eligibility) (c : Coupon) : Coupon :=
  mkCoupon (code c) (description c) (discountType c) (discountValue c)
    (maxDiscountAmount c) (startDate c) (endDate c) (usageLimitPerUser c) v.

Definition with_maxDiscount (v : option float) (c : Coupon) : Coupon :=
  mkCoupon (code c) (description c) (discountType c) (discountValue c)
    v (startDate c) (endDate c) (usageLimitPerUser c) (eligibility c).

Module Rule.

Definition set_allowedUserTiers (v : option (list string)) (e : Eligibility) :=
  mkEligibility v (minLifetimeSpend e) (minOrdersPlaced e) (firstOrderOnly e)
    (allowedCountries e) (minCartValue e) (applicableCategories e)
    (excludedCategories e) (minItemsCount e).

Definition set_minLifetimeSpend (v : option float) (e : Eligibility) :=
  mkEligibility (allowedUserTiers e) v (minOrdersPlaced e) (firstOrderOnly e)
    (allowedCountries e) (minCartValue e) (applicableCategories e)
    (excludedCategories e) (minItemsCount e).

Definition set_minOrdersPlaced (v : option Z) (e : Eligibility) :=
  mkEligibility (allowedUserTiers e) (minLifetimeSpend e) v (firstOrderOnly e)
    (allowedCountries e) (minCartValue e) (applicableCategories e)
    (excludedCategories e) (minItemsCount e).

Definition set_firstOrderOnly (v : option bool) (e : Eligibility) :=
  mkEligibility (allowedUserTiers e) (minLifetimeSpend e) (minOrdersPlaced e) v
    (allowedCountries e) (minCartValue e) (applicableCategories e)
    (excludedCategories e) (minItemsCount e).

Definition set_allowedCountries (v : option (list string)) (e : Eligibility) :=
  mkEligibility (allowedUserTiers e) (minLifetimeSpend e) (minOrdersPlaced e)
    (firstOrderOnly e) v (minCartValue e) (applicableCategories e)
    (excludedCategories e) (minItemsCount e).

Definition set_minCartValue (v : option float) (e : Eligibility) :=
  mkEligibility (allowedUserTiers e) (minLifetimeSpend e) (minOrdersPlaced e)
    (firstOrderOnly e) (allowedCountries e) v (applicableCategories e)
    (excludedCategories e) (minItemsCount e).

Definition set_applicableCategories (v : option (list string)) (e : Eligibility) :=
  mkEligibility (allowedUserTiers e) (minLifetimeSpend e) (minOrdersPlaced e)
    (firstOrderOnly e) (allowedCountries e) (minCartValue e) v
    (excludedCategories e) (minItemsCount e).

Definition set_excludedCategories (v : option (list string)) (e : Eligibility) :=
  mkEligibility (allowedUserTiers e) (minLifetimeSpend e) (minOrdersPlaced e)
    (firstOrderOnly e) (allowedCountries e) (minCartValue e)
    (applicableCategories e) v (minItemsCount e).

Definition set_minItemsCount (v : option Z) (e : Eligibility) :=
  mkEligibility (allowedUserTiers e) (minLifetimeSpend e) (minOrdersPlaced e)
    (firstOrderOnly e) (allowedCountries e) (minCartValue e)
    (applicableCategories e) (excludedCategories e) v.

End Rule.

(* ===================================================================== *)
(** ** Runs of the service *)
(* ===================================================================== *)

(** A request to one of the three routes; [date.today()] at the time of a
    [/best-coupon] request is part of the request. *)
Inductive request : Type :=
| PostCoupon (coupon : Coupon)
| GetCoupons
| PostBestCoupon (today : date) (req : BestCouponRequest).

(** The store after serving a request (the response is dropped). *)
Definition serve (s : Store) (r : request) : Store :=
  match r with
  | PostCoupon c => snd (create_coupon c s)
  | GetCoupons => snd (list_all s)
  | PostBestCoupon today req => snd (best_coupon today req s)
  end.

Definition serve_all (rs : list request) : Store := fold_left serve rs empty_store.

(** The key sets of the two dictionaries agree. *)
Definition ledger_matches_catalog (s : Store) : Prop :=
  dom (usage_counter s) = list_to_set (od_keys (coupons s)).

(** The key under which a coupon is stored is its own code, and no key
    occurs twice. *)
Definition catalog_wf (s : Store) : Prop :=
  NoDup (od_keys (coupons s)) /\ Forall (fun kv => fst kv = code (snd kv)) (coupons s).

(** The first-order rule read as an equivalence with [ordersPlaced == 0],
    at given inputs. *)
Definition first_order_iff_zero (uc : gmap string (gmap string Z)) (today : date)
    (c : Coupon) (e : Eligibility) (u : UserContext) (cart : Cart) : Prop :=
  eligibility c = Some e ->
  firstOrderOnly e = Some true ->
  eligible uc today (with_eligibility (Some (Rule.set_firstOrderOnly None e)) c) u cart = Ok true ->
  (eligible uc today c u cart = Ok true <-> ordersPlaced u = 0)
  /\ (ordersPlaced u <> 0 -> eligible uc today c u cart = Ok false).

(* ===================================================================== *)
(** ** The rule block, rule by rule *)
(* ===================================================================== *)

(** The five rules that look at the user only, each passing when it is not
    configured (falsy) or satisfied. *)
Definition user_rules_hold (e : Eligibility) (u : UserContext) : bool :=
  (negb (truthy_list (allowedUserTiers e))
   || py_in (userTier u) (list_of (allowedUserTiers e)))
  && (negb (truthy_float (minLifetimeSpend e))
      || negb (PyFloat.ltb (lifetimeSpend u) (float_of (minLifetimeSpend e))))
  && (negb (truthy_int (minOrdersPlaced e))
      || negb (ordersPlaced u <? int_of (minOrdersPlaced e)))
  && (negb (truthy_bool (firstOrderOnly e)) || negb (ordersPlaced u >? 0))
  && (negb (truthy_list (allowedCountries e))
      || py_in (country u) (list_of (allowedCountries e))).

(** The four rules that look at the cart, given its total. *)
Definition cart_rules_hold (e : Eligibility) (cart : Cart) (total : float) : bool :=
  (negb (truthy_float (minCartValue e))
   || negb (PyFloat.ltb total (float_of (minCartValue e))))
  && (negb (truthy_list (applicableCategories e))
      || truthy_set (intersection (cart_categories cart) (list_of (applicableCategories e))))
  && (negb (truthy_list (excludedCategories e))
      || negb (truthy_set (intersection (cart_categories cart)
                             (list_of (excludedCategories e)))))
  && (negb (truthy_int (minItemsCount e))
      || negb (items_count cart <? int_of (minItemsCount e))).

(** [eligible] seen as a filter: a raised exception selects nothing. *)
Definition eligible_now (uc : gmap string (gmap string Z)) (today : date)
    (u : UserContext) (cart : Cart) (c : Coupon) : bool :=
  match eligible uc today c u cart with
  | Ok b => b
  | Raise _ => false
  end.

(** The discount a response grants; none is zero. *)
Definition discount_of (r : result BestResponse) : float :=
  match r with
  | Ok (BestCoupon _ d _) => d
  | _ => PyFloat.pos_zero
  end.

(** The catalog restricted to the coupons a test accepts, order kept. *)
Definition od_filter {V : Type} (f : V -> bool) (d : list (string * V)) : list (string * V) :=
  List.filter (fun kv => f (snd kv)) d.

(** The coupons a run of requests tried to create, in request order. *)
Definition posted (rs : list request) : list Coupon :=
  omap (fun r => match r with PostCoupon c => Some c | _ => None end) rs.

(** Every ledger entry is an empty map: nobody has redeemed anything. *)
Definition ledger_all_empty (s : Store) : Prop :=
  forall k m, usage_counter s !! k = Some m -> m = ∅.

(** The date window read as inclusive at both ends for every coupon, at
    given inputs: outside the window the coupon is rejected, and on
    [startDate] and on [endDate] the date test passes. *)
Definition date_window_inclusive_at (uc : gmap string (gmap string Z)) (today : date)
    (c : Coupon) (u : UserContext) (cart : Cart) : Prop :=
  (date_ltb today (startDate c) = true \/ date_ltb (endDate c) today = true ->
     eligible uc today c u cart = Ok false)
  /\ (today = startDate c \/ today = endDate c -> date_in_window c today = true).

(** The PERCENT discount read as monotone in the cart total, at given
    inputs. *)
Definition percent_monotone_at (c : Coupon) (t1 t2 : float) : Prop :=
  discountType c = PERCENT ->
  PyFloat.leb t1 t2 = true ->
  PyFloat.leb (get_discount c t1) (get_discount c t2) = true.

(* ===================================================================== *)
(** ** Rounding to binary64, restated for the proofs *)
(* ===================================================================== *)

Module Rounding.

Import PyFloat.

(** The exponent function of binary64. *)
Definition fexp64 (e : Z) : Z := fexp prec emax e.

(** Right shift by [k] positions, one position at a time. *)
Definition shr_nat (k : nat) (mrs : shr_record) : shr_record := Nat.iter k shr_1 mrs.

(** Rounding to nearest, ties to even, from the round and sticky bits. *)
Definition rne (mrs : shr_record) : Z :=
  round_nearest_even (shr_m mrs) (loc_of_shr_record mrs).

(** What [binary_round_aux] builds from a rounded mantissa [mr] at
    exponent [e]: a carry into bit 53 moves the exponent up by one. *)
Definition finish (sx : bool) (mr e : Z) : spec_float :=
  if mr =? 0 then S754_zero sx
  else if mr <? 2 ^ 53 then
    if e <=? emax - prec then S754_finite sx (Z.to_pos mr) e else S754_infinity sx
  else
    if e + 1 <=? emax - prec then S754_finite sx (Z.to_pos (2 ^ 52)) (e + 1)
    else S754_infinity sx.

(** [M1 * 2^E1 <= M2 * 2^E2], stated over the integers. *)
Definition value_le (M1 E1 M2 E2 : Z) : Prop :=
  M1 * 2 ^ (E1 - Z.min E1 E2) <= M2 * 2 ^ (E2 - Z.min E1 E2).

(** The remainder dropped by a shift, as recorded in the two bits. *)
Definition shifted (M : Z) (k : Z) (mrs : shr_record) : Prop :=
  exists rem,
    0 <= rem < 2 ^ k
    /\ M = shr_m mrs * 2 ^ k + rem
    /\ (shr_r mrs = true <-> 2 ^ k <= 2 * rem)
    /\ (shr_s mrs = true <-> rem <> 0 /\ 2 * rem <> 2 ^ k).

End Rounding.

(* ===================================================================== *)
(** ** Dates *)
(* ===================================================================== *)

Lemma date_leb_refl (a : date) : date_leb a a = true.
Proof.
  unfold date_leb. rewrite !Z.ltb_irrefl. apply Z.leb_refl.
Qed.

Lemma date_leb_ltb (a b : date) : date_leb a b = negb (date_ltb b a).
Proof.
  unfold date_leb, date_ltb.
  destruct (Z.ltb_spec (year a) (year b)), (Z.ltb_spec (year b) (year a));
    try lia; try reflexivity.
  destruct (Z.ltb_spec (month a) (month b)), (Z.ltb_spec (month b) (month a));
    try lia; reflexivity.
Qed.

Lemma date_in_window_outside (c : Coupon) (today : date) :
  date_ltb today (startDate c) = true \/ date_ltb (endDate c) today = true ->
  date_in_window c today = false.
Proof.
  unfold date_in_window. rewrite !date_leb_ltb.
  intros [-> | ->]; simpl; [reflexivity | apply andb_false_r].
Qed.

Lemma date_in_window_start (c : Coupon) :
  date_in_window c (startDate c) = date_leb (startDate c) (endDate c).
Proof. unfold date_in_window. now rewrite date_leb_refl. Qed.

Lemma date_in_window_end (c : Coupon) :
  date_in_window c (endDate c) = date_leb (startDate c) (endDate c).
Proof. unfold date_in_window. now rewrite date_leb_refl, andb_true_r. Qed.

(* ===================================================================== *)
(** ** Eligibility: general facts *)
(* ===================================================================== *)

Lemma eligible_in_window uc today c u cart :
  date_in_window c today = true ->
  eligible uc today c u cart = rules_and_usage uc c u cart.
Proof. unfold eligible. now intros ->. Qed.

Lemma eligible_outside_window uc today c u cart :
  date_in_window c today = false ->
  eligible uc today c u cart = Ok false.
Proof. unfold eligible. now intros ->. Qed.

Lemma eligible_true_in_window uc today c u cart :
  eligible uc today c u cart = Ok true -> date_in_window c today = true.
Proof.
  unfold eligible. destruct (date_in_window c today); [reflexivity | discriminate].
Qed.

(** The usage limit is consulted last: a coupon is eligible exactly when it
    is eligible with its limit removed and the limit check lets it pass. *)
Lemma eligible_usage_split uc today c u cart :
  eligible uc today c u cart =
  let! ok := eligible uc today (with_usageLimit None c) u cart in
  Ok (ok && usage_limit_check uc c u).
Proof.
  unfold eligible, date_in_window, rules_and_usage, usage_limit_check; simpl.
  destruct (negb _); [reflexivity |].
  destruct (eligibility c) as [e |]; [| reflexivity].
  repeat (match goal with
          | |- context [if ?b then Ok false else _] => destruct b; [reflexivity |]
          end).
  destruct (cart_total cart) as [total | err]; [| reflexivity]. simpl.
  repeat (match goal with
          | |- context [if ?b then Ok false else _] => destruct b; [reflexivity |]
          end).
  reflexivity.
Qed.

(** The first-order gate can be pulled out of the rule block: with the gate
    closed the coupon is rejected unless an earlier rule already rejected
    it, and with the gate open the rule plays no part. *)
Lemma rules_first_order_split uc c e u cart :
  eligibility c = Some e ->
  rules_and_usage uc (with_eligibility (Some (Rule.set_firstOrderOnly None e)) c) u cart = Ok true ->
  rules_and_usage uc c u cart =
  Ok (negb (truthy_bool (firstOrderOnly e) && (ordersPlaced u >? 0))).
Proof.
  unfold rules_and_usage, usage_limit_check, used_count. intros ->. simpl.
  destruct (truthy_bool (firstOrderOnly e) && (ordersPlaced u >? 0)) eqn:Hgate; simpl.
  - do 3 (match goal with
          | |- (if ?b then _ else _) = _ -> _ => destruct b; [discriminate |]
          end).
    reflexivity.
  - intros H; exact H.
Qed.

(* ===================================================================== *)
(** ** Insertion-ordered dictionary *)
(* ===================================================================== *)

Lemma od_contains_true {V : Type} (k : string) (d : list (string * V)) :
  od_contains k d = true <-> k ∈ od_keys d.
Proof. unfold od_contains, od_keys. apply bool_decide_eq_true. Qed.

Lemma od_contains_false {V : Type} (k : string) (d : list (string * V)) :
  od_contains k d = false <-> k ∉ od_keys d.
Proof. unfold od_contains, od_keys. apply bool_decide_eq_false. Qed.

Lemma od_set_fresh {V : Type} (k : string) (v : V) (d : list (string * V)) :
  k ∉ od_keys d -> od_set k v d = d ++ [(k, v)].
Proof.
  unfold od_keys. induction d as [| [k' v'] d IH]; simpl; intros Hk.
  - reflexivity.
  - rewrite not_elem_of_cons in Hk. destruct Hk as [Hne Hk].
    rewrite bool_decide_eq_false_2 by congruence.
    now rewrite IH.
Qed.

Lemma elem_of_od_keys_set {V : Type} (k k' : string) (v : V) (d : list (string * V)) :
  k' ∈ od_keys (od_set k v d) <-> k' = k \/ k' ∈ od_keys d.
Proof.
  unfold od_keys. induction d as [| [k0 v0] d IH]; simpl.
  - rewrite list_elem_of_singleton, elem_of_nil. tauto.
  - case_bool_decide; simpl; rewrite !elem_of_cons.
    + subst. tauto.
    + rewrite IH. tauto.
Qed.

Lemma od_keys_set {V : Type} (k : string) (v : V) (d : list (string * V)) :
  (list_to_set (od_keys (od_set k v d)) : gset string) = {[k]} ∪ list_to_set (od_keys d).
Proof.
  apply set_eq. intros k'.
  rewrite elem_of_union, !elem_of_list_to_set, elem_of_singleton.
  apply elem_of_od_keys_set.
Qed.

Lemma od_set_nodup {V : Type} (k : string) (v : V) (d : list (string * V)) :
  NoDup (od_keys d) -> NoDup (od_keys (od_set k v d)).
Proof.
  induction d as [| [k0 v0] d IH]; intros Hnd.
  - apply NoDup_singleton.
  - apply NoDup_cons in Hnd as [Hnotin Hnd].
    unfold od_keys in *. simpl. case_bool_decide; simpl.
    + subst. now apply NoDup_cons.
    + apply NoDup_cons; split; [| now apply IH].
      intros Hin. apply (elem_of_od_keys_set k k0 v d) in Hin. tauto.
Qed.

(* ===================================================================== *)
(** ** Date window *)
(* ===================================================================== *)

(** C3 as stated fails: nothing keeps [startDate] from lying after
    [endDate], and for such a coupon the date test fails on [startDate]
    itself (and on [endDate]): [startDate <= today] holds there but
    [today <= endDate] does not. *)
Lemma inverted_window_endpoint_rejected :
  let c := mkCoupon "INV" None FLAT (Sample.fl 10) None
             (Sample.d 2025 12 31) (Sample.d 2025 1 1) None None in
  ~ date_window_inclusive_at ∅ (Sample.d 2025 12 31) c Sample.alice Sample.cart50.
Proof.
  intros c [_ Hend].
  assert (Hin : date_in_window c (Sample.d 2025 12 31) = true)
    by (apply Hend; left; reflexivity).
  discriminate Hin.
Qed.

(** C3 (amended): [eligible] returns [False] whenever [today] is before
    [startDate] or after [endDate], whatever the other inputs are; and for
    a coupon whose [startDate] is not after its [endDate] the window is
    inclusive at both ends: on [startDate] and on [endDate] the date test
    passes and the verdict is that of the remaining rules. *)
Theorem eligible_date_window uc today c u cart :
  (date_ltb today (startDate c) = true \/ date_ltb (endDate c) today = true ->
     eligible uc today c u cart = Ok false)
  /\ (date_leb (startDate c) (endDate c) = true ->
      (today = startDate c \/ today = endDate c) ->
      date_in_window c today = true
      /\ eligible uc today c u cart = rules_and_usage uc c u cart).
Proof.
  split.
  - intros Hout. apply eligible_outside_window. now apply date_in_window_outside.
  - intros Hle Hday.
    assert (Hin : date_in_window c today = true).
    { destruct Hday as [-> | ->].
      - now rewrite date_in_window_start.
      - now rewrite date_in_window_end. }
    split; [exact Hin | now apply eligible_in_window].
Qed.

Lemma eligible_date_window_witness :
  eligible ∅ (Sample.d 2024 12 31) (Sample.flat "F" 10) Sample.alice Sample.cart50 = Ok false
  /\ eligible ∅ (Sample.d 2026 1 1) (Sample.flat "F" 10) Sample.alice Sample.cart50 = Ok false
  /\ eligible ∅ (Sample.d 2025 1 1) (Sample.flat "F" 10) Sample.alice Sample.cart50 = Ok true
  /\ eligible ∅ (Sample.d 2025 12 31) (Sample.flat "F" 10) Sample.alice Sample.cart50 = Ok true.
Proof.
  split; [| split; [| split]].
  - apply (eligible_date_window ∅ (Sample.d 2024 12 31) (Sample.flat "F" 10)).
    left; reflexivity.
  - apply (eligible_date_window ∅ (Sample.d 2026 1 1) (Sample.flat "F" 10)).
    right; reflexivity.
  - destruct (eligible_date_window ∅ (Sample.d 2025 1 1) (Sample.flat "F" 10)
                Sample.alice Sample.cart50) as [_ H].
    destruct H as [_ ->]; [reflexivity | left; reflexivity | reflexivity].
  - destruct (eligible_date_window ∅ (Sample.d 2025 12 31) (Sample.flat "F" 10)
                Sample.alice Sample.cart50) as [_ H].
    destruct H as [_ ->]; [reflexivity | right; reflexivity | reflexivity].
Defined.

(* ===================================================================== *)
(** ** Usage limit *)
(* ===================================================================== *)

(** C2: for a coupon whose [usageLimitPerUser] is set to a (non-falsy) [N],
    with [today] in the window and every other rule passing (the coupon is
    eligible once its limit is removed), [eligible] returns [False] exactly
    when the ledger count for (code, userId) is at least [N], and [True]
    otherwise, in particular at count [N - 1]. *)
Theorem usage_limit_boundary uc today c u cart (N : Z) :
  usageLimitPerUser c = Some N ->
  N <> 0 ->
  eligible uc today (with_usageLimit None c) u cart = Ok true ->
  (eligible uc today c u cart = Ok false <-> N <= used_count uc c u)
  /\ (eligible uc today c u cart = Ok true <-> used_count uc c u < N)
  /\ (used_count uc c u = N - 1 -> eligible uc today c u cart = Ok true).
Proof.
  intros HN Hnz Hrest.
  rewrite eligible_usage_split, Hrest. simpl.
  unfold usage_limit_check. rewrite HN. simpl.
  rewrite (proj2 (Z.eqb_neq N 0) Hnz). simpl.
  destruct (Z.geb_spec (used_count uc c u) N) as [Hge | Hlt].
  - split; [| split]; [split | split |]; intros; try lia; try discriminate; reflexivity.
  - split; [| split]; [split | split |]; intros; try lia; try discriminate; reflexivity.
Qed.

Lemma usage_limit_boundary_witness :
  let c := with_usageLimit (Some 2) (Sample.flat "L" 10) in
  let uc1 : gmap string (gmap string Z) := {[ "L" := {[ "alice" := 1 ]} ]} in
  let uc2 : gmap string (gmap string Z) := {[ "L" := {[ "alice" := 2 ]} ]} in
  eligible uc1 Sample.today c Sample.alice Sample.cart50 = Ok true
  /\ eligible uc2 Sample.today c Sample.alice Sample.cart50 = Ok false.
Proof.
  intros c uc1 uc2. split.
  - apply (usage_limit_boundary uc1 Sample.today c Sample.alice Sample.cart50 2);
      [reflexivity | lia | reflexivity | reflexivity].
  - apply (usage_limit_boundary uc2 Sample.today c Sample.alice Sample.cart50 2);
      [reflexivity | lia | reflexivity | vm_compute; discriminate].
Defined.

(** A limit of [0] is falsy and therefore not a limit at all. *)
Lemma usage_limit_zero_unlimited uc today c u cart :
  usageLimitPerUser c = Some 0 ->
  eligible uc today c u cart = eligible uc today (with_usageLimit None c) u cart.
Proof.
  intros H0. rewrite eligible_usage_split.
  unfold usage_limit_check. rewrite H0. simpl.
  destruct (eligible uc today (with_usageLimit None c) u cart) as [b |]; simpl;
    [now rewrite andb_true_r | reflexivity].
Qed.

(* ===================================================================== *)
(** ** First-order-only gate *)
(* ===================================================================== *)

(** C7 as stated fails: the gate tests [ordersPlaced > 0], so a user whose
    [ordersPlaced] is negative (the field is an unconstrained [int]) passes
    a first-order-only coupon although [ordersPlaced] is not [0]. *)
Lemma first_order_negative_orders_pass :
  let e := Rule.set_firstOrderOnly (Some true) Sample.no_rules in
  let c := with_eligibility (Some e) (Sample.flat "NEW" 10) in
  let u := mkUser "bob" None None PyFloat.pos_zero (-1) in
  ~ first_order_iff_zero ∅ Sample.today c e u Sample.cart50.
Proof.
  intros e c u Hclaim.
  destruct Hclaim as [Hiff _]; [reflexivity | reflexivity | reflexivity |].
  assert (Heq : ordersPlaced u = 0) by (apply Hiff; reflexivity).
  discriminate Heq.
Qed.

(** C7 (amended): for a coupon with [firstOrderOnly = true], [today] in the
    window and every other rule passing (the coupon is eligible once the
    gate is removed), [eligible] returns [False] exactly when
    [ordersPlaced > 0] and [True] otherwise; among the non-negative values
    of [ordersPlaced] it returns [True] exactly at [0]. *)
Theorem first_order_only_gate uc today c e u cart :
  eligibility c = Some e ->
  firstOrderOnly e = Some true ->
  eligible uc today (with_eligibility (Some (Rule.set_firstOrderOnly None e)) c) u cart = Ok true ->
  eligible uc today c u cart = Ok (negb (ordersPlaced u >? 0))
  /\ (0 <= ordersPlaced u ->
      (eligible uc today c u cart = Ok true <-> ordersPlaced u = 0)).
Proof.
  intros He Hgate Hrest.
  assert (Hwin : date_in_window c today = true)
    by exact (eligible_true_in_window _ _ _ _ _ Hrest).
  rewrite (eligible_in_window _ _ _ _ _ Hwin).
  rewrite eligible_in_window in Hrest by exact Hwin.
  rewrite (rules_first_order_split uc c e u cart He Hrest), Hgate. simpl.
  split; [reflexivity |].
  intros Hnonneg. destruct (Z.gtb_spec (ordersPlaced u) 0); simpl.
  - split; [discriminate | lia].
  - split; [lia | reflexivity].
Qed.

Lemma first_order_only_gate_witness :
  let e := Rule.set_firstOrderOnly (Some true) Sample.no_rules in
  let c := with_eligibility (Some e) (Sample.flat "NEW" 10) in
  eligible ∅ Sample.today c (mkUser "bob" None None PyFloat.pos_zero 0) Sample.cart50 = Ok true
  /\ eligible ∅ Sample.today c (mkUser "bob" None None PyFloat.pos_zero 4) Sample.cart50 = Ok false.
Proof.
  intros e c. split.
  - apply (first_order_only_gate ∅ Sample.today c e
             (mkUser "bob" None None PyFloat.pos_zero 0) Sample.cart50);
      reflexivity.
  - apply (first_order_only_gate ∅ Sample.today c e
             (mkUser "bob" None None PyFloat.pos_zero 4) Sample.cart50);
      reflexivity.
Defined.

(* ===================================================================== *)
(** ** Falsy rule values *)
(* ===================================================================== *)

(** C4: a rule field holding its falsy sentinel ([0] for the four numeric
    floors, [False] for [firstOrderOnly], the empty list for the four set
    rules) gives the same verdict as the same coupon with that field
    absent; the rule is not enforced. *)
Theorem falsy_rule_is_absent uc today c e u cart :
  let verdict e' := eligible uc today (with_eligibility (Some e') c) u cart in
  verdict (Rule.set_minLifetimeSpend (Some PyFloat.pos_zero) e)
    = verdict (Rule.set_minLifetimeSpend None e)
  /\ verdict (Rule.set_minOrdersPlaced (Some 0) e)
    = verdict (Rule.set_minOrdersPlaced None e)
  /\ verdict (Rule.set_minCartValue (Some PyFloat.pos_zero) e)
    = verdict (Rule.set_minCartValue None e)
  /\ verdict (Rule.set_minItemsCount (Some 0) e)
    = verdict (Rule.set_minItemsCount None e)
  /\ verdict (Rule.set_firstOrderOnly (Some false) e)
    = verdict (Rule.set_firstOrderOnly None e)
  /\ verdict (Rule.set_allowedUserTiers (Some []) e)
    = verdict (Rule.set_allowedUserTiers None e)
  /\ verdict (Rule.set_allowedCountries (Some []) e)
    = verdict (Rule.set_allowedCountries None e)
  /\ verdict (Rule.set_applicableCategories (Some []) e)
    = verdict (Rule.set_applicableCategories None e)
  /\ verdict (Rule.set_excludedCategories (Some []) e)
    = verdict (Rule.set_excludedCategories None e).
Proof.
  intros verdict. unfold verdict, eligible, rules_and_usage.
  repeat match goal with |- _ /\ _ => split end; reflexivity.
Qed.

(** The negative zero of the float fields is falsy as well. *)
Lemma negative_zero_floor_is_absent uc today c e u cart :
  eligible uc today (with_eligibility (Some (Rule.set_minLifetimeSpend (Some PyFloat.neg_zero) e)) c) u cart
    = eligible uc today (with_eligibility (Some (Rule.set_minLifetimeSpend None e)) c) u cart
  /\ eligible uc today (with_eligibility (Some (Rule.set_minCartValue (Some PyFloat.neg_zero) e)) c) u cart
    = eligible uc today (with_eligibility (Some (Rule.set_minCartValue None e)) c) u cart.
Proof. split; reflexivity. Qed.

(* ===================================================================== *)
(** ** Coupon creation *)
(* ===================================================================== *)

(** C8: [create_coupon] raises the duplicate-coupon error (HTTP 400,
    "Coupon already exists") if and only if the coupon's code is already a
    key of the catalog, and then leaves catalog and ledger as they were; on
    success it stores the coupon under its code (as the last entry of the
    catalog) and sets the ledger entry of that code to an empty map. *)
Theorem create_coupon_spec (c : Coupon) (s : Store) :
  ((exists e, fst (create_coupon c s) = Raise e) <-> code c ∈ od_keys (coupons s))
  /\ (code c ∈ od_keys (coupons s) ->
      create_coupon c s = (Raise (HTTPException 400 "Coupon already exists"), s))
  /\ (code c ∉ od_keys (coupons s) ->
      create_coupon c s =
        (Ok (Created "Coupon created" c),
         mkStore (coupons s ++ [(code c, c)]) (<[code c := ∅]> (usage_counter s)))
      /\ usage_counter (snd (create_coupon c s)) !! code c = Some ∅
      /\ od_values (coupons (snd (create_coupon c s))) = od_values (coupons s) ++ [c]).
Proof.
  unfold create_coupon.
  destruct (od_contains (code c) (coupons s)) eqn:Hdup; simpl.
  - apply od_contains_true in Hdup. split; [| split].
    + split; [intros _; exact Hdup | intros _; eexists; reflexivity].
    + reflexivity.
    + intros Hfresh. contradiction.
  - apply od_contains_false in Hdup. split; [| split].
    + split; [intros [e He]; discriminate He | intros Hin; contradiction].
    + intros Hin. contradiction.
    + intros _. rewrite (od_set_fresh _ _ _ Hdup). split; [reflexivity | split].
      * apply lookup_insert_eq.
      * unfold od_values. now rewrite fmap_app.
Qed.

Lemma create_coupon_spec_witness :
  let c := Sample.flat "F" 10 in
  let s := mkStore [("F", Sample.flat "F" 5)] {[ "F" := {[ "alice" := 1 ]} ]} in
  create_coupon c s = (Raise (HTTPException 400 "Coupon already exists"), s)
  /\ fst (create_coupon c empty_store) = Ok (Created "Coupon created" c)
  /\ coupons (snd (create_coupon c empty_store)) = [("F", c)].
Proof.
  intros c s. split; [| split].
  - apply (create_coupon_spec c s). vm_compute. apply list_elem_of_singleton. reflexivity.
  - destruct (create_coupon_spec c empty_store) as (_ & _ & H).
    destruct H as [-> _]; [| reflexivity].
    vm_compute. apply elem_of_nil.
  - destruct (create_coupon_spec c empty_store) as (_ & _ & H).
    destruct H as [-> _]; [| reflexivity].
    vm_compute. apply elem_of_nil.
Defined.

(* ===================================================================== *)
(** ** Read-only routes *)
(* ===================================================================== *)

Lemma best_coupon_store (s : Store) (today : date) (req : BestCouponRequest) :
  snd (best_coupon today req s) = s.
Proof.
  unfold best_coupon.
  destruct (cart_total (cart req)) as [total |]; [| reflexivity].
  destruct (select_loop _ _ _ _ _ _ _) as [[[best |] bd] |]; reflexivity.
Qed.

Lemma create_coupon_store_fixed (c : Coupon) (s : Store) :
  snd (create_coupon c s) = s <-> code c ∈ od_keys (coupons s).
Proof.
  unfold create_coupon.
  destruct (od_contains (code c) (coupons s)) eqn:Hdup; simpl.
  - apply od_contains_true in Hdup. tauto.
  - apply od_contains_false in Hdup. split; [| tauto].
    intros Heq. exfalso.
    assert (Hlen : length (coupons (mkStore (od_set (code c) c (coupons s))
                                     (<[code c:=∅]> (usage_counter s))))
                   = length (coupons s)) by now rewrite Heq.
    simpl in Hlen. rewrite (od_set_fresh _ _ _ Hdup), length_app in Hlen.
    simpl in Hlen. lia.
Qed.

(** C9: [list_all] and [best_coupon] leave the catalog and the usage ledger
    exactly as they found them, for every store, user, cart and date, also
    when [best_coupon] raises; [create_coupon] is the one route that writes:
    it changes the store exactly when it succeeds. *)
Theorem read_only_routes (s : Store) (today : date) (req : BestCouponRequest) (c : Coupon) :
  snd (list_all s) = s
  /\ snd (best_coupon today req s) = s
  /\ (snd (create_coupon c s) = s <-> code c ∈ od_keys (coupons s)).
Proof.
  split; [reflexivity | split].
  - apply best_coupon_store.
  - apply create_coupon_store_fixed.
Qed.

(* ===================================================================== *)
(** ** Ledger and catalog keys *)
(* ===================================================================== *)

Lemma serve_preserves_keys (s : Store) (r : request) :
  ledger_matches_catalog s -> ledger_matches_catalog (serve s r).
Proof.
  unfold ledger_matches_catalog. intros Hinv.
  destruct r as [c | | today req]; simpl.
  - unfold create_coupon.
    destruct (od_contains (code c) (coupons s)); simpl; [exact Hinv |].
    rewrite dom_insert_L, od_keys_set, Hinv. reflexivity.
  - exact Hinv.
  - now rewrite best_coupon_store.
Qed.

Lemma serve_preserves_wf (s : Store) (r : request) :
  catalog_wf s -> catalog_wf (serve s r).
Proof.
  intros [Hnd Hkeys].
  destruct r as [c | | today req]; simpl.
  - unfold create_coupon.
    destruct (od_contains (code c) (coupons s)) eqn:Hdup; simpl; [now split |].
    apply od_contains_false in Hdup. split; simpl.
    + now apply od_set_nodup.
    + rewrite (od_set_fresh _ _ _ Hdup). apply Forall_app. split; [exact Hkeys |].
      now apply Forall_singleton.
  - now split.
  - rewrite best_coupon_store. now split.
Qed.

Lemma fold_serve_invariant (P : Store -> Prop) :
  (forall s r, P s -> P (serve s r)) ->
  forall rs s, P s -> P (fold_left serve rs s).
Proof.
  intros Hstep rs. induction rs as [| r rs IH]; simpl; intros s Hs.
  - exact Hs.
  - apply IH, Hstep, Hs.
Qed.

(** C10: in every store reached from the empty one by any sequence of
    [create_coupon], [list_all] and [best_coupon] requests, the usage
    ledger and the coupon catalog have the same keys: each stored code has
    a ledger entry and the ledger has no entry for an unknown code. *)
Theorem ledger_keys_are_catalog_keys (rs : list request) :
  ledger_matches_catalog (serve_all rs)
  /\ (forall k : string,
        is_Some (usage_counter (serve_all rs) !! k) <-> k ∈ od_keys (coupons (serve_all rs))).
Proof.
  assert (Hinv : ledger_matches_catalog (serve_all rs)).
  { unfold serve_all. apply fold_serve_invariant.
    - apply serve_preserves_keys.
    - unfold ledger_matches_catalog, empty_store. simpl. now rewrite dom_empty_L. }
  split; [exact Hinv |].
  intros k. rewrite <- elem_of_dom, Hinv. apply elem_of_list_to_set.
Qed.

(** Along the same runs every coupon sits under its own code and no code is
    stored twice. *)
Lemma reachable_catalog_wf (rs : list request) : catalog_wf (serve_all rs).
Proof.
  unfold serve_all. apply fold_serve_invariant.
  - apply serve_preserves_wf.
  - split; simpl; [apply NoDup_nil_2 | apply Forall_nil_2].
Qed.

(* ===================================================================== *)
(** ** Order on floats *)
(* ===================================================================== *)

Module FloatOrder.

Import PyFloat.

Lemma pos_compare_cont_eq (p q : positive) :
  Pos.compare_cont Eq p q = (Z.pos p ?= Z.pos q).
Proof. reflexivity. Qed.

(** Swapping the operands mirrors the outcome. *)
Lemma compare_swap (x y : float) :
  SFcompare y x = option_map CompOpp (SFcompare x y).
Proof.
  destruct x as [sx | sx | | sx mx ex], y as [sy | sy | | sy my ey];
    try destruct sx; try destruct sy; simpl; try reflexivity.
  - rewrite (Z.compare_antisym ey ex), !pos_compare_cont_eq,
      (Z.compare_antisym (Z.pos my) (Z.pos mx)).
    destruct (ey ?= ex), (Z.pos my ?= Z.pos mx); reflexivity.
  - rewrite (Z.compare_antisym ey ex), !pos_compare_cont_eq,
      (Z.compare_antisym (Z.pos my) (Z.pos mx)).
    destruct (ey ?= ex), (Z.pos my ?= Z.pos mx); reflexivity.
Qed.

Lemma compare_refl (x : float) : is_nan x = false -> SFcompare x x = Some Eq.
Proof.
  destruct x as [sx | sx | | sx mx ex]; try destruct sx; simpl;
    try reflexivity; try discriminate;
    intros _; rewrite Z.compare_refl, pos_compare_cont_eq, Z.compare_refl;
    reflexivity.
Qed.

Ltac order_cases :=
  repeat match goal with
         | |- context [?a ?= ?b] =>
           let H := fresh "Hc" in destruct (Z.compare_spec a b) as [H | H | H]
         | H : context [?a ?= ?b] |- _ =>
           let H' := fresh "Hc" in destruct (Z.compare_spec a b) as [H' | H' | H']
         end.

Lemma compare_trans (x y z : float) (c1 c2 : comparison) :
  SFcompare x y = Some c1 -> SFcompare y z = Some c2 ->
  c1 <> Gt -> c2 <> Gt ->
  SFcompare x z = Some (chain c1 c2).
Proof.
  destruct x as [sx | sx | | sx mx ex], y as [sy | sy | | sy my ey],
      z as [sz | sz | | sz mz ez];
    try destruct sx; try destruct sy; try destruct sz; simpl;
    intros H1 H2 Hn1 Hn2;
    try discriminate;
    try (injection H1 as <-); try (injection H2 as <-);
    try congruence; try reflexivity;
    rewrite ?pos_compare_cont_eq in *;
    order_cases; simpl in *; try congruence; try lia.
Qed.

Lemma ltb_not_nan (x y : float) :
  ltb x y = true -> is_nan x = false /\ is_nan y = false.
Proof.
  unfold ltb, SFltb.
  destruct x as [sx | sx | | sx mx ex], y as [sy | sy | | sy my ey];
    simpl; try discriminate; auto.
Qed.

Lemma leb_not_nan (x y : float) :
  leb x y = true -> is_nan x = false /\ is_nan y = false.
Proof.
  unfold leb, SFleb.
  destruct x as [sx | sx | | sx mx ex], y as [sy | sy | | sy my ey];
    simpl; try discriminate; auto.
Qed.

Lemma compare_not_nan (x y : float) :
  is_nan x = false -> is_nan y = false -> exists c, SFcompare x y = Some c.
Proof.
  destruct x as [sx | sx | | sx mx ex], y as [sy | sy | | sy my ey];
    simpl; try discriminate; eauto.
Qed.

Lemma ltb_irrefl (x : float) : ltb x x = false.
Proof.
  unfold ltb, SFltb. destruct (is_nan x) eqn:Hx.
  - destruct x; try discriminate. reflexivity.
  - now rewrite compare_refl.
Qed.

Lemma leb_refl (x : float) : is_nan x = false -> leb x x = true.
Proof. intros Hx. unfold leb, SFleb. now rewrite compare_refl. Qed.

Lemma ltb_leb (x y : float) : ltb x y = true -> leb x y = true.
Proof. unfold ltb, leb, SFltb, SFleb. now destruct (SFcompare x y) as [[] |]. Qed.

(** [x < y] excludes [y <= x]. *)
Lemma ltb_not_leb (x y : float) : ltb x y = true -> leb y x = false.
Proof.
  unfold ltb, leb, SFltb, SFleb. rewrite (compare_swap x y).
  now destruct (SFcompare x y) as [[] |].
Qed.

Lemma leb_not_ltb (x y : float) : leb x y = true -> ltb y x = false.
Proof.
  unfold ltb, leb, SFltb, SFleb. rewrite (compare_swap x y).
  now destruct (SFcompare x y) as [[] |].
Qed.

(** Away from NaN the order is total. *)
Lemma not_ltb_leb (x y : float) :
  is_nan x = false -> is_nan y = false -> ltb x y = false -> leb y x = true.
Proof.
  intros Hx Hy. destruct (compare_not_nan x y Hx Hy) as [c Hc].
  unfold ltb, leb, SFltb, SFleb. rewrite (compare_swap x y), Hc.
  now destruct c.
Qed.

Lemma not_leb_ltb (x y : float) :
  is_nan x = false -> is_nan y = false -> leb x y = false -> ltb y x = true.
Proof.
  intros Hx Hy. destruct (compare_not_nan x y Hx Hy) as [c Hc].
  unfold ltb, leb, SFltb, SFleb. rewrite (compare_swap x y), Hc.
  now destruct c.
Qed.

Lemma ltb_trans (x y z : float) :
  ltb x y = true -> ltb y z = true -> ltb x z = true.
Proof.
  unfold ltb, SFltb.
  destruct (SFcompare x y) as [[] |] eqn:H1; try discriminate.
  destruct (SFcompare y z) as [[] |] eqn:H2; try discriminate.
  intros _ _. now rewrite (compare_trans x y z Lt Lt H1 H2).
Qed.

Lemma leb_trans (x y z : float) :
  leb x y = true -> leb y z = true -> leb x z = true.
Proof.
  unfold leb, SFleb.
  destruct (SFcompare x y) as [[] |] eqn:H1; try discriminate;
    destruct (SFcompare y z) as [[] |] eqn:H2; try discriminate;
    intros _ _;
    match goal with
    | Ha : SFcompare x y = Some ?a, Hb : SFcompare y z = Some ?b |- _ =>
      rewrite (compare_trans x y z a b Ha Hb) by discriminate
    end; reflexivity.
Qed.

Lemma leb_ltb_trans (x y z : float) :
  leb x y = true -> ltb y z = true -> ltb x z = true.
Proof.
  unfold leb, ltb, SFleb, SFltb.
  destruct (SFcompare x y) as [[] |] eqn:H1; try discriminate;
    destruct (SFcompare y z) as [[] |] eqn:H2; try discriminate;
    intros _ _;
    match goal with
    | Ha : SFcompare x y = Some ?a, Hb : SFcompare y z = Some ?b |- _ =>
      rewrite (compare_trans x y z a b Ha Hb) by discriminate
    end; reflexivity.
Qed.

Lemma ltb_leb_trans (x y z : float) :
  ltb x y = true -> leb y z = true -> ltb x z = true.
Proof.
  unfold leb, ltb, SFleb, SFltb.
  destruct (SFcompare x y) as [[] |] eqn:H1; try discriminate;
    destruct (SFcompare y z) as [[] |] eqn:H2; try discriminate;
    intros _ _;
    match goal with
    | Ha : SFcompare x y = Some ?a, Hb : SFcompare y z = Some ?b |- _ =>
      rewrite (compare_trans x y z a b Ha Hb) by discriminate
    end; reflexivity.
Qed.

(** [min(a, b)] is a lower bound of both arguments and is one of them. *)
Lemma py_min_spec (a b : float) :
  is_nan a = false -> is_nan b = false ->
  leb (py_min a b) a = true /\ leb (py_min a b) b = true
  /\ (py_min a b = a \/ py_min a b = b).
Proof.
  intros Ha Hb. unfold py_min. destruct (ltb b a) eqn:Hlt.
  - repeat split; [now apply ltb_leb | now apply leb_refl | now right].
  - repeat split; [now apply leb_refl | now apply not_ltb_leb | now left].
Qed.

(** [min] is monotone in its first argument. *)
Lemma py_min_mono (a1 a2 b : float) :
  leb a1 a2 = true -> leb (py_min a1 b) (py_min a2 b) = true.
Proof.
  intros Hle. destruct (leb_not_nan _ _ Hle) as [Hn1 Hn2].
  unfold py_min. destruct (ltb b a1) eqn:H1, (ltb b a2) eqn:H2.
  - apply leb_refl. now destruct (ltb_not_nan _ _ H1).
  - rewrite (ltb_leb_trans b a1 a2 H1 Hle) in H2. discriminate.
  - apply not_ltb_leb; [| exact Hn1 | exact H1]. now destruct (ltb_not_nan _ _ H2).
  - exact Hle.
Qed.

End FloatOrder.

(* ===================================================================== *)
(** ** Rounding: shifts, nearest-even, monotonicity *)
(* ===================================================================== *)

Module RoundingFacts.

Import PyFloat Rounding.

Lemma fexp64_eq (e : Z) : fexp64 e = Z.max (e - 53) (-1074).
Proof. reflexivity. Qed.

Lemma fexp64_mono (a b : Z) : a <= b -> fexp64 a <= fexp64 b.
Proof. rewrite !fexp64_eq. lia. Qed.

Lemma digits2_pos_bounds (p : positive) :
  2 ^ (Z.pos (digits2_pos p) - 1) <= Z.pos p < 2 ^ Z.pos (digits2_pos p).
Proof.
  induction p as [p IH | p IH |]; simpl digits2_pos.
  - rewrite Pos2Z.inj_succ.
    replace (Z.succ (Z.pos (digits2_pos p)) - 1) with (Z.succ (Z.pos (digits2_pos p) - 1)) by lia.
    rewrite !Z.pow_succ_r by lia. lia.
  - rewrite Pos2Z.inj_succ.
    replace (Z.succ (Z.pos (digits2_pos p)) - 1) with (Z.succ (Z.pos (digits2_pos p) - 1)) by lia.
    rewrite !Z.pow_succ_r by lia. lia.
  - simpl. lia.
Qed.

Lemma Zdigits2_nonneg (z : Z) : 0 <= Zdigits2 z.
Proof. destruct z; simpl; lia. Qed.

Lemma Zdigits2_bounds (z : Z) :
  0 < z -> 2 ^ (Zdigits2 z - 1) <= z < 2 ^ Zdigits2 z.
Proof. destruct z as [| p | p]; try lia. intros _. apply digits2_pos_bounds. Qed.

Lemma Zdigits2_le (z n : Z) : 0 <= n -> 0 <= z < 2 ^ n -> Zdigits2 z <= n.
Proof.
  intros Hn [Hz Hlt]. destruct (Z.eq_dec z 0) as [-> | Hnz]; [simpl; lia |].
  destruct (Zdigits2_bounds z ltac:(lia)) as [Hlo _].
  destruct (Z_le_gt_dec (Zdigits2 z) n) as [| Hgt]; [assumption | exfalso].
  assert (2 ^ n <= 2 ^ (Zdigits2 z - 1)) by (apply Z.pow_le_mono_r; lia).
  lia.
Qed.

Lemma Zdigits2_ge (z n : Z) : 0 <= n -> 2 ^ n <= z -> n + 1 <= Zdigits2 z.
Proof.
  intros Hn Hle.
  assert (0 < z) by (pose proof (Z.pow_pos_nonneg 2 n); lia).
  destruct (Zdigits2_bounds z ltac:(lia)) as [_ Hhi].
  destruct (Z_le_gt_dec (n + 1) (Zdigits2 z)) as [| Hgt]; [assumption | exfalso].
  assert (2 ^ Zdigits2 z <= 2 ^ n)
    by (apply Z.pow_le_mono_r; pose proof (Zdigits2_nonneg z); lia).
  lia.
Qed.

Lemma iter_pos_nat {A : Type} (f : A -> A) (p : positive) (x : A) :
  SpecFloat.iter_pos f p x = Nat.iter (Pos.to_nat p) f x.
Proof.
  revert x. induction p as [p IH | p IH |]; intros x; simpl SpecFloat.iter_pos.
  - rewrite !IH, Pos2Nat.inj_xI.
    replace (S (2 * Pos.to_nat p))%nat with (S (Pos.to_nat p + Pos.to_nat p)) by lia.
    now rewrite Nat.iter_succ_r, Nat.iter_add.
  - rewrite !IH, Pos2Nat.inj_xO.
    replace (2 * Pos.to_nat p)%nat with (Pos.to_nat p + Pos.to_nat p)%nat by lia.
    now rewrite Nat.iter_add.
  - reflexivity.
Qed.


(** *** One-position shifts *)

Lemma shr_1_spec (mrs : shr_record) :
  0 <= shr_m mrs ->
  0 <= shr_m (shr_1 mrs)
  /\ shr_m mrs = 2 * shr_m (shr_1 mrs) + Z.b2z (shr_r (shr_1 mrs))
  /\ shr_s (shr_1 mrs) = shr_r mrs || shr_s mrs.
Proof.
  destruct mrs as [m r s]. simpl.
  destruct m as [| [p | p |] | p]; simpl; intros Hm; try lia; repeat split; lia.
Qed.

Lemma shr_1_digits (mrs : shr_record) :
  0 <= shr_m mrs ->
  Zdigits2 (shr_m (shr_1 mrs)) = Z.max 0 (Zdigits2 (shr_m mrs) - 1).
Proof.
  destruct mrs as [m r s]. simpl.
  destruct m as [| [p | p |] | p]; simpl; intros Hm; try lia.
Qed.

Lemma shr_nat_nonneg (k : nat) (mrs : shr_record) :
  0 <= shr_m mrs -> 0 <= shr_m (shr_nat k mrs).
Proof.
  intros Hm. induction k as [| k IH]; simpl; [exact Hm |].
  now apply shr_1_spec.
Qed.

Lemma shr_nat_digits (k : nat) (mrs : shr_record) :
  0 <= shr_m mrs ->
  Zdigits2 (shr_m (shr_nat k mrs)) = Z.max 0 (Zdigits2 (shr_m mrs) - Z.of_nat k).
Proof.
  intros Hm. induction k as [| k IH].
  - simpl. pose proof (Zdigits2_nonneg (shr_m mrs)). lia.
  - change (shr_nat (S k) mrs) with (shr_1 (shr_nat k mrs)).
    rewrite shr_1_digits by now apply shr_nat_nonneg.
    rewrite IH. lia.
Qed.

(** Turn a hypothesis [b = true <-> P], with [b] a known boolean, into
    [P] or its negation. *)
Ltac decide_bits :=
  repeat match goal with
         | H : true = true <-> _ |- _ =>
           let H' := fresh "Hbit" in
           assert (H' := proj1 H eq_refl); clear H
         | H : false = true <-> _ |- _ =>
           let H' := fresh "Hbit" in
           assert (H' := fun X => Bool.diff_false_true (proj2 H X)); clear H
         end.

Lemma shifted_step (M k : Z) (mrs : shr_record) :
  0 <= k -> 0 <= shr_m mrs ->
  shifted M k mrs -> shifted M (k + 1) (shr_1 mrs).
Proof.
  intros Hk Hm (rem & Hrem & HM & Hr & Hs).
  destruct (shr_1_spec mrs Hm) as (Hm' & Hhalf & Hsticky).
  exists (Z.b2z (shr_r (shr_1 mrs)) * 2 ^ k + rem).
  rewrite Z.pow_add_r, Z.pow_1_r by lia.
  assert (Hpow : 0 < 2 ^ k) by (apply Z.pow_pos_nonneg; lia).
  rewrite Hsticky. revert Hhalf HM Hrem Hr Hs.
  generalize (2 ^ k) Hpow (shr_m (shr_1 mrs)) (shr_m mrs). clear.
  intros P HP m' m Hhalf HM Hrem Hr Hs.
  destruct (shr_r (shr_1 mrs)), (shr_r mrs), (shr_s mrs);
    simpl Z.b2z in *; simpl orb; decide_bits;
    (split; [lia | split; [nia | split; split; intros; try lia; try discriminate; try reflexivity]]).
Qed.

Lemma shr_nat_shifted (M : Z) (k : nat) :
  0 <= M ->
  shifted M (Z.of_nat k) (shr_nat k (Build_shr_record M false false)).
Proof.
  intros HM. induction k as [| k IH].
  - exists 0. simpl. repeat split; try lia; try discriminate.
  - change (shr_nat (S k) ?x) with (shr_1 (shr_nat k x)).
    rewrite Nat2Z.inj_succ. apply shifted_step; [lia | | exact IH].
    now apply shr_nat_nonneg.
Qed.


(** *** The shifts of [binary_round_aux] *)

Lemma shr_eq (mrs : shr_record) (e n : Z) :
  shr mrs e n = if 0 <? n then (shr_nat (Z.to_nat n) mrs, e + n) else (mrs, e).
Proof.
  destruct n as [| p | p]; simpl; try reflexivity.
  unfold shr_nat. now rewrite iter_pos_nat.
Qed.

Lemma shr_record_of_loc_m (m : Z) (l : location) : shr_m (shr_record_of_loc m l) = m.
Proof. now destruct l as [| []]. Qed.

(** First shift: the mantissa is brought to the exponent [fexp64] asks for. *)
Lemma shr_fexp_first (M E : Z) (l : location) :
  0 <= M -> E <= fexp64 (Zdigits2 M + E) ->
  exists mrs,
    shr_fexp prec emax M E l = (mrs, fexp64 (Zdigits2 M + E))
    /\ 0 <= shr_m mrs
    /\ Zdigits2 (shr_m mrs) = Z.max 0 (Zdigits2 M - (fexp64 (Zdigits2 M + E) - E))
    /\ (l = loc_Exact -> shifted M (fexp64 (Zdigits2 M + E) - E) mrs).
Proof.
  intros HM HE. unfold shr_fexp. fold (fexp64 (Zdigits2 M + E)).
  set (e' := fexp64 (Zdigits2 M + E)) in *.
  rewrite shr_eq. destruct (Z.ltb_spec 0 (e' - E)) as [Hpos | Hzero].
  - eexists. split; [f_equal; lia |]. split; [| split].
    + apply shr_nat_nonneg. now rewrite shr_record_of_loc_m.
    + rewrite shr_nat_digits, shr_record_of_loc_m by now rewrite shr_record_of_loc_m.
      rewrite Z2Nat.id by lia. reflexivity.
    + intros ->. simpl shr_record_of_loc.
      pose proof (shr_nat_shifted M (Z.to_nat (e' - E)) HM) as Hsh.
      now rewrite Z2Nat.id in Hsh by lia.
  - assert (e' = E) by lia.
    eexists. split; [f_equal; lia |]. split; [| split].
    + now rewrite shr_record_of_loc_m.
    + rewrite shr_record_of_loc_m. pose proof (Zdigits2_nonneg M). lia.
    + intros ->. simpl. replace (e' - E) with 0 by lia.
      exists 0. simpl. repeat split; try lia; try discriminate.
Qed.

Lemma rne_range (mrs : shr_record) : shr_m mrs <= rne mrs <= shr_m mrs + 1.
Proof.
  unfold rne. destruct mrs as [m [] []]; simpl; try lia.
  destruct (Z.even m); lia.
Qed.

(** Second shift: only a carry out of the 53 bits moves anything. *)
Lemma shr_fexp_second (mr e : Z) :
  0 <= mr <= 2 ^ 53 -> -1074 <= e ->
  shr_fexp prec emax mr e loc_Exact =
  if mr <? 2 ^ 53 then (Build_shr_record mr false false, e)
  else (Build_shr_record (2 ^ 52) false false, e + 1).
Proof.
  intros Hmr He. unfold shr_fexp. fold (fexp64 (Zdigits2 mr + e)).
  rewrite shr_eq, fexp64_eq. simpl shr_record_of_loc.
  destruct (Z.ltb_spec mr (2 ^ 53)) as [Hlt | Hge].
  - assert (Zdigits2 mr <= 53) by (apply Zdigits2_le; lia).
    destruct (Z.ltb_spec 0 (Z.max (Zdigits2 mr + e - 53) (-1074) - e)); [lia | reflexivity].
  - assert (mr = 2 ^ 53) as -> by lia.
    change (Zdigits2 (2 ^ 53)) with 54.
    replace (Z.max (54 + e - 53) (-1074) - e) with 1 by lia.
    reflexivity.
Qed.

(** [binary_round_aux] on a mantissa that is not too short: shift, round,
    and repair a carry. *)
Lemma binary_round_aux_spec (sx : bool) (M E : Z) (l : location) :
  0 <= M -> E <= fexp64 (Zdigits2 M + E) ->
  exists mrs,
    shr_fexp prec emax M E l = (mrs, fexp64 (Zdigits2 M + E))
    /\ 0 <= shr_m mrs < 2 ^ 53
    /\ Zdigits2 (shr_m mrs) = Z.max 0 (Zdigits2 M - (fexp64 (Zdigits2 M + E) - E))
    /\ (l = loc_Exact -> shifted M (fexp64 (Zdigits2 M + E) - E) mrs)
    /\ binary_round_aux prec emax sx M E l = finish sx (rne mrs) (fexp64 (Zdigits2 M + E)).
Proof.
  intros HM HE.
  destruct (shr_fexp_first M E l HM HE) as (mrs & Hshr & Hnonneg & Hdig & Hsh).
  exists mrs.
  assert (Hd53 : Zdigits2 (shr_m mrs) <= 53) by (rewrite Hdig, fexp64_eq; lia).
  assert (Hlt : shr_m mrs < 2 ^ 53).
  { destruct (Z.eq_dec (shr_m mrs) 0) as [-> | Hnz]; [reflexivity |].
    destruct (Zdigits2_bounds (shr_m mrs) ltac:(lia)) as [_ Hhi].
    assert (2 ^ Zdigits2 (shr_m mrs) <= 2 ^ 53)
      by (apply Z.pow_le_mono_r; pose proof (Zdigits2_nonneg (shr_m mrs)); lia).
    lia. }
  repeat (split; [assumption || lia |]).
  unfold binary_round_aux. rewrite Hshr. fold (rne mrs).
  pose proof (rne_range mrs) as Hrne.
  rewrite shr_fexp_second by (rewrite ?fexp64_eq; lia).
  unfold finish.
  destruct (Z.ltb_spec (rne mrs) (2 ^ 53)) as [Hsmall | Hcarry]; simpl shr_m.
  - destruct (rne mrs) as [| p | p] eqn:Hr; simpl; try reflexivity. lia.
  - destruct (Z.eqb_spec (rne mrs) 0); [lia |]. reflexivity.
Qed.


(** *** Rounding is monotone *)

(** Two mantissas cut at possibly different positions, compared through
    the cross product of the values they stand for. *)
Lemma rne_mono (M1 M2 k1 k2 : Z) (mrs1 mrs2 : shr_record) :
  0 <= k1 -> 0 <= k2 ->
  shifted M1 k1 mrs1 -> shifted M2 k2 mrs2 ->
  M1 * 2 ^ k2 <= M2 * 2 ^ k1 ->
  rne mrs1 <= rne mrs2.
Proof.
  intros Hk1 Hk2 (rem1 & Hrem1 & HM1 & Hr1 & Hs1) (rem2 & Hrem2 & HM2 & Hr2 & Hs2).
  assert (HP1 : 0 < 2 ^ k1) by (apply Z.pow_pos_nonneg; lia).
  assert (HP2 : 0 < 2 ^ k2) by (apply Z.pow_pos_nonneg; lia).
  revert Hrem1 HM1 Hr1 Hs1 Hrem2 HM2 Hr2 Hs2.
  generalize (2 ^ k1) (2 ^ k2) HP1 HP2. clear. intros P1 P2 HP1 HP2.
  unfold rne. destruct mrs1 as [m1 r1 s1], mrs2 as [m2 r2 s2]. simpl.
  intros Hrem1 -> Hr1 Hs1 Hrem2 -> Hr2 Hs2 Hle.
  assert (Hm : m1 <= m2).
  { destruct (Z_le_gt_dec m1 m2) as [| Hgt]; [assumption | exfalso].
    assert (rem2 * P1 < P2 * P1) by nia.
    assert (0 <= rem1 * P2) by nia.
    assert ((m2 + 1) * (P1 * P2) <= m1 * (P1 * P2)) by (apply Z.mul_le_mono_nonneg_r; nia).
    nia. }
  destruct (Z.eq_dec m1 m2) as [<- | Hne].
  - assert (Hrem : rem1 * P2 <= rem2 * P1) by nia.
    assert (Hhalf : P1 <= 2 * rem1 -> P2 <= 2 * rem2) by (intros; nia).
    assert (Hmore : P1 < 2 * rem1 -> P2 < 2 * rem2) by (intros; nia).
    destruct r1, s1, r2, s2; decide_bits; simpl;
      try (destruct (Z.even m1)); lia.
  - destruct r1, s1, r2, s2; simpl;
      try (destruct (Z.even m1)); try (destruct (Z.even m2)); lia.
Qed.

Lemma SFleb_finite_pos (m1 m2 : positive) (e1 e2 : Z) :
  SFleb (S754_finite false m1 e1) (S754_finite false m2 e2)
  = (e1 <? e2) || ((e1 =? e2) && (Z.pos m1 <=? Z.pos m2)).
Proof.
  unfold SFleb, SFcompare.
  change (Pos.compare_cont Eq m1 m2) with (Z.pos m1 ?= Z.pos m2).
  destruct (Z.ltb_spec e1 e2), (Z.eqb_spec e1 e2), (Z.leb_spec (Z.pos m1) (Z.pos m2));
    destruct (Z.compare_spec e1 e2); try lia;
    destruct (Z.compare_spec (Z.pos m1) (Z.pos m2)); try lia; reflexivity.
Qed.

(** The shapes [finish] can take. *)
Lemma finish_cases (sx : bool) (mr e : Z) :
  0 <= mr <= 2 ^ 53 ->
  (mr = 0 /\ finish sx mr e = S754_zero sx)
  \/ (exists m e', finish sx mr e = S754_finite sx m e'
                  /\ e' <= 971
                  /\ ((0 < mr < 2 ^ 53 /\ Z.pos m = mr /\ e' = e)
                      \/ (mr = 2 ^ 53 /\ Z.pos m = 2 ^ 52 /\ e' = e + 1)))
  \/ (0 < mr /\ finish sx mr e = S754_infinity sx
      /\ ((mr < 2 ^ 53 /\ 971 < e) \/ (mr = 2 ^ 53 /\ 971 < e + 1))).
Proof.
  intros Hmr. unfold finish. change (emax - prec) with 971.
  destruct (Z.eqb_spec mr 0) as [-> | Hnz]; [left; split; reflexivity |].
  right.
  destruct (Z.ltb_spec mr (2 ^ 53)) as [Hlt | Hge].
  - destruct (Z.leb_spec e 971).
    + left. exists (Z.to_pos mr), e. split; [reflexivity | split; [assumption |]].
      left. split; [lia | split; [apply Z2Pos.id; lia | reflexivity]].
    + right. split; [lia | split; [reflexivity | left; lia]].
  - destruct (Z.leb_spec (e + 1) 971).
    + left. exists (Z.to_pos (2 ^ 52)), (e + 1). split; [reflexivity | split; [assumption |]].
      right. split; [lia | split; reflexivity].
    + right. split; [lia | split; [reflexivity | right; lia]].
Qed.

(** At one exponent, a larger rounded mantissa gives a larger float. *)
Lemma finish_mono_same (e mr1 mr2 : Z) :
  0 <= mr1 -> mr1 <= mr2 -> mr2 <= 2 ^ 53 ->
  SFleb (finish false mr1 e) (finish false mr2 e) = true.
Proof.
  intros H0 Hle Hhi.
  destruct (finish_cases false mr1 e ltac:(lia))
    as [[-> ->] | [(m1 & e1 & -> & Hb1 & Hs1) | (Hp1 & -> & Hs1)]];
  destruct (finish_cases false mr2 e ltac:(lia))
    as [[Hz2 ->] | [(m2 & e2 & -> & Hb2 & Hs2) | (Hp2 & -> & Hs2)]];
    try reflexivity; try lia.
  rewrite SFleb_finite_pos.
  destruct (Z.ltb_spec e1 e2); [reflexivity |].
  destruct (Z.eqb_spec e1 e2); [| lia].
  destruct (Z.leb_spec (Z.pos m1) (Z.pos m2)); [reflexivity | lia].
Qed.

(** Across exponents, the float with the larger exponent is the larger one
    as soon as its mantissa has all 53 bits. *)
Lemma finish_mono_lt (e1 e2 mr1 mr2 : Z) :
  e1 < e2 ->
  0 <= mr1 <= 2 ^ 53 -> 2 ^ 52 <= mr2 <= 2 ^ 53 ->
  SFleb (finish false mr1 e1) (finish false mr2 e2) = true.
Proof.
  intros He H1 H2.
  destruct (finish_cases false mr1 e1 ltac:(lia))
    as [[-> ->] | [(m1 & e1' & -> & Hb1 & Hs1) | (Hp1 & -> & Hs1)]];
  destruct (finish_cases false mr2 e2 ltac:(lia))
    as [[Hz2 ->] | [(m2 & e2' & -> & Hb2 & Hs2) | (Hp2 & -> & Hs2)]];
    try reflexivity; try lia.
  rewrite SFleb_finite_pos.
  destruct (Z.ltb_spec e1' e2'); [reflexivity |].
  destruct (Z.eqb_spec e1' e2'); [| lia].
  destruct (Z.leb_spec (Z.pos m1) (Z.pos m2)); [reflexivity | lia].
Qed.


Lemma value_le_magnitude (M1 E1 M2 E2 : Z) :
  0 < M1 -> 0 < M2 -> value_le M1 E1 M2 E2 ->
  Zdigits2 M1 + E1 <= Zdigits2 M2 + E2.
Proof.
  unfold value_le. intros H1 H2 Hle.
  destruct (Zdigits2_bounds M1 H1) as [Hlo1 _].
  destruct (Zdigits2_bounds M2 H2) as [_ Hhi2].
  pose proof (Zdigits2_nonneg M2) as Hd2.
  assert (Hd1 : 1 <= Zdigits2 M1).
  { destruct M1; simpl; lia. }
  set (a := E1 - Z.min E1 E2) in *. set (b := E2 - Z.min E1 E2) in *.
  assert (Ha : 0 <= a) by (unfold a; lia). assert (Hb : 0 <= b) by (unfold b; lia).
  destruct (Z_le_gt_dec (Zdigits2 M1 + E1) (Zdigits2 M2 + E2)) as [| Hgt];
    [assumption | exfalso].
  assert (Hpow : 2 ^ (Zdigits2 M2 + b) <= 2 ^ (Zdigits2 M1 - 1 + a))
    by (apply Z.pow_le_mono_r; unfold a, b; lia).
  rewrite !Z.pow_add_r in Hpow by lia.
  assert (0 < 2 ^ a) by (apply Z.pow_pos_nonneg; lia).
  assert (0 < 2 ^ b) by (apply Z.pow_pos_nonneg; lia).
  assert (M2 * 2 ^ b < 2 ^ Zdigits2 M2 * 2 ^ b) by (apply Z.mul_lt_mono_pos_r; lia).
  assert (2 ^ (Zdigits2 M1 - 1) * 2 ^ a <= M1 * 2 ^ a) by (apply Z.mul_le_mono_nonneg_r; lia).
  lia.
Qed.

Lemma value_le_cross (M1 E1 M2 E2 e : Z) :
  value_le M1 E1 M2 E2 -> E1 <= e -> E2 <= e ->
  M1 * 2 ^ (e - E2) <= M2 * 2 ^ (e - E1).
Proof.
  unfold value_le. intros Hle H1 H2.
  set (E0 := Z.min E1 E2) in *.
  set (c := e - E1 - E2 + E0).
  assert (Hc : 0 <= c) by (unfold c, E0; lia).
  replace (e - E2) with ((E1 - E0) + c) by (unfold c; lia).
  replace (e - E1) with ((E2 - E0) + c) by (unfold c; lia).
  rewrite !Z.pow_add_r by (unfold E0; lia).
  rewrite !Z.mul_assoc.
  apply Z.mul_le_mono_nonneg_r; [apply Z.pow_nonneg; lia | exact Hle].
Qed.

(** Rounding a larger positive value never gives a smaller float. *)
Lemma round_mono (M1 E1 M2 E2 : Z) :
  0 < M1 -> 0 < M2 ->
  E1 <= fexp64 (Zdigits2 M1 + E1) -> E2 <= fexp64 (Zdigits2 M2 + E2) ->
  value_le M1 E1 M2 E2 ->
  SFleb (binary_round_aux prec emax false M1 E1 loc_Exact)
        (binary_round_aux prec emax false M2 E2 loc_Exact) = true.
Proof.
  intros H1 H2 HE1 HE2 Hle.
  destruct (binary_round_aux_spec false M1 E1 loc_Exact ltac:(lia) HE1)
    as (mrs1 & _ & Hm1 & Hd1 & Hsh1 & ->).
  destruct (binary_round_aux_spec false M2 E2 loc_Exact ltac:(lia) HE2)
    as (mrs2 & _ & Hm2 & Hd2 & Hsh2 & ->).
  specialize (Hsh1 eq_refl). specialize (Hsh2 eq_refl).
  pose proof (value_le_magnitude _ _ _ _ H1 H2 Hle) as Hmag.
  pose proof (fexp64_mono _ _ Hmag) as Hexp.
  pose proof (rne_range mrs1) as Hr1. pose proof (rne_range mrs2) as Hr2.
  set (e1 := fexp64 (Zdigits2 M1 + E1)) in *.
  set (e2 := fexp64 (Zdigits2 M2 + E2)) in *.
  destruct (Z.eq_dec e1 e2) as [Heq | Hne].
  - rewrite <- Heq in *. apply finish_mono_same; try lia.
    apply (rne_mono M1 M2 (e1 - E1) (e1 - E2)); try assumption; try lia.
    apply value_le_cross; assumption.
  - apply finish_mono_lt; try lia.
    assert (Hfull : Zdigits2 (shr_m mrs2) = 53).
    { rewrite Hd2. unfold e1, e2 in *. rewrite !fexp64_eq in *. lia. }
    assert (Hpos2 : 0 < shr_m mrs2).
    { destruct (shr_m mrs2); simpl in Hfull; lia. }
    destruct (Zdigits2_bounds _ Hpos2) as [Hlo _]. rewrite Hfull in Hlo.
    change (53 - 1) with 52 in Hlo. lia.
Qed.


(** *** Valid floats and their order *)

Lemma valid_finite (s : bool) (m : positive) (e : Z) :
  valid_binary prec emax (S754_finite s m e) = true ->
  Zdigits2 (Z.pos m) <= 53 /\ -1074 <= e <= 971
  /\ (e = -1074 \/ Zdigits2 (Z.pos m) = 53).
Proof.
  unfold valid_binary, bounded, canonical_mantissa.
  fold (fexp64 (Z.pos (digits2_pos m) + e)). rewrite fexp64_eq.
  change (emax - prec) with 971. simpl Zdigits2.
  intros H. apply andb_true_iff in H as [Hc Hb].
  apply Z.eqb_eq in Hc. apply Z.leb_le in Hb. lia.
Qed.

Lemma product_digits (m1 m2 : positive) :
  Zdigits2 (Z.pos m1) + Zdigits2 (Z.pos m2) - 1 <= Zdigits2 (Z.pos (m1 * m2)).
Proof.
  destruct (Zdigits2_bounds (Z.pos m1) ltac:(lia)) as [Hlo1 _].
  destruct (Zdigits2_bounds (Z.pos m2) ltac:(lia)) as [Hlo2 _].
  assert (Hd1 : 1 <= Zdigits2 (Z.pos m1)) by (simpl; lia).
  assert (Hd2 : 1 <= Zdigits2 (Z.pos m2)) by (simpl; lia).
  replace (Zdigits2 (Z.pos m1) + Zdigits2 (Z.pos m2) - 1)
    with ((Zdigits2 (Z.pos m1) - 1 + (Zdigits2 (Z.pos m2) - 1)) + 1) by lia.
  apply Zdigits2_ge; [lia |].
  rewrite Z.pow_add_r by lia. rewrite Pos2Z.inj_mul.
  apply Z.mul_le_mono_nonneg; try assumption; apply Z.pow_nonneg; lia.
Qed.

(** The exact product of two valid floats is never shorter than what the
    rounding step expects. *)
Lemma product_exponent_ok (s1 s2 : bool) (m1 m2 : positive) (e1 e2 : Z) :
  valid_binary prec emax (S754_finite s1 m1 e1) = true ->
  valid_binary prec emax (S754_finite s2 m2 e2) = true ->
  e1 + e2 <= fexp64 (Zdigits2 (Z.pos (m1 * m2)) + (e1 + e2)).
Proof.
  intros V1 V2. apply valid_finite in V1, V2.
  pose proof (product_digits m1 m2) as Hd.
  assert (1 <= Zdigits2 (Z.pos m1)) by (simpl; lia).
  assert (1 <= Zdigits2 (Z.pos m2)) by (simpl; lia).
  rewrite fexp64_eq. lia.
Qed.

(** On valid positive floats the comparison agrees with the values. *)
Lemma leb_value (m1 m2 : positive) (e1 e2 : Z) :
  valid_binary prec emax (S754_finite false m1 e1) = true ->
  valid_binary prec emax (S754_finite false m2 e2) = true ->
  SFleb (S754_finite false m1 e1) (S754_finite false m2 e2) = true ->
  value_le (Z.pos m1) e1 (Z.pos m2) e2.
Proof.
  intros V1 V2. apply valid_finite in V1, V2. rewrite SFleb_finite_pos.
  unfold value_le.
  destruct (Z.ltb_spec e1 e2) as [Hlt | Hge]; simpl.
  - intros _. rewrite Z.min_l by lia. rewrite Z.sub_diag, Z.pow_0_r, Z.mul_1_r.
    assert (Hd2 : Zdigits2 (Z.pos m2) = 53) by lia.
    destruct (Zdigits2_bounds (Z.pos m1) ltac:(lia)) as [_ Hhi1].
    destruct (Zdigits2_bounds (Z.pos m2) ltac:(lia)) as [Hlo2 _].
    rewrite Hd2 in Hlo2. change (53 - 1) with 52 in Hlo2.
    assert (2 ^ Zdigits2 (Z.pos m1) <= 2 ^ 53) by (apply Z.pow_le_mono_r; lia).
    assert (2 ^ 1 <= 2 ^ (e2 - e1)) by (apply Z.pow_le_mono_r; lia).
    change (2 ^ 1) with 2 in *.
    assert (Z.pos m2 * 2 <= Z.pos m2 * 2 ^ (e2 - e1)) by (apply Z.mul_le_mono_nonneg_l; lia).
    change (2 ^ 53) with (2 ^ 52 * 2) in *. lia.
  - destruct (Z.eqb_spec e1 e2) as [-> | Hne]; simpl; [| discriminate].
    destruct (Z.leb_spec (Z.pos m1) (Z.pos m2)); [| discriminate].
    intros _. rewrite Z.min_id, Z.sub_diag, Z.pow_0_r. lia.
Qed.

Lemma value_le_scale (m : positive) (e M1 E1 M2 E2 : Z) :
  value_le M1 E1 M2 E2 ->
  value_le (Z.pos m * M1) (e + E1) (Z.pos m * M2) (e + E2).
Proof.
  unfold value_le. intros Hle.
  replace (e + E1 - Z.min (e + E1) (e + E2)) with (E1 - Z.min E1 E2) by lia.
  replace (e + E2 - Z.min (e + E1) (e + E2)) with (E2 - Z.min E1 E2) by lia.
  rewrite <- !Z.mul_assoc. apply Z.mul_le_mono_nonneg_l; [lia | exact Hle].
Qed.

(** *** Signs *)

Lemma finish_opp (mr e : Z) : finish true mr e = SFopp (finish false mr e).
Proof.
  unfold finish.
  destruct (mr =? 0); [reflexivity |].
  destruct (mr <? 2 ^ 53);
    [destruct (e <=? emax - prec) | destruct (e + 1 <=? emax - prec)]; reflexivity.
Qed.

Lemma SFcompare_opp (x y : spec_float) :
  SFcompare (SFopp x) (SFopp y) = SFcompare y x.
Proof.
  destruct x as [sx | sx | | sx mx ex], y as [sy | sy | | sy my ey];
    try destruct sx; try destruct sy; try reflexivity;
    unfold SFopp, negb, SFcompare;
    change (Pos.compare_cont Eq mx my) with (Z.pos mx ?= Z.pos my);
    change (Pos.compare_cont Eq my mx) with (Z.pos my ?= Z.pos mx);
    rewrite (Z.compare_antisym ex ey), (Z.compare_antisym (Z.pos mx) (Z.pos my));
    destruct (ex ?= ey), (Z.pos mx ?= Z.pos my); reflexivity.
Qed.

Lemma SFleb_opp (x y : spec_float) : SFleb (SFopp x) (SFopp y) = SFleb y x.
Proof. unfold SFleb. now rewrite SFcompare_opp. Qed.

(** A rounded negative product is below a rounded non-negative one. *)
Lemma finish_neg_le_pos (mr1 e1 mr2 e2 : Z) :
  0 <= mr1 <= 2 ^ 53 -> 0 <= mr2 <= 2 ^ 53 ->
  SFleb (finish true mr1 e1) (finish false mr2 e2) = true.
Proof.
  intros H1 H2.
  destruct (finish_cases true mr1 e1 H1)
    as [[_ ->] | [(m1 & e1' & -> & _) | (_ & -> & _)]];
  destruct (finish_cases false mr2 e2 H2)
    as [[_ ->] | [(m2 & e2' & -> & _) | (_ & -> & _)]];
    reflexivity.
Qed.

Lemma finish_neg_le_zero (mr e : Z) (s : bool) :
  0 <= mr <= 2 ^ 53 -> SFleb (finish true mr e) (S754_zero s) = true.
Proof.
  intros H.
  destruct (finish_cases true mr e H) as [[_ ->] | [(m & e' & -> & _) | (_ & -> & _)]];
    reflexivity.
Qed.

Lemma zero_le_finish_pos (mr e : Z) (s : bool) :
  0 <= mr <= 2 ^ 53 -> SFleb (S754_zero s) (finish false mr e) = true.
Proof.
  intros H.
  destruct (finish_cases false mr e H) as [[_ ->] | [(m & e' & -> & _) | (_ & -> & _)]];
    reflexivity.
Qed.


(** *** Multiplication by a non-negative factor *)

Lemma mul_finite_spec (s : bool) (m mt : positive) (e et : Z) :
  valid_binary prec emax (S754_finite false m e) = true ->
  valid_binary prec emax (S754_finite s mt et) = true ->
  exists mrs,
    shr_fexp prec emax (Z.pos (m * mt)) (e + et) loc_Exact
      = (mrs, fexp64 (Zdigits2 (Z.pos (m * mt)) + (e + et)))
    /\ 0 <= rne mrs <= 2 ^ 53
    /\ SFmul prec emax (S754_finite false m e) (S754_finite s mt et)
       = finish s (rne mrs) (fexp64 (Zdigits2 (Z.pos (m * mt)) + (e + et))).
Proof.
  intros V1 V2.
  pose proof (product_exponent_ok false s m mt e et V1 V2) as HE.
  destruct (binary_round_aux_spec s (Z.pos (m * mt)) (e + et) loc_Exact ltac:(lia) HE)
    as (mrs & Hshr & Hm & _ & _ & Hbra).
  exists mrs. pose proof (rne_range mrs).
  split; [exact Hshr | split; [lia |]].
  unfold SFmul. simpl xorb. exact Hbra.
Qed.

Lemma mul_pos_mono (m m1 m2 : positive) (e e1 e2 : Z) :
  valid_binary prec emax (S754_finite false m e) = true ->
  valid_binary prec emax (S754_finite false m1 e1) = true ->
  valid_binary prec emax (S754_finite false m2 e2) = true ->
  SFleb (S754_finite false m1 e1) (S754_finite false m2 e2) = true ->
  SFleb (SFmul prec emax (S754_finite false m e) (S754_finite false m1 e1))
        (SFmul prec emax (S754_finite false m e) (S754_finite false m2 e2)) = true.
Proof.
  intros V V1 V2 Hle. unfold SFmul. simpl xorb.
  apply round_mono; try lia.
  - exact (product_exponent_ok false false m m1 e e1 V V1).
  - exact (product_exponent_ok false false m m2 e e2 V V2).
  - rewrite !Pos2Z.inj_mul. apply value_le_scale. now apply leb_value.
Qed.

Lemma valid_sign (s s' : bool) (m : positive) (e : Z) :
  valid_binary prec emax (S754_finite s m e) = valid_binary prec emax (S754_finite s' m e).
Proof. reflexivity. Qed.

Lemma mul_opp_r (m mt : positive) (e et : Z) :
  valid_binary prec emax (S754_finite false m e) = true ->
  valid_binary prec emax (S754_finite false mt et) = true ->
  SFmul prec emax (S754_finite false m e) (S754_finite true mt et)
  = SFopp (SFmul prec emax (S754_finite false m e) (S754_finite false mt et)).
Proof.
  intros V Vt.
  destruct (mul_finite_spec true m mt e et V Vt) as (mrs1 & Hs1 & _ & ->).
  destruct (mul_finite_spec false m mt e et V Vt) as (mrs2 & Hs2 & _ & ->).
  rewrite Hs1 in Hs2. injection Hs2 as <-. apply finish_opp.
Qed.

(** Multiplying by a finite non-negative factor preserves the order of
    finite floats. *)
Lemma mul_mono (r t1 t2 : float) :
  valid r = true -> valid t1 = true -> valid t2 = true ->
  is_finite r = true -> is_finite t1 = true -> is_finite t2 = true ->
  leb pos_zero r = true ->
  leb t1 t2 = true ->
  leb (mul r t1) (mul r t2) = true.
Proof.
  unfold valid, leb, mul, pos_zero.
  intros Vr V1 V2 Fr F1 F2 Hr Hle.
  destruct r as [sr | sr | | sr m e]; try discriminate.
  - destruct t1 as [s1 | s1 | | s1 m1 e1], t2 as [s2 | s2 | | s2 m2 e2];
      try discriminate; reflexivity.
  - destruct sr; [discriminate |].
    destruct t1 as [s1 | s1 | | s1 m1 e1], t2 as [s2 | s2 | | s2 m2 e2];
      try discriminate.
    + reflexivity.
    + destruct s2; [discriminate |].
      destruct (mul_finite_spec false m m2 e e2 Vr V2) as (mrs & _ & Hm & ->).
      simpl SFmul. now apply zero_le_finish_pos.
    + destruct s1; [| discriminate].
      destruct (mul_finite_spec true m m1 e e1 Vr V1) as (mrs & _ & Hm & ->).
      simpl SFmul. now apply finish_neg_le_zero.
    + destruct s1, s2; try discriminate.
      * rewrite !mul_opp_r by assumption. rewrite SFleb_opp.
        apply mul_pos_mono; try assumption.
        change (S754_finite true m1 e1) with (SFopp (S754_finite false m1 e1)) in Hle.
        change (S754_finite true m2 e2) with (SFopp (S754_finite false m2 e2)) in Hle.
        now rewrite SFleb_opp in Hle.
      * destruct (mul_finite_spec true m m1 e e1 Vr V1) as (mrs1 & _ & Hm1 & ->).
        destruct (mul_finite_spec false m m2 e e2 Vr V2) as (mrs2 & _ & Hm2 & ->).
        now apply finish_neg_le_pos.
      * now apply mul_pos_mono.
Qed.


(** *** Results of rounding are valid floats *)

Lemma finish_valid (sx : bool) (mr e : Z) :
  0 <= mr <= 2 ^ 53 -> -1074 <= e ->
  (e = -1074 \/ 2 ^ 52 <= mr) ->
  valid_binary prec emax (finish sx mr e) = true.
Proof.
  intros Hmr He Hcanon.
  destruct (finish_cases sx mr e Hmr)
    as [[_ ->] | [(m & e' & -> & Hb & Hshape) | (_ & -> & _)]]; try reflexivity.
  unfold valid_binary, bounded, canonical_mantissa.
  fold (fexp64 (Z.pos (digits2_pos m) + e')). rewrite fexp64_eq.
  change (Z.pos (digits2_pos m)) with (Zdigits2 (Z.pos m)).
  change (emax - prec) with 971.
  apply andb_true_iff. split; [apply Z.eqb_eq | apply Z.leb_le; exact Hb].
  destruct Hshape as [(Hrange & Hm & ->) | (-> & Hm & ->)].
  - assert (Zdigits2 (Z.pos m) <= 53) by (apply Zdigits2_le; lia).
    destruct Hcanon as [-> | Hfull]; [lia |].
    assert (52 + 1 <= Zdigits2 (Z.pos m)) by (apply Zdigits2_ge; lia).
    lia.
  - rewrite Hm. change (Zdigits2 (2 ^ 52)) with 53. lia.
Qed.

Lemma binary_round_aux_valid (sx : bool) (M E : Z) (l : location) :
  0 <= M -> E <= fexp64 (Zdigits2 M + E) ->
  valid_binary prec emax (binary_round_aux prec emax sx M E l) = true.
Proof.
  intros HM HE.
  destruct (binary_round_aux_spec sx M E l HM HE) as (mrs & _ & Hm & Hd & _ & ->).
  pose proof (rne_range mrs) as Hr.
  apply finish_valid; [lia | rewrite fexp64_eq; lia |].
  destruct (Z.eq_dec (fexp64 (Zdigits2 M + E)) (-1074)) as [| Hne]; [now left | right].
  assert (Hfull : Zdigits2 (shr_m mrs) = 53) by (rewrite fexp64_eq in *; lia).
  assert (Hpos : 0 < shr_m mrs) by (destruct (shr_m mrs); simpl in Hfull; lia).
  destruct (Zdigits2_bounds _ Hpos) as [Hlo _]. rewrite Hfull in Hlo.
  change (53 - 1) with 52 in Hlo. lia.
Qed.

Lemma finish_finite (sx : bool) (mr e : Z) :
  0 <= mr <= 2 ^ 53 -> e <= 970 -> is_finite (finish sx mr e) = true.
Proof.
  intros Hmr He.
  destruct (finish_cases sx mr e Hmr)
    as [[_ ->] | [(m & e' & -> & _) | (_ & _ & Hover)]]; try reflexivity.
  lia.
Qed.

(** *** The rate [discountValue / 100] *)

Lemma div_hundred_core (mx : positive) (ex : Z) :
  valid_binary prec emax (S754_finite false mx ex) = true ->
  exists q e' l,
    SFdiv_core_binary prec emax (Z.pos mx) ex 7036874417766400 (-46) = (q, e', l)
    /\ 0 <= q
    /\ e' <= fexp64 (Zdigits2 q + e')
    /\ fexp64 (Zdigits2 q + e') <= 970.
Proof.
  intros V. apply valid_finite in V as (Hd & He & _).
  assert (Hd1 : 1 <= Zdigits2 (Z.pos mx)) by (simpl; lia).
  unfold SFdiv_core_binary.
  change (Zdigits2 7036874417766400) with 53.
  fold (fexp64 (Zdigits2 (Z.pos mx) + ex - (53 + -46))).
  set (d := Zdigits2 (Z.pos mx)) in *.
  set (e' := Z.min (fexp64 (d + ex - (53 + -46))) (ex - -46)).
  assert (He' : e' = fexp64 (d + ex - 7)).
  { unfold e'. replace (d + ex - (53 + -46)) with (d + ex - 7) by lia.
    rewrite fexp64_eq. lia. }
  assert (Hs : 46 <= ex - -46 - e') by (rewrite He', fexp64_eq; lia).
  set (s := ex - -46 - e') in *.
  destruct s as [| ps | ps] eqn:Es; try lia.
  rewrite <- Es in *. rewrite Z.shiftl_mul_pow2 by lia.
  pose proof (Z_div_mod (Z.pos mx * 2 ^ s) 7036874417766400 eq_refl) as Hdiv.
  destruct (Z.div_eucl (Z.pos mx * 2 ^ s) 7036874417766400) as [q r].
  destruct Hdiv as [Hq Hr].
  exists q, e', (new_location 7036874417766400 r).
  split; [reflexivity |].
  destruct (Zdigits2_bounds (Z.pos mx) ltac:(lia)) as [Hlo Hhi]. fold d in Hlo, Hhi.
  assert (Hps : 0 < 2 ^ s) by (apply Z.pow_pos_nonneg; lia).
  assert (Hq0 : 0 <= q) by nia.
  split; [exact Hq0 |].
  assert (Hlow : d + s - 53 <= Zdigits2 q).
  { destruct (Z_le_gt_dec (d + s - 53) 0) as [| Hbig];
      [pose proof (Zdigits2_nonneg q); lia |].
    replace (d + s - 53) with ((d + s - 54) + 1) by lia.
    apply Zdigits2_ge; [lia |].
    assert (Hpow : 2 ^ (d + s - 54) * 2 ^ 53 = 2 ^ (d - 1) * 2 ^ s).
    { rewrite <- !Z.pow_add_r by lia. f_equal. lia. }
    assert (2 ^ (d - 1) * 2 ^ s <= Z.pos mx * 2 ^ s)
      by (apply Z.mul_le_mono_nonneg_r; lia).
    assert (0 < 2 ^ (d + s - 54)) by (apply Z.pow_pos_nonneg; lia).
    change (2 ^ 53) with 9007199254740992 in Hpow.
    destruct (Z_le_gt_dec (2 ^ (d + s - 54)) q) as [| Hsmall]; [assumption | exfalso].
    assert (q + 1 <= 2 ^ (d + s - 54)) by lia.
    assert (7036874417766400 * (q + 1) <= 7036874417766400 * 2 ^ (d + s - 54))
      by (apply Z.mul_le_mono_nonneg_l; lia).
    lia. }
  assert (Hhigh : Zdigits2 q <= Z.max 0 (d + s - 52)).
  { apply Zdigits2_le; [lia |]. split; [exact Hq0 |].
    destruct (Z_le_gt_dec 0 (d + s - 52)) as [Hnn | Hneg].
    - rewrite Z.max_r by lia.
      assert (Hpow : 2 ^ (d + s - 52) * 2 ^ 52 = 2 ^ d * 2 ^ s).
      { rewrite <- !Z.pow_add_r by lia. f_equal. lia. }
      assert (Z.pos mx * 2 ^ s < 2 ^ d * 2 ^ s)
        by (apply Z.mul_lt_mono_pos_r; lia).
      change (2 ^ 52) with 4503599627370496 in Hpow.
      destruct (Z_lt_le_dec q (2 ^ (d + s - 52))) as [| Hbig]; [assumption | exfalso].
      assert (7036874417766400 * 2 ^ (d + s - 52) <= 7036874417766400 * q)
        by (apply Z.mul_le_mono_nonneg_l; lia).
      assert (0 < 2 ^ (d + s - 52)) by (apply Z.pow_pos_nonneg; lia).
      lia.
    - rewrite Z.max_l by lia. change (2 ^ 0) with 1.
      assert (Hpow : 2 ^ d * 2 ^ s <= 2 ^ 52).
      { rewrite <- Z.pow_add_r by lia. apply Z.pow_le_mono_r; lia. }
      assert (Z.pos mx * 2 ^ s < 2 ^ d * 2 ^ s)
        by (apply Z.mul_lt_mono_pos_r; lia).
      change (2 ^ 52) with 4503599627370496 in Hpow.
      destruct (Z_lt_le_dec q 1) as [| Hbig]; [assumption | exfalso].
      assert (7036874417766400 * 1 <= 7036874417766400 * q)
        by (apply Z.mul_le_mono_nonneg_l; lia).
      lia. }
  split.
  - rewrite He' at 1. apply fexp64_mono. unfold s in Hlow. lia.
  - assert (Hle : fexp64 (Zdigits2 q + e') <= fexp64 (Z.max e' (d + ex - 6)))
      by (apply fexp64_mono; unfold s in Hhigh; lia).
    assert (He'le : e' <= ex) by (rewrite He', fexp64_eq; lia).
    rewrite (fexp64_eq (Z.max e' (d + ex - 6))) in Hle. lia.
Qed.

Lemma rate_facts (dv : float) :
  valid dv = true -> is_finite dv = true -> leb pos_zero dv = true ->
  valid (div dv hundred) = true
  /\ is_finite (div dv hundred) = true
  /\ leb pos_zero (div dv hundred) = true.
Proof.
  unfold valid, leb, div, pos_zero, hundred.
  intros V F Hpos.
  destruct dv as [s | s | | s mx ex]; try discriminate.
  - destruct s; repeat split; reflexivity.
  - destruct s; [discriminate |].
    destruct (div_hundred_core mx ex V) as (q & e' & l & Hcore & Hq & HE & Hsmall).
    unfold SFdiv. rewrite Hcore. simpl xorb.
    split; [now apply binary_round_aux_valid |].
    destruct (binary_round_aux_spec false q e' l Hq HE) as (mrs & _ & Hm & _ & _ & ->).
    pose proof (rne_range mrs).
    split; [apply finish_finite; lia | apply zero_le_finish_pos; lia].
Qed.

End RoundingFacts.

(* ===================================================================== *)
(** ** Discount calculator *)
(* ===================================================================== *)

Lemma get_discount_flat (c : Coupon) (total : float) :
  discountType c = FLAT -> get_discount c total = discountValue c.
Proof. unfold get_discount. now intros ->. Qed.

(** C5: for a PERCENT coupon and any cart total, [get_discount] returns
    [min(discountValue / 100 * total, maxDiscountAmount)] when
    [maxDiscountAmount] is configured and truthy, and the uncapped
    [discountValue / 100 * total] when it is absent or falsy ([None] or a
    zero).  The [min] is the mathematical one whenever neither operand is
    NaN: a lower bound of both that equals one of them. *)
Theorem percent_discount_formula (c : Coupon) (total : float) :
  discountType c = PERCENT ->
  let raw := PyFloat.mul (PyFloat.div (discountValue c) PyFloat.hundred) total in
  (forall cap, maxDiscountAmount c = Some cap -> PyFloat.truthy cap = true ->
     get_discount c total = PyFloat.py_min raw cap
     /\ (PyFloat.is_nan raw = false -> PyFloat.is_nan cap = false ->
         PyFloat.leb (get_discount c total) raw = true
         /\ PyFloat.leb (get_discount c total) cap = true
         /\ (get_discount c total = raw \/ get_discount c total = cap)))
  /\ (truthy_float (maxDiscountAmount c) = false -> get_discount c total = raw)
  /\ (maxDiscountAmount c = None -> get_discount c total = raw).
Proof.
  intros Hty raw. unfold get_discount. rewrite Hty. fold raw.
  split; [| split].
  - intros cap Hcap Htruthy. rewrite Hcap. simpl. rewrite Htruthy.
    split; [reflexivity |]. intros Hraw Hnan.
    now apply FloatOrder.py_min_spec.
  - now intros ->.
  - now intros ->.
Qed.

Lemma percent_discount_formula_witness :
  get_discount (Sample.percent "P" 20 (Some 15)) (Sample.fl 100) = Sample.fl 15
  /\ get_discount (Sample.percent "P" 20 (Some 15)) (Sample.fl 50) = Sample.fl 10
  /\ get_discount (Sample.percent "P" 20 (Some 0)) (Sample.fl 100) = Sample.fl 20
  /\ get_discount (Sample.percent "P" 20 None) (Sample.fl 100) = Sample.fl 20.
Proof.
  split; [| split; [| split]].
  - destruct (percent_discount_formula (Sample.percent "P" 20 (Some 15)) (Sample.fl 100)
                eq_refl) as [H _].
    destruct (H (Sample.fl 15) eq_refl eq_refl) as [-> _]. reflexivity.
  - destruct (percent_discount_formula (Sample.percent "P" 20 (Some 15)) (Sample.fl 50)
                eq_refl) as [H _].
    destruct (H (Sample.fl 15) eq_refl eq_refl) as [-> _]. reflexivity.
  - destruct (percent_discount_formula (Sample.percent "P" 20 (Some 0)) (Sample.fl 100)
                eq_refl) as (_ & H & _).
    rewrite H; reflexivity.
  - destruct (percent_discount_formula (Sample.percent "P" 20 None) (Sample.fl 100)
                eq_refl) as (_ & _ & H).
    rewrite H; reflexivity.
Defined.

(** C6 as stated fails: nothing keeps [discountValue] non-negative, and a
    PERCENT coupon with a negative value pays less the larger the cart is
    (-100 on a cart of 100, -200 on a cart of 200). *)
Lemma percent_negative_value_decreases :
  ~ percent_monotone_at (Sample.percent "NEG" (-100) None) (Sample.fl 100) (Sample.fl 200).
Proof.
  intros Hclaim. specialize (Hclaim eq_refl eq_refl).
  vm_compute in Hclaim. discriminate Hclaim.
Qed.

(** A rate of zero against an infinite total multiplies to NaN, which is
    not above anything: finiteness of the totals is needed as well. *)
Lemma percent_zero_rate_infinite_total :
  ~ percent_monotone_at (Sample.percent "ZERO" 0 None) (Sample.fl 1) PyFloat.pos_inf.
Proof.
  intros Hclaim. specialize (Hclaim eq_refl eq_refl).
  vm_compute in Hclaim. discriminate Hclaim.
Qed.

(** C6 (amended): for a PERCENT coupon whose [discountValue] is a finite
    number not below zero, and finite cart totals [t1 <= t2],
    [get_discount coupon t1 <= get_discount coupon t2]: the PERCENT
    discount is monotone non-decreasing in the cart total, with or without
    a configured cap, in binary64 arithmetic with its rounding. *)
Theorem percent_discount_monotone (c : Coupon) (t1 t2 : float) :
  discountType c = PERCENT ->
  PyFloat.valid (discountValue c) = true ->
  PyFloat.is_finite (discountValue c) = true ->
  PyFloat.leb PyFloat.pos_zero (discountValue c) = true ->
  PyFloat.valid t1 = true -> PyFloat.valid t2 = true ->
  PyFloat.is_finite t1 = true -> PyFloat.is_finite t2 = true ->
  PyFloat.leb t1 t2 = true ->
  PyFloat.leb (get_discount c t1) (get_discount c t2) = true.
Proof.
  intros Hty Vd Fd Hpos V1 V2 F1 F2 Hle.
  destruct (RoundingFacts.rate_facts (discountValue c) Vd Fd Hpos) as (Vr & Fr & Hr).
  pose proof (RoundingFacts.mul_mono _ t1 t2 Vr V1 V2 Fr F1 F2 Hr Hle) as Hraw.
  unfold get_discount. rewrite Hty.
  destruct (truthy_float (maxDiscountAmount c)).
  - now apply FloatOrder.py_min_mono.
  - exact Hraw.
Qed.

Lemma percent_discount_monotone_witness :
  PyFloat.leb (get_discount (Sample.percent "P" 20 (Some 15)) (Sample.fl 50))
              (get_discount (Sample.percent "P" 20 (Some 15)) (Sample.fl 100)) = true
  /\ PyFloat.leb (get_discount (Sample.percent "Q" 7 None) (Sample.fl 3))
                 (get_discount (Sample.percent "Q" 7 None) (Sample.fl 11)) = true.
Proof.
  split.
  - apply (percent_discount_monotone (Sample.percent "P" 20 (Some 15))
             (Sample.fl 50) (Sample.fl 100)); reflexivity.
  - apply (percent_discount_monotone (Sample.percent "Q" 7 None)
             (Sample.fl 3) (Sample.fl 11)); reflexivity.
Defined.

(* ===================================================================== *)
(** ** Best-coupon selector *)
(* ===================================================================== *)

(** Once the cart total has been computed, [eligible] cannot raise. *)
Lemma eligible_returns uc today c u cart total :
  cart_total cart = Ok total ->
  exists b, eligible uc today c u cart = Ok b.
Proof.
  intros Htot. unfold eligible, rules_and_usage. rewrite Htot. simpl.
  destruct (negb _); [eauto |].
  destruct (eligibility c) as [e |]; [| eauto].
  repeat match goal with
         | |- context [if ?b then Ok false else _] => destruct b; [eauto |]
         end.
  eauto.
Qed.

Lemma select_step_eq uc today u cart total st c b :
  eligible uc today c u cart = Ok b ->
  select_step uc today u cart total st c =
  Ok (if b && PyFloat.ltb (snd st) (get_discount c total)
      then (Some c, get_discount c total) else st).
Proof.
  intros Hb. unfold select_step, PyFloat.gtb. rewrite Hb. simpl.
  destruct b; simpl; [| reflexivity].
  now destruct (PyFloat.ltb _ _).
Qed.

Lemma select_loop_app uc today u cart total st l1 l2 :
  select_loop uc today u cart total st (l1 ++ l2) =
  let! st' := select_loop uc today u cart total st l1 in
  select_loop uc today u cart total st' l2.
Proof.
  revert st. induction l1 as [| c l1 IH]; intros st; simpl.
  - reflexivity.
  - destruct (select_step uc today u cart total st c) as [st' |]; simpl;
      [apply IH | reflexivity].
Qed.

Lemma select_loop_returns uc today u cart total st cs :
  cart_total cart = Ok total ->
  exists st', select_loop uc today u cart total st cs = Ok st'.
Proof.
  intros Htot. revert st. induction cs as [| c cs IH]; intros st; simpl.
  - eauto.
  - destruct (eligible_returns uc today c u cart total Htot) as [b Hb].
    rewrite (select_step_eq _ _ _ _ _ _ _ _ Hb). simpl. apply IH.
Qed.

(** A discount that does not beat the running best still does not beat it
    after any further iterations: the running best never decreases. *)
Lemma select_loop_keeps_bound uc today u cart total d cs :
  forall st st',
  PyFloat.ltb (snd st) d = false ->
  select_loop uc today u cart total st cs = Ok st' ->
  PyFloat.ltb (snd st') d = false.
Proof.
  induction cs as [| c cs IH]; simpl; intros st st' Hbound Hloop.
  - now injection Hloop as <-.
  - unfold select_step, PyFloat.gtb in Hloop.
    destruct (eligible uc today c u cart) as [[] |]; simpl in Hloop;
      try discriminate; [| now apply (IH st)].
    destruct (PyFloat.ltb (snd st) (get_discount c total)) eqn:Hlt;
      [| now apply (IH st)].
    apply (IH (Some c, get_discount c total)); [simpl | exact Hloop].
    destruct (PyFloat.ltb (get_discount c total) d) eqn:Hd; [| reflexivity].
    rewrite (FloatOrder.ltb_trans _ _ _ Hlt Hd) in Hbound. discriminate.
Qed.

(** Coupons that are not eligible, or whose discount does not beat the
    running best, are passed over. *)
Lemma select_loop_skips uc today u cart total st cs :
  cart_total cart = Ok total ->
  (forall c, c ∈ cs -> eligible uc today c u cart = Ok true ->
             PyFloat.ltb (snd st) (get_discount c total) = false) ->
  select_loop uc today u cart total st cs = Ok st.
Proof.
  intros Htot. induction cs as [| c cs IH]; simpl; intros Hall.
  - reflexivity.
  - destruct (eligible_returns uc today c u cart total Htot) as [b Hb].
    rewrite (select_step_eq _ _ _ _ _ _ _ _ Hb).
    assert (Hskip : b && PyFloat.ltb (snd st) (get_discount c total) = false).
    { destruct b; [| reflexivity]. simpl. apply Hall; [apply list_elem_of_here | exact Hb]. }
    rewrite Hskip. simpl. apply IH.
    intros c' Hin. apply Hall. now apply list_elem_of_further.
Qed.

(** While every eligible coupon met so far pays strictly less than [d]
    (or pays NaN), the running best stays strictly below [d]. *)
Lemma select_loop_below uc today u cart total d cs :
  cart_total cart = Ok total ->
  (forall c, c ∈ cs -> eligible uc today c u cart = Ok true ->
             PyFloat.leb d (get_discount c total) = false) ->
  forall st, PyFloat.ltb (snd st) d = true ->
  exists st', select_loop uc today u cart total st cs = Ok st'
              /\ PyFloat.ltb (snd st') d = true.
Proof.
  intros Htot. induction cs as [| c cs IH]; simpl; intros Hall st Hst.
  - eauto.
  - destruct (eligible_returns uc today c u cart total Htot) as [b Hb].
    rewrite (select_step_eq _ _ _ _ _ _ _ _ Hb). simpl.
    apply IH; [intros c' Hin; apply Hall; now apply list_elem_of_further |].
    destruct b; simpl; [| exact Hst].
    destruct (PyFloat.ltb (snd st) (get_discount c total)) eqn:Hlt; [simpl | exact Hst].
    apply FloatOrder.not_leb_ltb.
    + now destruct (FloatOrder.ltb_not_nan _ _ Hst).
    + now destruct (FloatOrder.ltb_not_nan _ _ Hlt).
    + apply Hall; [apply list_elem_of_here | exact Hb].
Qed.

(** The first coupon that reaches the top discount is the one selected. *)
Lemma select_loop_first_max uc today u cart total l1 c1 l2 :
  cart_total cart = Ok total ->
  eligible uc today c1 u cart = Ok true ->
  PyFloat.ltb PyFloat.pos_zero (get_discount c1 total) = true ->
  (forall c, c ∈ l1 -> eligible uc today c u cart = Ok true ->
             PyFloat.leb (get_discount c1 total) (get_discount c total) = false) ->
  (forall c, c ∈ l2 -> eligible uc today c u cart = Ok true ->
             PyFloat.ltb (get_discount c1 total) (get_discount c total) = false) ->
  select_loop uc today u cart total initial_selection (l1 ++ c1 :: l2)
  = Ok (Some c1, get_discount c1 total).
Proof.
  intros Htot Hel Hpos Hbefore Hafter.
  rewrite select_loop_app.
  destruct (select_loop_below uc today u cart total (get_discount c1 total) l1
              Htot Hbefore initial_selection Hpos) as (st1 & -> & Hst1).
  simpl. rewrite (select_step_eq _ _ _ _ _ _ _ _ Hel), Hst1. simpl.
  now apply select_loop_skips.
Qed.

(** The state after the first of two coupons with the same discount is not
    beaten by the second. *)
Lemma select_loop_tie_bound uc today u cart total l1 c1 l2 st :
  eligible uc today c1 u cart = Ok true ->
  select_loop uc today u cart total initial_selection (l1 ++ c1 :: l2) = Ok st ->
  PyFloat.ltb (snd st) (get_discount c1 total) = false.
Proof.
  intros Hel. rewrite select_loop_app.
  destruct (select_loop uc today u cart total initial_selection l1) as [st1 |];
    simpl; [| discriminate].
  rewrite (select_step_eq _ _ _ _ _ _ _ _ Hel). simpl.
  apply select_loop_keeps_bound.
  destruct (PyFloat.ltb (snd st1) (get_discount c1 total)) eqn:Hlt; simpl.
  - apply FloatOrder.ltb_irrefl.
  - exact Hlt.
Qed.

Lemma select_loop_drop_tie uc today u cart total l1 c1 l2 c2 l3 :
  cart_total cart = Ok total ->
  eligible uc today c1 u cart = Ok true ->
  get_discount c1 total = get_discount c2 total ->
  select_loop uc today u cart total initial_selection (l1 ++ c1 :: l2 ++ c2 :: l3)
  = select_loop uc today u cart total initial_selection (l1 ++ c1 :: l2 ++ l3).
Proof.
  intros Htot Hel1 Hsame.
  change (l1 ++ c1 :: l2 ++ c2 :: l3) with (l1 ++ (c1 :: l2) ++ c2 :: l3).
  change (l1 ++ c1 :: l2 ++ l3) with (l1 ++ (c1 :: l2) ++ l3).
  rewrite !(assoc_L (++) l1), !(select_loop_app _ _ _ _ _ _ (l1 ++ c1 :: l2)).
  destruct (select_loop uc today u cart total initial_selection (l1 ++ c1 :: l2))
    as [st |] eqn:Hprefix; simpl; [| reflexivity].
  pose proof (select_loop_tie_bound _ _ _ _ _ _ _ _ _ Hel1 Hprefix) as Hbound.
  destruct (eligible_returns uc today c2 u cart total Htot) as [b Hb].
  rewrite (select_step_eq _ _ _ _ _ _ _ _ Hb), <- Hsame, Hbound, andb_false_r.
  reflexivity.
Qed.

Lemma best_coupon_of_loop today req s total best d :
  cart_total (cart req) = Ok total ->
  select_loop (usage_counter s) today (user req) (cart req) total
    initial_selection (od_values (coupons s)) = Ok (Some best, d) ->
  best_coupon today req s = (Ok (BestCoupon (code best) d (PyFloat.sub total d)), s).
Proof. intros Htot Hloop. unfold best_coupon. now rewrite Htot, Hloop. Qed.

(** C1: the selector starts from (none, 0) and replaces its running best
    only by an eligible coupon whose discount is strictly greater than the
    current best.  Hence of two eligible coupons with identical discounts
    the later one is never the pick (the selection is what it would be with
    the later one left out of the catalog), and when the two hold the top
    discount the first enumerated is returned; and a coupon whose discount
    is zero or less never replaces the initial none-state, so a catalog
    whose eligible coupons all pay zero or less yields no coupon. *)
Theorem best_coupon_strict_selection uc today u cart total :
  cart_total cart = Ok total ->
  (forall st c, exists st',
      select_step uc today u cart total st c = Ok st'
      /\ (st' = st
          \/ (st' = (Some c, get_discount c total)
              /\ eligible uc today c u cart = Ok true
              /\ PyFloat.gtb (get_discount c total) (snd st) = true))
      /\ (PyFloat.gtb (get_discount c total) (snd st) = false -> st' = st))
  /\ (forall l1 c1 l2 c2 l3,
      eligible uc today c1 u cart = Ok true ->
      eligible uc today c2 u cart = Ok true ->
      get_discount c1 total = get_discount c2 total ->
      select_loop uc today u cart total initial_selection (l1 ++ c1 :: l2 ++ c2 :: l3)
      = select_loop uc today u cart total initial_selection (l1 ++ c1 :: l2 ++ l3)
      /\ (PyFloat.gtb (get_discount c1 total) PyFloat.pos_zero = true ->
          (forall c, c ∈ l1 -> eligible uc today c u cart = Ok true ->
                     PyFloat.leb (get_discount c1 total) (get_discount c total) = false) ->
          (forall c, c ∈ l2 ++ l3 -> eligible uc today c u cart = Ok true ->
                     PyFloat.gtb (get_discount c total) (get_discount c1 total) = false) ->
          select_loop uc today u cart total initial_selection (l1 ++ c1 :: l2 ++ c2 :: l3)
          = Ok (Some c1, get_discount c1 total)
          /\ forall s, usage_counter s = uc ->
               od_values (coupons s) = l1 ++ c1 :: l2 ++ c2 :: l3 ->
               fst (best_coupon today (mkReq u cart) s)
               = Ok (BestCoupon (code c1) (get_discount c1 total)
                       (PyFloat.sub total (get_discount c1 total)))))
  /\ (forall c, PyFloat.leb (get_discount c total) PyFloat.pos_zero = true ->
        select_step uc today u cart total initial_selection c = Ok initial_selection)
  /\ (forall cs,
        (forall c, c ∈ cs -> eligible uc today c u cart = Ok true ->
                   PyFloat.leb (get_discount c total) PyFloat.pos_zero = true) ->
        select_loop uc today u cart total initial_selection cs = Ok initial_selection
        /\ forall s, usage_counter s = uc -> od_values (coupons s) = cs ->
              fst (best_coupon today (mkReq u cart) s) = Ok NoCoupon).
Proof.
  intros Htot. split; [| split; [| split]].
  - intros st c.
    destruct (eligible_returns uc today c u cart total Htot) as [b Hb].
    rewrite (select_step_eq _ _ _ _ _ _ _ _ Hb). unfold PyFloat.gtb.
    eexists; split; [reflexivity |].
    destruct b; simpl; [| auto].
    destruct (PyFloat.ltb (snd st) (get_discount c total)); [| auto].
    split; [right; auto | discriminate].
  - intros l1 c1 l2 c2 l3 Hel1 Hel2 Hsame. split.
    + now apply select_loop_drop_tie.
    + unfold PyFloat.gtb. intros Hpos Hbefore Hafter.
      assert (Hloop : select_loop uc today u cart total initial_selection
                        (l1 ++ c1 :: l2 ++ c2 :: l3)
                      = Ok (Some c1, get_discount c1 total)).
      { apply select_loop_first_max; try assumption.
        intros c Hin Hel. apply elem_of_app in Hin as [Hin | Hin].
        - apply Hafter; [apply elem_of_app; now left | exact Hel].
        - apply elem_of_cons in Hin as [-> | Hin].
          + rewrite <- Hsame. apply FloatOrder.ltb_irrefl.
          + apply Hafter; [apply elem_of_app; now right | exact Hel]. }
      split; [exact Hloop |].
      intros s Huc Hvals.
      erewrite best_coupon_of_loop; [reflexivity | exact Htot |].
      simpl. now rewrite Huc, Hvals.
  - intros c Hle.
    destruct (eligible_returns uc today c u cart total Htot) as [b Hb].
    rewrite (select_step_eq _ _ _ _ _ _ _ _ Hb). simpl.
    now rewrite (FloatOrder.leb_not_ltb _ _ Hle), andb_false_r.
  - intros cs Hall.
    assert (Hloop : select_loop uc today u cart total initial_selection cs
                    = Ok initial_selection).
    { apply select_loop_skips; [exact Htot |].
      intros c Hin Hel. apply FloatOrder.leb_not_ltb. now apply Hall. }
    split; [exact Hloop |].
    intros s Huc Hvals. unfold best_coupon. simpl.
    now rewrite Htot, Huc, Hvals, Hloop.
Qed.

Lemma best_coupon_strict_selection_witness :
  let a := Sample.flat "A" 10 in
  let b := Sample.flat "B" 10 in
  let s := mkStore [("A", a); ("B", b)] ∅ in
  fst (best_coupon Sample.today (mkReq Sample.alice Sample.cart50) s)
  = Ok (BestCoupon "A" (Sample.fl 10) (Sample.fl 40)).
Proof.
  intros a b s.
  destruct (best_coupon_strict_selection ∅ Sample.today Sample.alice Sample.cart50
              (Sample.fl 50) eq_refl) as (_ & Htie & _ & _).
  destruct (Htie [] a [] b [] eq_refl eq_refl eq_refl) as [_ Htop].
  destruct Htop as [_ Hbest].
  - reflexivity.
  - intros c Hin. apply elem_of_nil in Hin. destruct Hin.
  - intros c Hin. apply elem_of_nil in Hin. destruct Hin.
  - exact (Hbest s eq_refl eq_refl).
Defined.

(* ===================================================================== *)
(** ** End-to-end scenarios *)
(* ===================================================================== *)

Module Scenario.

Example empty_catalog :
  fst (best_coupon Sample.today Sample.req50 empty_store) = Ok NoCoupon.
Proof. reflexivity. Qed.

Example flat_ten_on_fifty :
  fst (best_coupon Sample.today Sample.req50 (mkStore [("F", Sample.flat "F" 10)] ∅))
  = Ok (BestCoupon "F" (Sample.fl 10) (Sample.fl 40)).
Proof. reflexivity. Qed.

Example percent_capped :
  fst (best_coupon Sample.today Sample.req100
         (mkStore [("P", Sample.percent "P" 20 (Some 15))] ∅))
  = Ok (BestCoupon "P" (Sample.fl 15) (Sample.fl 85)).
Proof. reflexivity. Qed.

Example usage_limit_reached :
  fst (best_coupon Sample.today Sample.req50
         (mkStore [("L", with_usageLimit (Some 1) (Sample.flat "L" 10))]
                  {[ "L" := {[ "alice" := 1 ]} ]}))
  = Ok NoCoupon.
Proof. reflexivity. Qed.

Example excluded_categories :
  let e := Rule.set_excludedCategories (Some ["books"; "toys"]) Sample.no_rules in
  fst (best_coupon Sample.today Sample.req50
         (mkStore [("X", with_eligibility (Some e) (Sample.flat "X" 10))] ∅))
  = Ok NoCoupon.
Proof. reflexivity. Qed.

(** A quantity too large for a float makes the request fail before any
    coupon is looked at; the store is untouched. *)
Example oversized_quantity :
  best_coupon Sample.today
    (mkReq Sample.alice (mkCart [mkItem "p" None (Sample.fl 1) (10 ^ 400)]))
    (mkStore [("F", Sample.flat "F" 10)] ∅)
  = (Raise OverflowError, mkStore [("F", Sample.flat "F" 10)] ∅).
Proof. reflexivity. Qed.

End Scenario.

(* ===================================================================== *)
(** ** Eligibility as a conjunction of rules *)
(* ===================================================================== *)

Lemma rules_and_usage_eq uc c u cart total :
  cart_total cart = Ok total ->
  rules_and_usage uc c u cart =
  Ok (match eligibility c with
      | Some e => user_rules_hold e u && cart_rules_hold e cart total
      | None => true
      end && usage_limit_check uc c u).
Proof.
  intros Htot. unfold rules_and_usage, user_rules_hold, cart_rules_hold.
  destruct (eligibility c) as [e |]; [| reflexivity].
  rewrite Htot. simpl.
  destruct (truthy_list (allowedUserTiers e)); simpl;
    [destruct (py_in (userTier u) _); simpl; [| reflexivity] |];
  (destruct (truthy_float (minLifetimeSpend e)); simpl;
    [destruct (PyFloat.ltb (lifetimeSpend u) _); simpl; [reflexivity |] |]);
  (destruct (truthy_int (minOrdersPlaced e)); simpl;
    [destruct (ordersPlaced u <? _); simpl; [reflexivity |] |]);
  (destruct (truthy_bool (firstOrderOnly e)); simpl;
    [destruct (ordersPlaced u >? 0); simpl; [reflexivity |] |]);
  (destruct (truthy_list (allowedCountries e)); simpl;
    [destruct (py_in (country u) _); simpl; [| reflexivity] |]);
  (destruct (truthy_float (minCartValue e)); simpl;
    [destruct (PyFloat.ltb total _); simpl; [reflexivity |] |]);
  (destruct (truthy_list (applicableCategories e)); simpl;
    [destruct (truthy_set (intersection _ (list_of (applicableCategories e)))); simpl;
       [| reflexivity] |]);
  (destruct (truthy_list (excludedCategories e)); simpl;
    [destruct (truthy_set (intersection _ (list_of (excludedCategories e)))); simpl;
       [reflexivity |] |]);
  (destruct (truthy_int (minItemsCount e)); simpl;
    [destruct (items_count cart <? _); simpl; [reflexivity |] |]);
  reflexivity.
Qed.

Lemma eligible_eq uc today c u cart total :
  cart_total cart = Ok total ->
  eligible uc today c u cart =
  Ok (date_in_window c today
      && (match eligibility c with
          | Some e => user_rules_hold e u && cart_rules_hold e cart total
          | None => true
          end && usage_limit_check uc c u)).
Proof.
  intros Htot. unfold eligible.
  destruct (date_in_window c today); simpl; [| reflexivity].
  now apply rules_and_usage_eq.
Qed.

Lemma truthy_list_true {A : Type} (o : option (list A)) :
  truthy_list o = true <-> exists l, o = Some l /\ l <> [].
Proof.
  destruct o as [[| a l] |]; simpl; split; try discriminate.
  - intros (l & [= <-] & Hne). now contradiction Hne.
  - intros _. now exists (a :: l).
  - reflexivity.
  - intros (l & Hl & _). discriminate Hl.
Qed.

Lemma py_in_true (x : option string) (xs : list string) :
  py_in x xs = true <-> exists t, x = Some t /\ t ∈ xs.
Proof.
  destruct x as [t |]; simpl.
  - rewrite bool_decide_eq_true. split; [eauto | now intros (t' & [= <-] & Hin)].
  - split; [discriminate | now intros (t & Ht & _)].
Qed.

(** The cart's category set meets a list of names exactly when some item
    carries one of the names; an item without category never does. *)
Lemma categories_meet (cart : Cart) (xs : list string) :
  truthy_set (intersection (cart_categories cart) xs) = true
  <-> exists i x, i ∈ items cart /\ x ∈ xs /\ category i = Some x.
Proof.
  unfold truthy_set, intersection, cart_categories.
  rewrite bool_decide_eq_true. split.
  - intros Hne. apply set_choose_L in Hne as [y Hy].
    apply elem_of_intersection in Hy as [Hcat Hin].
    apply elem_of_list_to_set, list_elem_of_fmap in Hcat as (i & -> & Hi).
    apply elem_of_list_to_set, list_elem_of_fmap in Hin as (x & Hx & Hxs).
    now exists i, x.
  - intros (i & x & Hi & Hx & Hcat) Hempty.
    assert (Hin : Some x ∈ (list_to_set (category <$> items cart) : gset (option string))
                            ∩ list_to_set (Some <$> xs)).
    { apply elem_of_intersection. split; apply elem_of_list_to_set, list_elem_of_fmap.
      - now exists i.
      - now exists x. }
    rewrite Hempty in Hin. now apply elem_of_empty in Hin.
Qed.

Lemma membership_rule_iff (o : option (list string)) (x : option string) :
  negb (truthy_list o) || py_in x (list_of o) = true
  <-> (forall ts, o = Some ts -> ts <> [] -> exists t, x = Some t /\ t ∈ ts).
Proof.
  rewrite orb_true_iff, negb_true_iff, py_in_true. split.
  - intros [Hunset | Hin] ts -> Hne.
    + destruct ts; [now contradiction Hne | discriminate Hunset].
    + exact Hin.
  - intros H. destruct o as [[| a ts] |]; try (now left).
    right. apply (H (a :: ts)); [reflexivity | discriminate].
Qed.

Lemma float_floor_rule_iff (o : option float) (v : float) :
  negb (truthy_float o) || negb (PyFloat.ltb v (float_of o)) = true
  <-> (forall x, o = Some x -> PyFloat.truthy x = true -> PyFloat.ltb v x = false).
Proof.
  rewrite orb_true_iff, !negb_true_iff. split.
  - intros [Hunset | Hok] x -> Htruthy; simpl in *; [congruence | exact Hok].
  - intros H. destruct o as [x |]; [| now left]. simpl.
    destruct (PyFloat.truthy x) eqn:Hx; [right; now apply H | now left].
Qed.

Lemma int_floor_rule_iff (o : option Z) (v : Z) :
  negb (truthy_int o) || negb (v <? int_of o) = true
  <-> (forall n, o = Some n -> n <> 0 -> n <= v).
Proof.
  rewrite orb_true_iff, !negb_true_iff. split.
  - intros [Hunset | Hok] n -> Hnz; simpl in *; lia.
  - intros H. destruct o as [n |]; [| now left]. simpl.
    destruct (Z.eq_dec n 0) as [-> | Hnz]; [now left |].
    right. specialize (H n eq_refl Hnz). lia.
Qed.

Lemma first_order_rule_iff (o : option bool) (v : Z) :
  negb (truthy_bool o) || negb (v >? 0) = true <-> (o = Some true -> v <= 0).
Proof.
  rewrite orb_true_iff, !negb_true_iff. split.
  - intros [Hunset | Hok] ->; simpl in *; [discriminate | lia].
  - intros H. destruct o as [[] |]; try (now left).
    right. specialize (H eq_refl). lia.
Qed.

Lemma applicable_rule_iff (o : option (list string)) (cart : Cart) :
  negb (truthy_list o) || truthy_set (intersection (cart_categories cart) (list_of o)) = true
  <-> (forall xs, o = Some xs -> xs <> [] ->
         exists i x, i ∈ items cart /\ x ∈ xs /\ category i = Some x).
Proof.
  rewrite orb_true_iff, negb_true_iff, categories_meet. split.
  - intros [Hunset | Hin] xs -> Hne.
    + destruct xs; [now contradiction Hne | discriminate Hunset].
    + exact Hin.
  - intros H. destruct o as [[| a xs] |]; try (now left).
    right. apply (H (a :: xs)); [reflexivity | discriminate].
Qed.

Lemma excluded_rule_iff (o : option (list string)) (cart : Cart) :
  negb (truthy_list o)
  || negb (truthy_set (intersection (cart_categories cart) (list_of o))) = true
  <-> (forall xs, o = Some xs ->
         forall i x, i ∈ items cart -> x ∈ xs -> category i <> Some x).
Proof.
  rewrite orb_true_iff, !negb_true_iff. split.
  - intros [Hunset | Hnone] xs -> i x Hi Hx Hcat.
    + destruct xs; [now apply elem_of_nil in Hx | discriminate Hunset].
    + assert (Hmeet : truthy_set (intersection (cart_categories cart) xs) = true)
        by (apply categories_meet; now exists i, x).
      simpl in Hnone. congruence.
  - intros H. destruct o as [xs |]; [| now left]. right. simpl.
    destruct (truthy_set (intersection (cart_categories cart) xs)) eqn:Hmeet;
      [| reflexivity].
    apply categories_meet in Hmeet as (i & x & Hi & Hx & Hcat).
    now destruct (H xs eq_refl i x Hi Hx).
Qed.

Lemma usage_limit_check_true uc c u :
  usage_limit_check uc c u = true
  <-> (forall n, usageLimitPerUser c = Some n -> n <> 0 -> used_count uc c u < n).
Proof.
  unfold usage_limit_check. split.
  - intros H n Hn Hnz. rewrite Hn in H. simpl in H.
    rewrite (proj2 (Z.eqb_neq n 0) Hnz) in H. simpl in H.
    destruct (Z.geb_spec (used_count uc c u) n); [discriminate | lia].
  - intros H. destruct (usageLimitPerUser c) as [n |]; [| reflexivity]. simpl.
    destruct (Z.eqb_spec n 0); [reflexivity |]. simpl.
    specialize (H n eq_refl ltac:(assumption)).
    destruct (Z.geb_spec (used_count uc c u) n); [lia | reflexivity].
Qed.

(** X1: given that the cart total computes, [eligible] returns [True]
    exactly when today is inside the window, the usage limit (if truthy) is
    not reached, and every configured rule of the rule block holds: tier
    and country membership (a user without tier or country fails a
    non-empty list), the three numeric floors and the cart-value floor, the
    first-order gate, at least one item in an applicable category, no item
    in an excluded category.  The order of the tests does not matter for
    the verdict. *)
Theorem eligible_iff_all_rules uc today c u cart total :
  cart_total cart = Ok total ->
  (eligible uc today c u cart = Ok true <->
   date_leb (startDate c) today = true /\ date_leb today (endDate c) = true
   /\ (forall n, usageLimitPerUser c = Some n -> n <> 0 -> used_count uc c u < n)
   /\ (forall e, eligibility c = Some e ->
        (forall ts, allowedUserTiers e = Some ts -> ts <> [] ->
           exists t, userTier u = Some t /\ t ∈ ts)
        /\ (forall x, minLifetimeSpend e = Some x -> PyFloat.truthy x = true ->
              PyFloat.ltb (lifetimeSpend u) x = false)
        /\ (forall n, minOrdersPlaced e = Some n -> n <> 0 -> n <= ordersPlaced u)
        /\ (firstOrderOnly e = Some true -> ordersPlaced u <= 0)
        /\ (forall ks, allowedCountries e = Some ks -> ks <> [] ->
              exists k, country u = Some k /\ k ∈ ks)
        /\ (forall x, minCartValue e = Some x -> PyFloat.truthy x = true ->
              PyFloat.ltb total x = false)
        /\ (forall xs, applicableCategories e = Some xs -> xs <> [] ->
              exists i x, i ∈ items cart /\ x ∈ xs /\ category i = Some x)
        /\ (forall xs, excludedCategories e = Some xs ->
              forall i x, i ∈ items cart -> x ∈ xs -> category i <> Some x)
        /\ (forall n, minItemsCount e = Some n -> n <> 0 -> n <= items_count cart)))
  /\ (exists b, eligible uc today c u cart = Ok b).
Proof.
  intros Htot. rewrite (eligible_eq _ _ _ _ _ _ Htot). split; [| eauto].
  unfold date_in_window.
  rewrite <- usage_limit_check_true.
  split.
  - intros [= H]. rewrite !andb_true_iff in H.
    destruct H as ((Hs & He) & (Hrules & Husage)).
    repeat (split; [assumption |]).
    intros e He'. rewrite He' in Hrules.
    unfold user_rules_hold, cart_rules_hold in Hrules.
    rewrite !andb_true_iff in Hrules.
    destruct Hrules as (((((R1 & R2) & R3) & R4) & R5) & (((R6 & R7) & R8) & R9)).
    pose proof (proj1 (membership_rule_iff _ _) R1).
    pose proof (proj1 (float_floor_rule_iff _ _) R2).
    pose proof (proj1 (int_floor_rule_iff _ _) R3).
    pose proof (proj1 (first_order_rule_iff _ _) R4).
    pose proof (proj1 (membership_rule_iff _ _) R5).
    pose proof (proj1 (float_floor_rule_iff _ _) R6).
    pose proof (proj1 (applicable_rule_iff _ _) R7).
    pose proof (proj1 (excluded_rule_iff _ _) R8).
    pose proof (proj1 (int_floor_rule_iff _ _) R9).
    repeat (split; [assumption |]). assumption.
  - intros (Hs & He & Husage & Hrules). f_equal.
    rewrite !andb_true_iff. split; [split; assumption | split; [| assumption]].
    destruct (eligibility c) as [e |]; [| reflexivity].
    destruct (Hrules e eq_refl) as (R1 & R2 & R3 & R4 & R5 & R6 & R7 & R8 & R9).
    unfold user_rules_hold, cart_rules_hold. rewrite !andb_true_iff.
    pose proof (proj2 (membership_rule_iff _ _) R1).
    pose proof (proj2 (float_floor_rule_iff _ _) R2).
    pose proof (proj2 (int_floor_rule_iff _ _) R3).
    pose proof (proj2 (first_order_rule_iff _ _) R4).
    pose proof (proj2 (membership_rule_iff _ _) R5).
    pose proof (proj2 (float_floor_rule_iff _ _) R6).
    pose proof (proj2 (applicable_rule_iff _ _) R7).
    pose proof (proj2 (excluded_rule_iff _ _) R8).
    pose proof (proj2 (int_floor_rule_iff _ _) R9).
    repeat split; assumption.
Qed.

Lemma eligible_iff_all_rules_witness :
  let e := Rule.set_allowedUserTiers (Some ["GOLD"; "SILVER"])
             (Rule.set_applicableCategories (Some ["toys"]) Sample.no_rules) in
  let c := with_eligibility (Some e) (Sample.flat "G" 10) in
  (exists t, userTier Sample.alice = Some t /\ t ∈ ["GOLD"; "SILVER"])
  /\ exists i x, i ∈ items Sample.cart50 /\ x ∈ ["toys"] /\ category i = Some x.
Proof.
  intros e c.
  destruct (eligible_iff_all_rules ∅ Sample.today c Sample.alice Sample.cart50
              (Sample.fl 50) eq_refl) as [Hiff _].
  destruct (proj1 Hiff eq_refl) as (_ & _ & _ & Hrules).
  destruct (Hrules e eq_refl) as (Htier & _ & _ & _ & _ & _ & Happ & _).
  split.
  - apply (Htier ["GOLD"; "SILVER"] eq_refl). discriminate.
  - apply (Happ ["toys"] eq_refl). discriminate.
Defined.

(* ===================================================================== *)
(** ** Exceptions of the helpers *)
(* ===================================================================== *)

Lemma sum_from_raise acc l ex :
  sum_from acc l = Raise ex ->
  ex = OverflowError /\ exists i, i ∈ l /\ PyFloat.of_int (quantity i) = None.
Proof.
  revert acc. induction l as [| i l IH]; simpl; intros acc H; [discriminate |].
  unfold line_total in H.
  destruct (PyFloat.of_int (quantity i)) as [q |] eqn:Hq; simpl in H.
  - destruct (IH _ H) as (-> & j & Hj & Hnone).
    split; [reflexivity |]. exists j. split; [now apply list_elem_of_further | exact Hnone].
  - injection H as <-. split; [reflexivity |].
    exists i. split; [apply list_elem_of_here | exact Hq].
Qed.

Lemma sum_from_ok acc l :
  (forall i, i ∈ l -> PyFloat.of_int (quantity i) <> None) ->
  exists t, sum_from acc l = Ok t.
Proof.
  revert acc. induction l as [| i l IH]; simpl; intros acc Hall; [eauto |].
  unfold line_total.
  destruct (PyFloat.of_int (quantity i)) as [q |] eqn:Hq; simpl.
  - apply IH. intros j Hj. apply Hall. now apply list_elem_of_further.
  - destruct (Hall i (list_elem_of_here _ _) Hq).
Qed.

Lemma sum_from_ok_all acc l t :
  sum_from acc l = Ok t ->
  forall i, i ∈ l -> PyFloat.of_int (quantity i) <> None.
Proof.
  revert acc. induction l as [| j l IH]; simpl; intros acc Hsum i Hi Hnone.
  - now apply elem_of_nil in Hi.
  - unfold line_total in Hsum.
    apply elem_of_cons in Hi as [<- | Hi].
    + rewrite Hnone in Hsum. discriminate Hsum.
    + destruct (PyFloat.of_int (quantity j)); simpl in Hsum; [| discriminate].
      exact (IH _ Hsum i Hi Hnone).
Qed.

(** X2: [cart_total] raises exactly when some item's quantity is too large
    to convert to a float, the exception is then [OverflowError], and no
    other exception can come out of it; in particular the empty cart has
    total [0]. *)
Theorem cart_total_raises_iff (cart : Cart) :
  (forall ex, cart_total cart = Raise ex <->
     ex = OverflowError
     /\ exists i, i ∈ items cart /\ PyFloat.of_int (quantity i) = None)
  /\ ((exists t, cart_total cart = Ok t) <->
      forall i, i ∈ items cart -> PyFloat.of_int (quantity i) <> None)
  /\ (items cart = [] -> cart_total cart = Ok PyFloat.pos_zero).
Proof.
  unfold cart_total. split; [| split].
  - intros ex. split; [apply sum_from_raise |].
    intros (-> & i & Hi & Hnone).
    destruct (sum_from PyFloat.pos_zero (items cart)) as [t | ex] eqn:Hsum.
    + destruct (sum_from_ok_all _ _ _ Hsum i Hi Hnone).
    + now destruct (sum_from_raise _ _ _ Hsum) as [-> _].
  - split; [| apply sum_from_ok].
    intros [t Ht]. exact (sum_from_ok_all _ _ _ Ht).
  - now intros ->.
Qed.

Lemma rules_and_usage_user uc c e u cart :
  eligibility c = Some e ->
  rules_and_usage uc c u cart =
  if user_rules_hold e u
  then let! total := cart_total cart in
       Ok (cart_rules_hold e cart total && usage_limit_check uc c u)
  else Ok false.
Proof.
  intros He. unfold rules_and_usage, user_rules_hold. rewrite He.
  destruct (truthy_list (allowedUserTiers e)); simpl;
    [destruct (py_in (userTier u) _); simpl; [| reflexivity] |];
  (destruct (truthy_float (minLifetimeSpend e)); simpl;
    [destruct (PyFloat.ltb (lifetimeSpend u) _); simpl; [reflexivity |] |]);
  (destruct (truthy_int (minOrdersPlaced e)); simpl;
    [destruct (ordersPlaced u <? _); simpl; [reflexivity |] |]);
  (destruct (truthy_bool (firstOrderOnly e)); simpl;
    [destruct (ordersPlaced u >? 0); simpl; [reflexivity |] |]);
  (destruct (truthy_list (allowedCountries e)); simpl;
    [destruct (py_in (country u) _); simpl; [| reflexivity] |]);
  (destruct (cart_total cart) as [total |]; simpl; [| reflexivity]);
  unfold cart_rules_hold;
  (destruct (truthy_float (minCartValue e)); simpl;
    [destruct (PyFloat.ltb total _); simpl; [reflexivity |] |]);
  (destruct (truthy_list (applicableCategories e)); simpl;
    [destruct (truthy_set (intersection _ (list_of (applicableCategories e)))); simpl;
       [| reflexivity] |]);
  (destruct (truthy_list (excludedCategories e)); simpl;
    [destruct (truthy_set (intersection _ (list_of (excludedCategories e)))); simpl;
       [reflexivity |] |]);
  (destruct (truthy_int (minItemsCount e)); simpl;
    [destruct (items_count cart <? _); simpl; [reflexivity |] |]);
  reflexivity.
Qed.

(** X3: [eligible] raises exactly when today is inside the window, the
    coupon has a rule block whose five user rules all pass, and the cart
    total itself raises; the exception is then that of the cart total,
    [OverflowError].  A failing user rule gives [False] without looking at
    the cart, and a coupon without rule block never raises. *)
Theorem eligible_raises_iff uc today c u cart :
  (forall ex, eligible uc today c u cart = Raise ex <->
     date_in_window c today = true
     /\ (exists e, eligibility c = Some e /\ user_rules_hold e u = true)
     /\ cart_total cart = Raise ex)
  /\ (forall ex, eligible uc today c u cart = Raise ex -> ex = OverflowError)
  /\ (forall e, eligibility c = Some e -> user_rules_hold e u = false ->
        eligible uc today c u cart = Ok false)
  /\ (eligibility c = None ->
        eligible uc today c u cart
        = Ok (date_in_window c today && usage_limit_check uc c u)).
Proof.
  assert (Hiff : forall ex, eligible uc today c u cart = Raise ex <->
     date_in_window c today = true
     /\ (exists e, eligibility c = Some e /\ user_rules_hold e u = true)
     /\ cart_total cart = Raise ex).
  { intros ex. unfold eligible.
    destruct (date_in_window c today); simpl;
      [| split; [discriminate | now intros [? _]]].
    destruct (eligibility c) as [e |] eqn:He.
    - rewrite (rules_and_usage_user uc c e u cart He).
      destruct (user_rules_hold e u) eqn:Hu.
      + destruct (cart_total cart) as [total | ex']; simpl.
        * split; [discriminate | now intros (_ & _ & ?)].
        * split; [intros [= ->]; eauto | now intros (_ & _ & [= ->])].
      + split; [discriminate |]. intros (_ & (e' & [= <-] & Hu') & _). congruence.
    - unfold rules_and_usage. rewrite He.
      split; [discriminate | now intros (_ & (e' & ? & _) & _)]. }
  split; [exact Hiff | split; [| split]].
  - intros ex Hex. apply Hiff in Hex as (_ & _ & Hcart).
    unfold cart_total in Hcart. now destruct (sum_from_raise _ _ _ Hcart).
  - intros e He Hu. unfold eligible.
    destruct (date_in_window c today); simpl; [| reflexivity].
    now rewrite (rules_and_usage_user uc c e u cart He), Hu.
  - intros He. unfold eligible, rules_and_usage. rewrite He.
    now destruct (date_in_window c today).
Qed.

Lemma eligible_raises_iff_witness :
  let e := Rule.set_allowedUserTiers (Some ["PLATINUM"]) Sample.no_rules in
  let c := with_eligibility (Some e) (Sample.flat "G" 10) in
  let huge := mkCart [mkItem "p" None (Sample.fl 1) (10 ^ 400)] in
  eligible ∅ Sample.today c Sample.alice huge = Ok false
  /\ eligible ∅ Sample.today (Sample.flat "F" 10) Sample.alice huge = Ok true.
Proof.
  intros e c huge. split.
  - apply (eligible_raises_iff ∅ Sample.today c Sample.alice huge) with (e := e);
      reflexivity.
  - destruct (eligible_raises_iff ∅ Sample.today (Sample.flat "F" 10) Sample.alice huge)
      as (_ & _ & _ & ->); reflexivity.
Defined.

(* ===================================================================== *)
(** ** What eligibility reads from the ledger and the window *)
(* ===================================================================== *)

Lemma eligible_without_limit_any_ledger uc1 uc2 today c u cart :
  eligible uc1 today (with_usageLimit None c) u cart
  = eligible uc2 today (with_usageLimit None c) u cart.
Proof. reflexivity. Qed.

Lemma used_count_insert_other uc c u k m :
  k <> code c -> used_count (<[k := m]> uc) c u = used_count uc c u.
Proof. intros Hk. unfold used_count. now rewrite lookup_insert_ne. Qed.

Lemma eligible_insert_other uc today c u cart k m :
  k <> code c ->
  eligible (<[k := m]> uc) today c u cart = eligible uc today c u cart.
Proof.
  intros Hk.
  rewrite (eligible_usage_split (<[k := m]> uc)), (eligible_usage_split uc).
  rewrite (eligible_without_limit_any_ledger (<[k := m]> uc) uc).
  unfold usage_limit_check. now rewrite used_count_insert_other.
Qed.

(** X4: of the whole usage ledger [eligible] reads one number, the count
    stored for this coupon's code and this user's id: two ledgers that
    agree there give the same result, so redemptions recorded for another
    coupon or for another user never change a verdict. *)
Theorem eligible_ledger_frame uc1 uc2 today c u cart :
  (used_count uc1 c u = used_count uc2 c u ->
     eligible uc1 today c u cart = eligible uc2 today c u cart)
  /\ (forall k m, k <> code c ->
        eligible (<[k := m]> uc1) today c u cart = eligible uc1 today c u cart)
  /\ (forall m uid n, uc1 !! code c = Some m -> uid <> userId u ->
        eligible (<[code c := <[uid := n]> m]> uc1) today c u cart
        = eligible uc1 today c u cart).
Proof.
  assert (Hframe : forall uc uc', used_count uc c u = used_count uc' c u ->
            eligible uc today c u cart = eligible uc' today c u cart).
  { intros uc uc' Hsame.
    rewrite (eligible_usage_split uc), (eligible_usage_split uc').
    rewrite (eligible_without_limit_any_ledger uc uc').
    unfold usage_limit_check. now rewrite Hsame. }
  split; [apply Hframe | split].
  - intros k m Hk. apply Hframe. now apply used_count_insert_other.
  - intros m uid n Hm Huid. apply Hframe. unfold used_count.
    rewrite lookup_insert_eq, Hm. simpl. now rewrite lookup_insert_ne.
Qed.

Lemma eligible_ledger_frame_witness :
  let c := with_usageLimit (Some 1) (Sample.flat "L" 10) in
  let uc : gmap string (gmap string Z) := {[ "L" := {[ "bob" := 5 ]} ]} in
  eligible (<[ "OTHER" := {[ "alice" := 9 ]} ]> uc) Sample.today c Sample.alice Sample.cart50
  = eligible uc Sample.today c Sample.alice Sample.cart50
  /\ eligible (<[ "L" := <[ "carol" := 3 ]> {[ "bob" := 5 ]} ]> uc)
       Sample.today c Sample.alice Sample.cart50
     = eligible uc Sample.today c Sample.alice Sample.cart50.
Proof.
  intros c uc. split.
  - destruct (eligible_ledger_frame uc uc Sample.today c Sample.alice Sample.cart50)
      as (_ & Hcode & _).
    apply Hcode. intros Heq. discriminate Heq.
  - destruct (eligible_ledger_frame uc uc Sample.today c Sample.alice Sample.cart50)
      as (_ & _ & Huser).
    apply Huser.
    + reflexivity.
    + intros Heq. discriminate Heq.
Defined.

Lemma date_leb_trans (a b c : date) :
  date_leb a b = true -> date_leb b c = true -> date_leb a c = true.
Proof.
  unfold date_leb.
  repeat match goal with
         | |- context [?x <? ?y] => destruct (Z.ltb_spec x y)
         | |- context [?x <=? ?y] => destruct (Z.leb_spec x y)
         end; try lia; try reflexivity; try discriminate.
Qed.

Lemma date_leb_antisym (a b : date) :
  date_leb a b = true -> date_leb b a = true -> a = b.
Proof.
  unfold date_leb. destruct a as [ya ma da], b as [yb mb db]. simpl.
  repeat match goal with
         | |- context [?x <? ?y] => destruct (Z.ltb_spec x y)
         | |- context [?x <=? ?y] => destruct (Z.leb_spec x y)
         end; try lia; try discriminate.
  intros _ _. f_equal; lia.
Qed.

(** X5: a coupon whose [endDate] lies before its [startDate] is eligible on
    no day, for no user and no cart; a coupon whose two dates coincide is
    in its window on that one day only. *)
Theorem inverted_window_never_eligible uc today c u cart :
  (date_ltb (endDate c) (startDate c) = true ->
     eligible uc today c u cart = Ok false)
  /\ (startDate c = endDate c ->
      (date_in_window c today = true <-> today = startDate c)).
Proof.
  split.
  - intros Hinv. apply eligible_outside_window.
    destruct (date_in_window c today) eqn:Hwin; [| reflexivity].
    unfold date_in_window in Hwin. apply andb_true_iff in Hwin as [Hs He].
    pose proof (date_leb_trans _ _ _ Hs He) as Hle.
    rewrite date_leb_ltb, Hinv in Hle. discriminate Hle.
  - intros Hsame. unfold date_in_window. rewrite <- Hsame. split.
    + intros Hwin. apply andb_true_iff in Hwin as [Hs He].
      now apply date_leb_antisym.
    + intros ->. now rewrite date_leb_refl.
Qed.

Lemma inverted_window_never_eligible_witness :
  let c := mkCoupon "INV" None FLAT (Sample.fl 10) None
             (Sample.d 2025 12 31) (Sample.d 2025 1 1) None None in
  eligible ∅ Sample.today c Sample.alice Sample.cart50 = Ok false.
Proof.
  intros c.
  apply (inverted_window_never_eligible ∅ Sample.today c Sample.alice Sample.cart50).
  reflexivity.
Defined.

(* ===================================================================== *)
(** ** What the selector returns *)
(* ===================================================================== *)

(** The running pair after a pass over [cs]: either nothing was picked and
    no eligible coupon pays more than zero, or the pick is an eligible
    coupon of [cs] paying [bd > 0] and no eligible coupon pays more. *)
Lemma select_loop_invariant uc today u cart total cs best bd :
  cart_total cart = Ok total ->
  select_loop uc today u cart total initial_selection cs = Ok (best, bd) ->
  (forall c, c ∈ cs -> eligible uc today c u cart = Ok true ->
             PyFloat.ltb bd (get_discount c total) = false)
  /\ match best with
     | None => bd = PyFloat.pos_zero
     | Some b => b ∈ cs /\ eligible uc today b u cart = Ok true
                 /\ get_discount b total = bd
                 /\ PyFloat.ltb PyFloat.pos_zero bd = true
     end.
Proof.
  intros Htot. revert best bd.
  induction cs as [| c cs IH] using rev_ind; intros best bd Hloop.
  - injection Hloop as <- <-. split; [| reflexivity].
    intros c Hin. now apply elem_of_nil in Hin.
  - rewrite select_loop_app in Hloop.
    destruct (select_loop uc today u cart total initial_selection cs)
      as [[best0 bd0] |] eqn:Hprev; simpl in Hloop; [| discriminate].
    destruct (IH best0 bd0 eq_refl) as [Hmax Hbest]. clear IH.
    destruct (eligible_returns uc today c u cart total Htot) as [b Hb].
    rewrite (select_step_eq _ _ _ _ _ _ _ _ Hb) in Hloop. simpl in Hloop.
    destruct (b && PyFloat.ltb bd0 (get_discount c total)) eqn:Hwin;
      injection Hloop as <- <-.
    + apply andb_true_iff in Hwin as [-> Hlt]. split.
      * intros c' Hin Hel. apply elem_of_app in Hin as [Hin | Hin].
        -- destruct (PyFloat.ltb (get_discount c total) (get_discount c' total)) eqn:Hgt;
             [| reflexivity].
           pose proof (Hmax c' Hin Hel) as Hc'.
           rewrite (FloatOrder.ltb_trans _ _ _ Hlt Hgt) in Hc'. discriminate Hc'.
        -- apply list_elem_of_singleton in Hin as ->. apply FloatOrder.ltb_irrefl.
      * split; [apply elem_of_app; right; apply list_elem_of_here |].
        split; [exact Hb | split; [reflexivity |]].
        destruct best0 as [b0 |].
        -- destruct Hbest as (_ & _ & _ & Hpos). exact (FloatOrder.ltb_trans _ _ _ Hpos Hlt).
        -- now rewrite Hbest in Hlt.
    + split.
      * intros c' Hin Hel. apply elem_of_app in Hin as [Hin | Hin]; [now apply Hmax |].
        apply list_elem_of_singleton in Hin as ->.
        rewrite Hel in Hb. injection Hb as <-. exact Hwin.
      * destruct best0 as [b0 |]; [| exact Hbest].
        destruct Hbest as (Hin & Hrest). split; [apply elem_of_app; now left | exact Hrest].
Qed.

(** X6: when [best_coupon] answers with a coupon, that coupon is in the
    catalog and eligible, the reported discount is its discount on the
    cart total and is strictly positive, the final price is the total
    minus the discount, and no eligible coupon of the catalog pays
    strictly more. *)
Theorem best_coupon_sound_and_maximal today req s k d fp :
  fst (best_coupon today req s) = Ok (BestCoupon k d fp) ->
  exists total b,
    cart_total (cart req) = Ok total
    /\ b ∈ od_values (coupons s) /\ code b = k
    /\ eligible (usage_counter s) today b (user req) (cart req) = Ok true
    /\ get_discount b total = d
    /\ PyFloat.gtb d PyFloat.pos_zero = true
    /\ fp = PyFloat.sub total d
    /\ forall c, c ∈ od_values (coupons s) ->
         eligible (usage_counter s) today c (user req) (cart req) = Ok true ->
         PyFloat.gtb (get_discount c total) d = false.
Proof.
  unfold best_coupon, PyFloat.gtb.
  destruct (cart_total (cart req)) as [total |] eqn:Htot; [| discriminate].
  destruct (select_loop _ _ _ _ _ _ _) as [[[b |] bd] |] eqn:Hloop;
    simpl; try discriminate.
  intros [= <- <- <-].
  destruct (select_loop_invariant _ _ _ _ _ _ _ _ Htot Hloop)
    as (Hmax & Hin & Hel & Hdisc & Hpos).
  exists total, b. repeat (split; [assumption || reflexivity |]). exact Hmax.
Qed.

Lemma best_coupon_sound_and_maximal_witness :
  exists total b,
    cart_total Sample.cart100 = Ok total
    /\ b ∈ [Sample.flat "F" 10; Sample.percent "P" 20 (Some 15)]
    /\ code b = "P"
    /\ get_discount b total = Sample.fl 15.
Proof.
  destruct (best_coupon_sound_and_maximal Sample.today Sample.req100
              (mkStore [("F", Sample.flat "F" 10); ("P", Sample.percent "P" 20 (Some 15))] ∅)
              "P" (Sample.fl 15) (Sample.fl 85) eq_refl)
    as (total & b & Htot & Hin & Hcode & _ & Hdisc & _).
  now exists total, b.
Defined.

(** X7: [best_coupon] answers "no coupon" exactly when the cart total
    computes and no eligible coupon of the catalog pays strictly more than
    zero; it raises exactly when the cart total raises, with the same
    exception, and otherwise always answers. *)
Theorem best_coupon_none_iff today req s :
  (fst (best_coupon today req s) = Ok NoCoupon <->
   exists total, cart_total (cart req) = Ok total
     /\ forall c, c ∈ od_values (coupons s) ->
          eligible (usage_counter s) today c (user req) (cart req) = Ok true ->
          PyFloat.gtb (get_discount c total) PyFloat.pos_zero = false)
  /\ (forall ex, fst (best_coupon today req s) = Raise ex <->
        cart_total (cart req) = Raise ex).
Proof.
  unfold best_coupon, PyFloat.gtb. split.
  - destruct (cart_total (cart req)) as [total |] eqn:Htot;
      [| split; [discriminate | now intros (total & ? & _)]].
    destruct (select_loop _ _ _ _ _ _ _) as [[[b |] bd] |] eqn:Hloop; simpl.
    + split; [discriminate |]. intros (total' & [= <-] & Hnone).
      destruct (select_loop_invariant _ _ _ _ _ _ _ _ Htot Hloop)
        as (_ & Hin & Hel & Hdisc & Hpos).
      rewrite <- Hdisc, (Hnone b Hin Hel) in Hpos. discriminate Hpos.
    + split; [| reflexivity]. intros _. exists total. split; [reflexivity |].
      destruct (select_loop_invariant _ _ _ _ _ _ _ _ Htot Hloop) as (Hmax & ->).
      exact Hmax.
    + destruct (select_loop_returns (usage_counter s) today (user req) (cart req) total
                  initial_selection (od_values (coupons s)) Htot) as [st Hst].
      rewrite Hst in Hloop. discriminate Hloop.
  - intros ex. destruct (cart_total (cart req)) as [total |] eqn:Htot; simpl.
    + destruct (select_loop_returns (usage_counter s) today (user req) (cart req) total
                  initial_selection (od_values (coupons s)) Htot) as [[[b |] bd] ->];
        simpl; split; discriminate.
    + split; intros [= ->]; reflexivity.
Qed.

(* ===================================================================== *)
(** ** The selector and the catalog *)
(* ===================================================================== *)

Lemma eligible_now_true uc today u cart c :
  eligible_now uc today u cart c = true <-> eligible uc today c u cart = Ok true.
Proof.
  unfold eligible_now.
  destruct (eligible uc today c u cart) as [[] |]; split; congruence.
Qed.

Lemma select_loop_filter uc today u cart total cs :
  cart_total cart = Ok total ->
  forall st,
  select_loop uc today u cart total st (List.filter (eligible_now uc today u cart) cs)
  = select_loop uc today u cart total st cs.
Proof.
  intros Htot. induction cs as [| c cs IH]; intros st; simpl; [reflexivity |].
  destruct (eligible_returns uc today c u cart total Htot) as [b Hb].
  unfold eligible_now at 1. rewrite Hb.
  destruct b; simpl.
  - destruct (select_step uc today u cart total st c); simpl; [apply IH | reflexivity].
  - rewrite (select_step_eq _ _ _ _ _ _ _ _ Hb). simpl. apply IH.
Qed.

Lemma od_values_filter {V : Type} (f : V -> bool) (d : list (string * V)) :
  od_values (od_filter f d) = List.filter f (od_values d).
Proof.
  unfold od_values, od_filter. induction d as [| [k v] d IH]; simpl; [reflexivity |].
  destruct (f v); simpl; [f_equal |]; exact IH.
Qed.

(** X8: coupons that are not eligible for the request are invisible to
    [best_coupon]: the answer is the one computed on the catalog with every
    ineligible coupon taken out. *)
Theorem best_coupon_ignores_ineligible today req s :
  fst (best_coupon today req s)
  = fst (best_coupon today req
           (mkStore (od_filter (eligible_now (usage_counter s) today (user req) (cart req))
                       (coupons s))
                    (usage_counter s))).
Proof.
  unfold best_coupon. simpl.
  destruct (cart_total (cart req)) as [total |] eqn:Htot; [| reflexivity].
  rewrite od_values_filter, (select_loop_filter _ _ _ _ _ _ Htot).
  destruct (select_loop _ _ _ _ _ _ _) as [[[b |] bd] |]; reflexivity.
Qed.

Lemma select_loop_ext uc1 uc2 today u cart total cs :
  (forall c, c ∈ cs -> eligible uc1 today c u cart = eligible uc2 today c u cart) ->
  forall st,
  select_loop uc1 today u cart total st cs = select_loop uc2 today u cart total st cs.
Proof.
  induction cs as [| c cs IH]; intros Hsame st; simpl; [reflexivity |].
  assert (Htail : forall c', c' ∈ cs ->
            eligible uc1 today c' u cart = eligible uc2 today c' u cart)
    by (intros c' Hin; apply Hsame; now apply list_elem_of_further).
  unfold select_step. rewrite (Hsame c (list_elem_of_here _ _)).
  destruct (eligible uc2 today c u cart) as [[] |]; simpl; [| now apply IH | reflexivity].
  destruct (PyFloat.gtb (get_discount c total) (snd st)); simpl; now apply IH.
Qed.

Lemma wf_values_codes (s : Store) (b : Coupon) :
  catalog_wf s -> b ∈ od_values (coupons s) -> code b ∈ od_keys (coupons s).
Proof.
  intros [_ Hkeys] Hin. unfold od_values, od_keys in *.
  apply list_elem_of_fmap in Hin as ([k v] & -> & Hkv).
  rewrite Forall_forall in Hkeys. specialize (Hkeys _ Hkv). simpl in *.
  apply list_elem_of_fmap. exists (k, v). split; [now rewrite Hkeys | exact Hkv].
Qed.

Lemma best_coupon_from_loop today req s total st :
  cart_total (cart req) = Ok total ->
  select_loop (usage_counter s) today (user req) (cart req) total
    initial_selection (od_values (coupons s)) = Ok st ->
  fst (best_coupon today req s)
  = match fst st with
    | None => Ok NoCoupon
    | Some b => Ok (BestCoupon (code b) (snd st) (PyFloat.sub total (snd st)))
    end
  /\ discount_of (fst (best_coupon today req s)) = snd st.
Proof.
  intros Htot Hloop. unfold best_coupon. rewrite Htot, Hloop.
  destruct st as [[b |] bd]; simpl; [split; reflexivity |].
  split; [reflexivity |].
  now destruct (select_loop_invariant _ _ _ _ _ _ _ _ Htot Hloop) as (_ & ->).
Qed.

(** X9: creating a coupon can only improve the answer for a request.  On a
    well-formed catalog (every coupon stored under its own code), after a
    successful [create_coupon c] the answer of [best_coupon] is the new
    coupon when it is eligible and pays strictly more than the previous
    answer, and the previous answer otherwise; so the granted discount
    never goes down. *)
Theorem create_coupon_improves_best today req s c total :
  catalog_wf s ->
  code c ∉ od_keys (coupons s) ->
  cart_total (cart req) = Ok total ->
  let before := fst (best_coupon today req s) in
  let s' := snd (create_coupon c s) in
  fst (best_coupon today req s')
  = (if eligible_now (usage_counter s') today (user req) (cart req) c
        && PyFloat.gtb (get_discount c total) (discount_of before)
     then Ok (BestCoupon (code c) (get_discount c total)
                (PyFloat.sub total (get_discount c total)))
     else before)
  /\ PyFloat.leb (discount_of before) (discount_of (fst (best_coupon today req s'))) = true.
Proof.
  intros Hwf Hfresh Htot before s'.
  destruct (select_loop_returns (usage_counter s) today (user req) (cart req) total
              initial_selection (od_values (coupons s)) Htot) as [st Hst].
  destruct (best_coupon_from_loop today req s total st Htot Hst) as [Hbefore Hdisc].
  fold before in Hbefore, Hdisc.
  assert (Hs' : s' = mkStore (coupons s ++ [(code c, c)])
                       (<[code c := ∅]> (usage_counter s))).
  { unfold s', create_coupon.
    rewrite (proj2 (od_contains_false _ _) Hfresh). simpl.
    now rewrite (od_set_fresh _ _ _ Hfresh). }
  assert (Hold : select_loop (usage_counter s') today (user req) (cart req) total
                   initial_selection (od_values (coupons s)) = Ok st).
  { rewrite <- Hst, Hs'. simpl. apply select_loop_ext.
    intros b Hb.
    apply eligible_insert_other. intros Heq. apply Hfresh. rewrite Heq.
    now apply wf_values_codes. }
  destruct (eligible_returns (usage_counter s') today c (user req) (cart req) total Htot)
    as [b Hb].
  assert (Hnew : select_loop (usage_counter s') today (user req) (cart req) total
                   initial_selection (od_values (coupons s'))
                 = Ok (if b && PyFloat.ltb (snd st) (get_discount c total)
                       then (Some c, get_discount c total) else st)).
  { rewrite Hs' at 2. simpl. unfold od_values. rewrite fmap_app. simpl.
    rewrite select_loop_app. fold (od_values (coupons s)). rewrite Hold. simpl.
    now rewrite (select_step_eq _ _ _ _ _ _ _ _ Hb). }
  destruct (best_coupon_from_loop today req s' total _ Htot Hnew) as [Hafter Hdisc'].
  rewrite Hdisc', Hafter. unfold eligible_now, PyFloat.gtb. rewrite Hb, Hdisc.
  destruct (b && PyFloat.ltb (snd st) (get_discount c total)) eqn:Hwin; simpl.
  - split; [reflexivity |]. apply andb_true_iff in Hwin as [_ Hlt].
    now apply FloatOrder.ltb_leb.
  - split; [exact (eq_sym Hbefore) |].
    apply FloatOrder.leb_refl.
    destruct st as [[b0 |] bd]; simpl.
    + destruct (select_loop_invariant _ _ _ _ _ _ _ _ Htot Hst) as (_ & _ & _ & _ & Hpos).
      now destruct (FloatOrder.ltb_not_nan _ _ Hpos).
    + now destruct (select_loop_invariant _ _ _ _ _ _ _ _ Htot Hst) as (_ & ->).
Qed.

Lemma create_coupon_improves_best_witness :
  let s := mkStore [("F", Sample.flat "F" 10)] {[ "F" := ∅ ]} in
  fst (best_coupon Sample.today Sample.req50 (snd (create_coupon (Sample.flat "G" 20) s)))
  = Ok (BestCoupon "G" (Sample.fl 20) (Sample.fl 30))
  /\ fst (best_coupon Sample.today Sample.req50 (snd (create_coupon (Sample.flat "E" 5) s)))
     = Ok (BestCoupon "F" (Sample.fl 10) (Sample.fl 40)).
Proof.
  intros s.
  assert (Hwf : catalog_wf s).
  { split; simpl.
    - apply NoDup_singleton.
    - apply Forall_singleton. reflexivity. }
  split.
  - destruct (create_coupon_improves_best Sample.today Sample.req50 s (Sample.flat "G" 20)
                (Sample.fl 50) Hwf) as [-> _].
    + simpl. intros Hin. apply list_elem_of_singleton in Hin. discriminate Hin.
    + reflexivity.
    + reflexivity.
  - destruct (create_coupon_improves_best Sample.today Sample.req50 s (Sample.flat "E" 5)
                (Sample.fl 50) Hwf) as [-> _].
    + simpl. intros Hin. apply list_elem_of_singleton in Hin. discriminate Hin.
    + reflexivity.
    + reflexivity.
Defined.

(* ===================================================================== *)
(** ** The store along a run *)
(* ===================================================================== *)

Lemma serve_keeps_ledger_empty (s : Store) (r : request) :
  ledger_all_empty s -> ledger_all_empty (serve s r).
Proof.
  unfold ledger_all_empty. intros Hinv.
  destruct r as [c | | today req]; simpl.
  - unfold create_coupon.
    destruct (od_contains (code c) (coupons s)); simpl; [exact Hinv |].
    intros k m Hk. destruct (decide (code c = k)) as [<- | Hne].
    + rewrite lookup_insert_eq in Hk. now injection Hk as <-.
    + rewrite lookup_insert_ne in Hk by exact Hne. now apply (Hinv k).
  - exact Hinv.
  - now rewrite best_coupon_store.
Qed.

Lemma used_count_empty_ledger (s : Store) (c : Coupon) (u : UserContext) :
  ledger_all_empty s -> used_count (usage_counter s) c u = 0.
Proof.
  intros Hinv. unfold used_count.
  destruct (usage_counter s !! code c) as [m |] eqn:Hm; simpl.
  - now rewrite (Hinv _ _ Hm).
  - reflexivity.
Qed.

(** X10: no route ever records a redemption.  In every store reached from
    the empty one all ledger entries are empty maps, every usage count read
    by [eligible] is [0], and so the usage limit lets a coupon through
    exactly when [usageLimitPerUser] is absent or not negative: a positive
    limit is never reached, a negative one is always reached. *)
Theorem usage_never_recorded (rs : list request) (c : Coupon) (u : UserContext) :
  ledger_all_empty (serve_all rs)
  /\ used_count (usage_counter (serve_all rs)) c u = 0
  /\ usage_limit_check (usage_counter (serve_all rs)) c u
     = match usageLimitPerUser c with
       | Some n => 0 <=? n
       | None => true
       end.
Proof.
  assert (Hinv : ledger_all_empty (serve_all rs)).
  { unfold serve_all. apply fold_serve_invariant.
    - apply serve_keeps_ledger_empty.
    - intros k m Hk. simpl in Hk. now rewrite lookup_empty in Hk. }
  split; [exact Hinv | split; [now apply used_count_empty_ledger |]].
  unfold usage_limit_check. rewrite (used_count_empty_ledger _ _ _ Hinv).
  destruct (usageLimitPerUser c) as [n |]; simpl; [| reflexivity].
  destruct (Z.eqb_spec n 0) as [-> | Hnz]; simpl; [reflexivity |].
  destruct (Z.geb_spec 0 n), (Z.leb_spec 0 n); try reflexivity; lia.
Qed.

Lemma serve_extends_catalog (s : Store) (r : request) :
  exists tail, coupons (serve s r) = coupons s ++ tail.
Proof.
  destruct r as [c | | today req]; simpl.
  - unfold create_coupon.
    destruct (od_contains (code c) (coupons s)) eqn:Hdup; simpl.
    + exists []. now rewrite app_nil_r.
    + apply od_contains_false in Hdup. rewrite (od_set_fresh _ _ _ Hdup). eauto.
  - exists []. now rewrite app_nil_r.
  - rewrite best_coupon_store. exists []. now rewrite app_nil_r.
Qed.

Lemma serve_all_extends_catalog (rs : list request) (s : Store) :
  exists tail, coupons (fold_left serve rs s) = coupons s ++ tail.
Proof.
  revert s. induction rs as [| r rs IH]; intros s; simpl.
  - exists []. now rewrite app_nil_r.
  - destruct (IH (serve s r)) as [t2 ->].
    destruct (serve_extends_catalog s r) as [t1 ->].
    exists (t1 ++ t2). now rewrite app_assoc.
Qed.

(** X11: the catalog is append-only.  Whatever requests follow, the
    catalog keeps its present entries, unchanged and at their positions,
    and only grows at the end; hence a stored coupon is never replaced or
    deleted, and creating a coupon under a code that is already stored is
    rejected with HTTP 400 ever after. *)
Theorem catalog_append_only (rs : list request) (s : Store) :
  (exists tail, coupons (fold_left serve rs s) = coupons s ++ tail)
  /\ (forall i kv, coupons s !! i = Some kv ->
        coupons (fold_left serve rs s) !! i = Some kv)
  /\ (forall c, code c ∈ od_keys (coupons s) ->
        fst (create_coupon c (fold_left serve rs s))
        = Raise (HTTPException 400 "Coupon already exists")).
Proof.
  destruct (serve_all_extends_catalog rs s) as [tail Htail].
  split; [eauto | split].
  - intros i kv Hi. rewrite Htail. now apply lookup_app_l_Some.
  - intros c Hin. unfold create_coupon.
    assert (Hin' : code c ∈ od_keys (coupons (fold_left serve rs s))).
    { rewrite Htail. unfold od_keys in *. rewrite fmap_app. apply elem_of_app. now left. }
    now rewrite (proj2 (od_contains_true _ _) Hin').
Qed.

Lemma catalog_append_only_witness :
  let s := mkStore [("F", Sample.flat "F" 10)] {[ "F" := ∅ ]} in
  let rs := [PostCoupon (Sample.flat "G" 20); GetCoupons; PostCoupon (Sample.flat "F" 99)] in
  coupons (fold_left serve rs s) !! 0%nat = Some ("F", Sample.flat "F" 10)
  /\ fst (create_coupon (Sample.flat "F" 1) (fold_left serve rs s))
     = Raise (HTTPException 400 "Coupon already exists").
Proof.
  intros s rs.
  destruct (catalog_append_only rs s) as (_ & Hkeep & Hdup). split.
  - apply Hkeep. reflexivity.
  - apply Hdup. simpl. apply list_elem_of_singleton. reflexivity.
Defined.

Lemma serve_all_round_trip (rs : list request) :
  forall s,
  NoDup (od_keys (coupons s) ++ (code <$> posted rs)) ->
  od_values (coupons (fold_left serve rs s)) = od_values (coupons s) ++ posted rs.
Proof.
  induction rs as [| r rs IH]; intros s Hnd; simpl.
  - now rewrite app_nil_r.
  - destruct r as [c | | today req]; simpl in *.
    + apply NoDup_app in Hnd as (Hkeys & Hdisj & Hposted).
      assert (Hfresh : code c ∉ od_keys (coupons s)).
      { intros Hin. apply (Hdisj _ Hin). apply list_elem_of_here. }
      assert (Hs' : snd (create_coupon c s)
                    = mkStore (coupons s ++ [(code c, c)])
                        (<[code c := ∅]> (usage_counter s))).
      { unfold create_coupon. rewrite (proj2 (od_contains_false _ _) Hfresh). simpl.
        now rewrite (od_set_fresh _ _ _ Hfresh). }
      rewrite Hs'. rewrite IH; simpl.
      * unfold od_values. rewrite fmap_app. simpl. now rewrite <- app_assoc.
      * unfold od_keys in *. rewrite fmap_app. simpl. rewrite <- app_assoc. simpl.
        apply NoDup_app. split; [exact Hkeys | split; [exact Hdisj | exact Hposted]].
    + now apply IH.
    + rewrite best_coupon_store. now apply IH.
Qed.

(** X12: creation and listing round-trip.  Over any run of requests from
    the empty store in which the coupons posted have pairwise distinct
    codes, every creation succeeds and [list_all] afterwards returns
    exactly the posted coupons, in the order they were posted; reads in
    between change nothing. *)
Theorem list_all_returns_posted (rs : list request) :
  NoDup (code <$> posted rs) ->
  fst (list_all (serve_all rs)) = Ok (posted rs).
Proof.
  intros Hnd. unfold list_all, serve_all. simpl. f_equal.
  now rewrite (serve_all_round_trip rs empty_store Hnd).
Qed.

Lemma list_all_returns_posted_witness :
  let a := Sample.flat "A" 10 in
  let b := Sample.percent "B" 20 None in
  fst (list_all (serve_all [PostCoupon a; GetCoupons;
                            PostBestCoupon Sample.today Sample.req50; PostCoupon b]))
  = Ok [a; b].
Proof.
  intros a b.
  apply (list_all_returns_posted [PostCoupon a; GetCoupons;
                                  PostBestCoupon Sample.today Sample.req50; PostCoupon b]).
  simpl. apply NoDup_cons. split.
  - intros Hin. apply list_elem_of_singleton in Hin. discriminate Hin.
  - apply NoDup_singleton.
Defined.

Lemma wf_keys_are_codes (d : list (string * Coupon)) :
  Forall (fun kv => fst kv = code (snd kv)) d -> od_keys d = code <$> od_values d.
Proof.
  unfold od_keys, od_values. induction 1 as [| [k v] d Hkv _ IH]; [reflexivity |].
  simpl in Hkv. rewrite !fmap_cons. simpl. now rewrite Hkv, IH.
Qed.

(** X13: in every store reached from the empty one, no two listed coupons
    share a code, and each coupon is stored under its own code; the code a
    [best_coupon] answer carries therefore names one coupon of the listing. *)
Theorem listed_codes_unique (rs : list request) :
  NoDup (code <$> od_values (coupons (serve_all rs)))
  /\ od_keys (coupons (serve_all rs)) = code <$> od_values (coupons (serve_all rs))
  /\ (forall a b, a ∈ od_values (coupons (serve_all rs)) ->
        b ∈ od_values (coupons (serve_all rs)) -> code a = code b -> a = b).
Proof.
  destruct (reachable_catalog_wf rs) as [Hnd Hkeys].
  pose proof (wf_keys_are_codes _ Hkeys) as Heq.
  rewrite Heq in Hnd. split; [exact Hnd | split; [exact Heq |]].
  intros a b Ha Hb Hcode.
  apply list_elem_of_lookup in Ha as [i Hi]. apply list_elem_of_lookup in Hb as [j Hj].
  assert (Hij : i = j).
  { apply (NoDup_lookup _ i j (code a) Hnd).
    - now rewrite list_lookup_fmap, Hi.
    - now rewrite list_lookup_fmap, Hj, Hcode. }
  subst j. congruence.
Qed.

(* ===================================================================== *)
(** ** Discounts on a zero total *)
(* ===================================================================== *)

Lemma mul_zero_not_positive (x t : float) :
  PyFloat.truthy t = false ->
  PyFloat.mul x t = PyFloat.nan \/ exists s, PyFloat.mul x t = S754_zero s.
Proof.
  destruct t as [st | | |]; try discriminate. intros _.
  destruct x as [sx | sx | | sx mx ex]; simpl; eauto.
Qed.

Lemma zero_not_above (cap : float) (s : bool) :
  PyFloat.ltb cap (S754_zero s) = true -> PyFloat.ltb PyFloat.pos_zero cap = false.
Proof.
  destruct cap as [sc | sc | | sc mc ec]; try destruct sc; try destruct s;
    simpl; try discriminate; reflexivity.
Qed.

(** X14: a PERCENT coupon never wins on a total of zero.  Whatever its
    value and cap, its discount on a zero total is not strictly greater
    than [0]; so on a request whose cart total is zero (the empty cart for
    one) a catalog of PERCENT coupons yields no coupon. *)
Theorem percent_never_wins_on_zero_total :
  (forall c total, discountType c = PERCENT -> PyFloat.truthy total = false ->
     PyFloat.gtb (get_discount c total) PyFloat.pos_zero = false)
  /\ (forall today req s total,
        cart_total (cart req) = Ok total -> PyFloat.truthy total = false ->
        (forall c, c ∈ od_values (coupons s) -> discountType c = PERCENT) ->
        fst (best_coupon today req s) = Ok NoCoupon).
Proof.
  assert (Hzero : forall c total, discountType c = PERCENT ->
            PyFloat.truthy total = false ->
            PyFloat.ltb PyFloat.pos_zero (get_discount c total) = false).
  { intros c total Hty Ht. unfold get_discount. rewrite Hty.
    set (raw := PyFloat.mul _ total).
    assert (Hraw : PyFloat.ltb PyFloat.pos_zero raw = false
                   /\ (raw = PyFloat.nan \/ exists s, raw = S754_zero s)).
    { destruct (mul_zero_not_positive (PyFloat.div (discountValue c) PyFloat.hundred)
                  total Ht) as [Hnan | [s Hs]]; fold raw in Hnan || fold raw in Hs.
      - rewrite Hnan. split; [reflexivity | now left].
      - rewrite Hs. split; [reflexivity | right; eauto]. }
    destruct Hraw as [Hlt Hshape].
    destruct (truthy_float (maxDiscountAmount c)); [| exact Hlt].
    unfold PyFloat.py_min.
    destruct (PyFloat.ltb (float_of (maxDiscountAmount c)) raw) eqn:Hcap; [| exact Hlt].
    destruct Hshape as [Hnan | [s Hs]].
    - rewrite Hnan in Hcap. destruct (float_of (maxDiscountAmount c)); discriminate Hcap.
    - rewrite Hs in Hcap. exact (zero_not_above _ _ Hcap). }
  split; [exact Hzero |].
  intros today req s total Htot Ht Hall. unfold best_coupon. rewrite Htot.
  rewrite select_loop_skips; [reflexivity | exact Htot |].
  intros c Hin _. simpl. apply Hzero; [now apply Hall | exact Ht].
Qed.

Lemma percent_never_wins_on_zero_total_witness :
  fst (best_coupon Sample.today (mkReq Sample.alice (mkCart []))
         (mkStore [("P", Sample.percent "P" 20 (Some 15));
                   ("Q", Sample.percent "Q" 50 None)] ∅))
  = Ok NoCoupon.
Proof.
  destruct percent_never_wins_on_zero_total as [_ Hnone].
  apply (Hnone Sample.today (mkReq Sample.alice (mkCart [])) _ PyFloat.pos_zero);
    [reflexivity | reflexivity |].
  intros c Hin. simpl in Hin.
  apply elem_of_cons in Hin as [-> | Hin]; [reflexivity |].
  apply list_elem_of_singleton in Hin as ->. reflexivity.
Defined.

(* ===================================================================== *)
(** ** Catalog order *)
(* ===================================================================== *)

Lemma not_ltb_both_eqb (x y : float) :
  PyFloat.is_nan x = false -> PyFloat.is_nan y = false ->
  PyFloat.ltb x y = false -> PyFloat.ltb y x = false -> PyFloat.eqb x y = true.
Proof.
  intros Hx Hy. destruct (FloatOrder.compare_not_nan x y Hx Hy) as [cmp Hc].
  unfold PyFloat.ltb, PyFloat.eqb, SFltb, SFeqb.
  rewrite (FloatOrder.compare_swap x y), Hc. now destruct cmp.
Qed.

Lemma selection_not_nan uc today u cart total cs best bd :
  cart_total cart = Ok total ->
  select_loop uc today u cart total initial_selection cs = Ok (best, bd) ->
  PyFloat.is_nan bd = false.
Proof.
  intros Htot Hloop.
  destruct (select_loop_invariant _ _ _ _ _ _ _ _ Htot Hloop) as [_ Hbest].
  destruct best as [b |].
  - destruct Hbest as (_ & _ & _ & Hpos). now destruct (FloatOrder.ltb_not_nan _ _ Hpos).
  - now rewrite Hbest.
Qed.

Lemma selection_dominated uc today u cart total cs1 cs2 best1 bd1 best2 bd2 :
  cart_total cart = Ok total ->
  (forall c, c ∈ cs1 -> c ∈ cs2) ->
  select_loop uc today u cart total initial_selection cs1 = Ok (best1, bd1) ->
  select_loop uc today u cart total initial_selection cs2 = Ok (best2, bd2) ->
  PyFloat.ltb bd2 bd1 = false.
Proof.
  intros Htot Hsub H1 H2.
  destruct (select_loop_invariant _ _ _ _ _ _ _ _ Htot H1) as [_ Hbest1].
  destruct (select_loop_invariant _ _ _ _ _ _ _ _ Htot H2) as [Hmax2 Hbest2].
  destruct best1 as [b1 |].
  - destruct Hbest1 as (Hin & Hel & <- & _). apply Hmax2; [now apply Hsub | exact Hel].
  - rewrite Hbest1. destruct best2 as [b2 |].
    + destruct Hbest2 as (_ & _ & _ & Hpos). now apply FloatOrder.leb_not_ltb, FloatOrder.ltb_leb.
    + rewrite Hbest2. reflexivity.
Qed.

(** X15: the discount [best_coupon] grants does not depend on the order of
    the catalog.  Two stores with the same ledger whose catalogs list the
    same coupons in different orders grant discounts that compare equal
    (and both answer "no coupon", or both name a coupon); only which of
    several equally paying coupons is named can differ. *)
Theorem best_discount_order_independent today req s1 s2 :
  usage_counter s1 = usage_counter s2 ->
  od_values (coupons s1) ≡ₚ od_values (coupons s2) ->
  (forall ex, fst (best_coupon today req s1) = Raise ex <->
              fst (best_coupon today req s2) = Raise ex)
  /\ (fst (best_coupon today req s1) = Ok NoCoupon <->
      fst (best_coupon today req s2) = Ok NoCoupon)
  /\ ((exists r, fst (best_coupon today req s1) = Ok r) ->
      PyFloat.eqb (discount_of (fst (best_coupon today req s1)))
                  (discount_of (fst (best_coupon today req s2))) = true).
Proof.
  intros Huc Hperm.
  destruct (cart_total (cart req)) as [total | ex0] eqn:Htot.
  - destruct (select_loop_returns (usage_counter s1) today (user req) (cart req) total
                initial_selection (od_values (coupons s1)) Htot) as [[best1 bd1] H1].
    destruct (select_loop_returns (usage_counter s1) today (user req) (cart req) total
                initial_selection (od_values (coupons s2)) Htot) as [[best2 bd2] H2].
    assert (H2' := H2). rewrite Huc in H2'.
    destruct (best_coupon_from_loop today req s1 total _ Htot H1) as [Hr1 Hd1].
    destruct (best_coupon_from_loop today req s2 total _ Htot H2') as [Hr2 Hd2].
    simpl in Hr1, Hr2, Hd1, Hd2.
    assert (H12 : PyFloat.ltb bd2 bd1 = false).
    { apply (selection_dominated (usage_counter s1) today (user req) (cart req) total
               (od_values (coupons s1)) (od_values (coupons s2)) best1 bd1 best2 bd2 Htot);
        [| exact H1 | exact H2].
      intros c Hc. now rewrite <- Hperm. }
    assert (H21 : PyFloat.ltb bd1 bd2 = false).
    { apply (selection_dominated (usage_counter s1) today (user req) (cart req) total
               (od_values (coupons s2)) (od_values (coupons s1)) best2 bd2 best1 bd1 Htot);
        [| exact H2 | exact H1].
      intros c Hc. now rewrite Hperm. }
    pose proof (selection_not_nan _ _ _ _ _ _ _ _ Htot H1) as Hn1.
    pose proof (selection_not_nan _ _ _ _ _ _ _ _ Htot H2) as Hn2.
    destruct (select_loop_invariant _ _ _ _ _ _ _ _ Htot H1) as [_ Hb1].
    destruct (select_loop_invariant _ _ _ _ _ _ _ _ Htot H2) as [_ Hb2].
    rewrite Hd1, Hd2, Hr1, Hr2. split; [| split].
    + intros ex. destruct best1, best2; split; discriminate.
    + destruct best1 as [b1 |], best2 as [b2 |]; split; try discriminate; try reflexivity.
      * intros _. destruct Hb1 as (_ & _ & _ & Hpos). rewrite Hb2 in H12. congruence.
      * intros _. destruct Hb2 as (_ & _ & _ & Hpos). rewrite Hb1 in H21. congruence.
    + intros _. now apply not_ltb_both_eqb.
  - unfold best_coupon. rewrite Htot. simpl. split; [| split].
    + reflexivity.
    + split; discriminate.
    + intros [r Hr]. discriminate Hr.
Qed.

Lemma best_discount_order_independent_witness :
  let a := Sample.flat "A" 10 in
  let b := Sample.percent "B" 20 None in
  discount_of (fst (best_coupon Sample.today Sample.req50 (mkStore [("A", a); ("B", b)] ∅)))
  = Sample.fl 10
  /\ PyFloat.eqb
       (discount_of (fst (best_coupon Sample.today Sample.req50
                            (mkStore [("A", a); ("B", b)] ∅))))
       (discount_of (fst (best_coupon Sample.today Sample.req50
                            (mkStore [("B", b); ("A", a)] ∅)))) = true.
Proof.
  intros a b. split; [reflexivity |].
  apply (best_discount_order_independent Sample.today Sample.req50
           (mkStore [("A", a); ("B", b)] ∅) (mkStore [("B", b); ("A", a)] ∅)).
  - reflexivity.
  - simpl. apply perm_swap.
  - eexists. reflexivity.
Defined.

(* ===================================================================== *)
(** ** Converting quantities and summing lines *)
(* ===================================================================== *)

Module Conversion.

Import PyFloat Rounding RoundingFacts.

Lemma iter_xO_value (m d : positive) :
  Z.pos (Pos.iter xO m d) = Z.pos m * 2 ^ Z.pos d.
Proof.
  induction d as [| d IH] using Pos.peano_ind.
  - simpl. lia.
  - rewrite Pos.iter_succ, Pos2Z.inj_xO, IH, Pos2Z.inj_succ, Z.pow_succ_r by lia. lia.
Qed.

Lemma Zdigits2_shift (m : positive) (d : Z) :
  0 <= d -> Zdigits2 (Z.pos m * 2 ^ d) = Zdigits2 (Z.pos m) + d.
Proof.
  intros Hd.
  destruct (Zdigits2_bounds (Z.pos m) ltac:(lia)) as [Hlo Hhi].
  assert (Hk : 1 <= Zdigits2 (Z.pos m)) by (simpl; lia).
  assert (Hp : 0 < 2 ^ d) by (apply Z.pow_pos_nonneg; lia).
  apply Z.le_antisymm.
  - apply Zdigits2_le; [lia |]. split; [lia |].
    rewrite Z.pow_add_r by lia. apply Z.mul_lt_mono_pos_r; lia.
  - replace (Zdigits2 (Z.pos m) + d) with ((Zdigits2 (Z.pos m) - 1 + d) + 1) by lia.
    apply Zdigits2_ge; [lia |].
    rewrite Z.pow_add_r by lia. apply Z.mul_le_mono_nonneg_r; lia.
Qed.

(** [binary_round] first pads the mantissa so that rounding never has to
    lengthen it; the result is then the one of [binary_round_aux]. *)
Lemma binary_round_spec (sx : bool) (mx : positive) (ex : Z) :
  exists mr,
    0 <= mr <= 2 ^ 53
    /\ binary_round prec emax sx mx ex
       = finish sx mr (fexp64 (Zdigits2 (Z.pos mx) + ex))
    /\ valid_binary prec emax (binary_round prec emax sx mx ex) = true.
Proof.
  unfold binary_round, shl_align.
  fold (fexp64 (Z.pos (digits2_pos mx) + ex)).
  change (Z.pos (digits2_pos mx)) with (Zdigits2 (Z.pos mx)).
  set (e' := fexp64 (Zdigits2 (Z.pos mx) + ex)).
  destruct (e' - ex) as [| d | d] eqn:Hdiff.
  - assert (HE : ex <= fexp64 (Zdigits2 (Z.pos mx) + ex)) by (fold e'; lia).
    destruct (binary_round_aux_spec sx (Z.pos mx) ex loc_Exact ltac:(lia) HE)
      as (mrs & _ & Hm & _ & _ & Hbra).
    exists (rne mrs). pose proof (rne_range mrs).
    split; [lia | split; [exact Hbra | now apply binary_round_aux_valid]].
  - assert (HE : ex <= fexp64 (Zdigits2 (Z.pos mx) + ex)) by (fold e'; lia).
    destruct (binary_round_aux_spec sx (Z.pos mx) ex loc_Exact ltac:(lia) HE)
      as (mrs & _ & Hm & _ & _ & Hbra).
    exists (rne mrs). pose proof (rne_range mrs).
    split; [lia | split; [exact Hbra | now apply binary_round_aux_valid]].
  - assert (Hpad : Zdigits2 (Z.pos (Pos.iter xO mx d)) + e' = Zdigits2 (Z.pos mx) + ex).
    { rewrite iter_xO_value, Zdigits2_shift by lia. lia. }
    assert (HE : e' <= fexp64 (Zdigits2 (Z.pos (Pos.iter xO mx d)) + e'))
      by (rewrite Hpad; fold e'; lia).
    destruct (binary_round_aux_spec sx (Z.pos (Pos.iter xO mx d)) e' loc_Exact
                ltac:(lia) HE) as (mrs & _ & Hm & _ & _ & Hbra).
    exists (rne mrs). pose proof (rne_range mrs).
    split; [lia | split; [| now apply binary_round_aux_valid]].
    rewrite Hbra, Hpad. reflexivity.
Qed.

Lemma finish_shape (sx : bool) (mr e : Z) :
  0 <= mr <= 2 ^ 53 ->
  finish sx mr e = S754_zero sx
  \/ (exists m e', finish sx mr e = S754_finite sx m e')
  \/ finish sx mr e = S754_infinity sx.
Proof.
  intros Hmr.
  destruct (finish_cases sx mr e Hmr) as [[_ ->] | [(m & e' & -> & _) | (_ & -> & _)]];
    eauto.
Qed.

(** What [float(n)] gives when it does not overflow. *)
Lemma of_int_spec (n : Z) (f : float) :
  of_int n = Some f ->
  valid f = true /\ is_finite f = true /\ (0 <= n -> leb pos_zero f = true).
Proof.
  unfold of_int, binary_normalize, valid.
  destruct n as [| m | m].
  - intros [= <-]. repeat split.
  - destruct (binary_round_spec false m 0) as (mr & Hmr & Hround & Hvalid).
    rewrite Hround in *.
    destruct (finish_shape false mr (fexp64 (Zdigits2 (Z.pos m) + 0)) Hmr)
      as [Hz | [(m' & e' & Hf) | Hinf]];
      rewrite ?Hz, ?Hf, ?Hinf in *; try discriminate;
      intros [= <-]; repeat split; assumption.
  - destruct (binary_round_spec true m 0) as (mr & Hmr & Hround & Hvalid).
    rewrite Hround in *.
    destruct (finish_shape true mr (fexp64 (Zdigits2 (Z.pos m) + 0)) Hmr)
      as [Hz | [(m' & e' & Hf) | Hinf]];
      rewrite ?Hz, ?Hf, ?Hinf in *; try discriminate;
      intros [= <-]; repeat split; try assumption; lia.
Qed.

Lemma of_int_small (n : Z) :
  Z.abs n < 2 ^ 1023 -> exists f, of_int n = Some f.
Proof.
  intros Hsmall. unfold of_int, binary_normalize.
  destruct n as [| m | m]; [eauto | |].
  - destruct (binary_round_spec false m 0) as (mr & Hmr & -> & _).
    assert (Hd : Zdigits2 (Z.pos m) <= 1023) by (apply Zdigits2_le; lia).
    assert (Hfin : is_finite (finish false mr (fexp64 (Zdigits2 (Z.pos m) + 0))) = true)
      by (apply finish_finite; [exact Hmr | rewrite fexp64_eq; lia]).
    destruct (finish false mr _); try discriminate; eauto.
  - destruct (binary_round_spec true m 0) as (mr & Hmr & -> & _).
    assert (Hd : Zdigits2 (Z.pos m) <= 1023) by (apply Zdigits2_le; lia).
    assert (Hfin : is_finite (finish true mr (fexp64 (Zdigits2 (Z.pos m) + 0))) = true)
      by (apply finish_finite; [exact Hmr | rewrite fexp64_eq; lia]).
    destruct (finish true mr _); try discriminate; eauto.
Qed.

End Conversion.

(** X16: quantities of ordinary size never raise.  When every item's
    quantity is below [2^1023] in absolute value, [cart_total] returns a
    total, [eligible] returns a verdict for every coupon, and
    [best_coupon] answers for every catalog. *)
Theorem ordinary_quantities_never_raise (cart : Cart) :
  (forall i, i ∈ items cart -> Z.abs (quantity i) < 2 ^ 1023) ->
  (exists t, cart_total cart = Ok t)
  /\ (forall uc today c u, exists b, eligible uc today c u cart = Ok b)
  /\ (forall today u s, exists r, fst (best_coupon today (mkReq u cart) s) = Ok r).
Proof.
  intros Hsmall.
  assert (Htot : exists t, cart_total cart = Ok t).
  { apply sum_from_ok. intros i Hi Hnone.
    destruct (Conversion.of_int_small _ (Hsmall i Hi)) as [f Hf]. congruence. }
  destruct Htot as [total Htot].
  split; [eauto | split].
  - intros uc today c u. exact (eligible_returns uc today c u cart total Htot).
  - intros today u s. unfold best_coupon. simpl. rewrite Htot.
    destruct (select_loop_returns (usage_counter s) today u cart total
                initial_selection (od_values (coupons s)) Htot) as [[[b |] bd] ->];
      simpl; eauto.
Qed.

Lemma ordinary_quantities_never_raise_witness :
  exists t, cart_total Sample.cart50 = Ok t.
Proof.
  apply (ordinary_quantities_never_raise Sample.cart50).
  intros i Hi. simpl in Hi.
  apply elem_of_cons in Hi as [-> | Hi]; [reflexivity |].
  apply list_elem_of_singleton in Hi as ->. reflexivity.
Defined.

Lemma add_nonneg (x y : float) :
  PyFloat.leb PyFloat.pos_zero x = true -> PyFloat.leb PyFloat.pos_zero y = true ->
  PyFloat.leb PyFloat.pos_zero (PyFloat.add x y) = true.
Proof.
  destruct x as [sx | sx | | sx mx ex], y as [sy | sy | | sy my ey];
    try destruct sx; try destruct sy; try discriminate; try reflexivity.
  intros _ _. unfold PyFloat.add, SFadd. simpl cond_Zopp.
  change (Z.pos ?a + Z.pos ?b) with (Z.pos (a + b)). simpl binary_normalize.
  destruct (Conversion.binary_round_spec false
              (fst (shl_align mx ex (Z.min ex ey)) + fst (shl_align my ey (Z.min ex ey)))
              (Z.min ex ey)) as (mr & Hmr & -> & _).
  now apply RoundingFacts.zero_le_finish_pos.
Qed.

Lemma mul_nonneg (x y : float) :
  PyFloat.valid x = true -> PyFloat.valid y = true ->
  PyFloat.is_finite x = true -> PyFloat.is_finite y = true ->
  PyFloat.leb PyFloat.pos_zero x = true -> PyFloat.leb PyFloat.pos_zero y = true ->
  PyFloat.leb PyFloat.pos_zero (PyFloat.mul x y) = true.
Proof.
  unfold PyFloat.valid.
  destruct x as [sx | sx | | sx mx ex], y as [sy | sy | | sy my ey];
    try destruct sx; try destruct sy; try discriminate; try reflexivity.
  intros Vx Vy _ _ _ _.
  destruct (RoundingFacts.mul_finite_spec false mx my ex ey Vx Vy) as (mrs & _ & Hm & Hmul).
  unfold PyFloat.mul. rewrite Hmul. now apply RoundingFacts.zero_le_finish_pos.
Qed.

Lemma sum_from_nonneg (l : list CartItem) :
  (forall i, i ∈ l ->
     PyFloat.valid (unitPrice i) = true /\ PyFloat.is_finite (unitPrice i) = true
     /\ PyFloat.leb PyFloat.pos_zero (unitPrice i) = true /\ 0 <= quantity i) ->
  forall acc t,
  PyFloat.leb PyFloat.pos_zero acc = true ->
  sum_from acc l = Ok t ->
  PyFloat.leb PyFloat.pos_zero t = true.
Proof.
  induction l as [| i l IH]; simpl; intros Hsane acc t Hacc Hsum.
  - now injection Hsum as <-.
  - unfold line_total in Hsum.
    destruct (PyFloat.of_int (quantity i)) as [q |] eqn:Hq; simpl in Hsum; [| discriminate].
    destruct (Hsane i (list_elem_of_here _ _)) as (Vp & Fp & Pp & Hqty).
    destruct (Conversion.of_int_spec _ _ Hq) as (Vq & Fq & Pq).
    apply (IH (fun j Hj => Hsane j (list_elem_of_further _ _ _ Hj)) _ _ (add_nonneg _ _ Hacc
             (mul_nonneg _ _ Vp Vq Fp Fq Pp (Pq Hqty))) Hsum).
Qed.

(** X17: sane carts have sane totals.  If every unit price is a finite
    number not below zero and every quantity is not negative, the total
    [cart_total] returns is not below zero, hence neither negative nor
    NaN (it may be [+inf] when the sum overflows). *)
Theorem cart_total_nonneg (cart : Cart) (total : float) :
  (forall i, i ∈ items cart ->
     PyFloat.valid (unitPrice i) = true /\ PyFloat.is_finite (unitPrice i) = true
     /\ PyFloat.leb PyFloat.pos_zero (unitPrice i) = true /\ 0 <= quantity i) ->
  cart_total cart = Ok total ->
  PyFloat.leb PyFloat.pos_zero total = true /\ PyFloat.is_nan total = false.
Proof.
  intros Hsane Htot.
  assert (Hle : PyFloat.leb PyFloat.pos_zero total = true)
    by exact (sum_from_nonneg _ Hsane PyFloat.pos_zero total eq_refl Htot).
  split; [exact Hle | now destruct (FloatOrder.leb_not_nan _ _ Hle)].
Qed.

Lemma cart_total_nonneg_witness :
  PyFloat.leb PyFloat.pos_zero (Sample.fl 50) = true
  /\ PyFloat.is_nan (Sample.fl 50) = false.
Proof.
  apply (cart_total_nonneg Sample.cart50 (Sample.fl 50)); [| reflexivity].
  intros i Hi. simpl in Hi.
  apply elem_of_cons in Hi as [-> | Hi];
    [split; [| split; [| split]]; try reflexivity; simpl; lia |].
  apply list_elem_of_singleton in Hi as ->.
  split; [| split; [| split]]; try reflexivity; simpl; lia.
Defined.
